(** * Chunked transcoding pipeline of files/models.py

    A shallow embedding of the encoding-related parts of [files/models.py]:
    [Media.set_media_type], [Media.encode], [Media.set_encoding_status],
    [Encoding.set_progress] and the [post_save]/[post_delete] receivers
    [encoding_file_save] and [encoding_file_delete].

    The [Encoding] table is a list of rows in insertion order; code that
    touches the table, the file system or the task queue runs in a small
    state-and-exception monad whose state is the table, a clock and the
    list of external effects issued so far. *)

From Stdlib Require Import QArith Qround Ascii String.
From stdpp Require Import base decidable option list strings gmap.
From Stdlib Require Import Lia Lqa.

Local Open Scope string_scope.
Local Open Scope Z_scope.

(** ** Python values and primitives *)

Module Py.

(** Exceptions the modelled code can raise; [DatabaseError] is Django's. *)
Inductive exn : Type :=
| ValueError
| TypeError
| DatabaseError.

(** The values [Encoding.set_progress] can be called with. A [bool] is an
    instance of [int] in Python ([True == 1], [False == 0]); a float is
    represented by the rational number it denotes. *)
Inductive value : Type :=
| VNone
| VBool (b : bool)
| VInt (z : Z)
| VFloat (q : Q)
| VStr (s : string).

(** [isinstance(v, int)] together with the integer the value denotes. *)
Definition as_int (v : value) : option Z :=
  match v with
  | VInt z => Some z
  | VBool b => Some (if b then 1 else 0)
  | _ => None
  end.

Definition isinstance_int (v : value) : bool :=
  match as_int v with Some _ => true | None => false end.

(** [round(x)] for a float [x]: the nearest integer, ties to the even one. *)
Definition round (q : Q) : Z :=
  let f := Qfloor q in
  match Qcompare (q - inject_Z f) (1 # 2) with
  | Lt => f
  | Gt => f + 1
  | Eq => if Z.even f then f else f + 1
  end.

(** [int(x)] for a float [x]: truncation towards zero. *)
Definition int (q : Q) : Z := Z.quot (Qnum q) (Zpos (Qden q)).

(** [min(...)] and [max(...)] over a generator; [ValueError] when empty. *)
Definition min (l : list Z) : exn + Z :=
  match l with
  | [] => inl ValueError
  | x :: l' => inr (foldr Z.min x l')
  end.

Definition max (l : list Z) : exn + Z :=
  match l with
  | [] => inl ValueError
  | x :: l' => inr (foldr Z.max x l')
  end.

(** [a < b] where [b] may be [None]: comparing an int with [None] raises
    [TypeError]. *)
Definition lt (a : Z) (b : option Z) : exn + bool :=
  match b with
  | Some r => inr (bool_decide (a < r))
  | None => inl TypeError
  end.

(** [x in l] where [x] may be [None] and [l] is a list of ints. *)
Definition contains (l : list Z) (x : option Z) : bool :=
  match x with
  | Some r => bool_decide (r ∈ l)
  | None => false
  end.

(** ["\n".join(l)]. *)
Definition newline : string := String "010"%char EmptyString.
Definition join_lines (l : list string) : string := String.concat newline l.

(** [(end - start).seconds] for two datetimes given in microseconds: the
    seconds component of the normalised timedelta, which leaves out whole
    days. *)
Definition timedelta_seconds (end_date start_date : Z) : Z :=
  ((end_date - start_date) `div` 1000000) `mod` 86400.

End Py.

(** ** The data model *)

Module EncodeProfile.
Record t : Type := mk {
  id : Z;
  name : string;
  extension : string;
  resolution : option Z;
  codec : option string;
  active : bool
}.

(** Django compares model instances by primary key. *)
Definition eqb (p q : t) : bool := bool_decide (id p = id q).
End EncodeProfile.

Module Encoding.
Record t : Type := mk {
  id : Z;
  logs : string;
  media : Z;                      (* primary key of the Media row *)
  profile : EncodeProfile.t;
  status : string;
  media_file : string;            (* name of the stored file, "" when none *)
  progress : Py.value;
  add_date : Z;                   (* microseconds *)
  update_date : Z;
  size : string;
  total_run_time : Z;
  retries : Z;
  worker : string;
  chunk : bool;
  chunk_file_path : string;
  chunks_info : string;
  md5sum : option string
}.

(** [Encoding(media=..., profile=..., status=..., progress=...)] before it
    is saved: every other field has the default of its column. *)
Definition new (media : Z) (profile : EncodeProfile.t) (status : string)
    (progress : Z) : t :=
  {| id := 0; logs := ""; media := media; profile := profile;
     status := status; media_file := ""; progress := Py.VInt progress;
     add_date := 0; update_date := 0; size := ""; total_run_time := 0;
     retries := 0; worker := ""; chunk := false; chunk_file_path := "";
     chunks_info := ""; md5sum := None |}.

Definition with_id (i : Z) (e : t) : t :=
  {| id := i; logs := logs e; media := media e; profile := profile e;
     status := status e; media_file := media_file e; progress := progress e;
     add_date := add_date e; update_date := update_date e; size := size e;
     total_run_time := total_run_time e; retries := retries e;
     worker := worker e; chunk := chunk e;
     chunk_file_path := chunk_file_path e; chunks_info := chunks_info e;
     md5sum := md5sum e |}.

Definition with_dates (a u : Z) (e : t) : t :=
  {| id := id e; logs := logs e; media := media e; profile := profile e;
     status := status e; media_file := media_file e; progress := progress e;
     add_date := a; update_date := u; size := size e;
     total_run_time := total_run_time e; retries := retries e;
     worker := worker e; chunk := chunk e;
     chunk_file_path := chunk_file_path e; chunks_info := chunks_info e;
     md5sum := md5sum e |}.

Definition with_progress (p : Py.value) (e : t) : t :=
  {| id := id e; logs := logs e; media := media e; profile := profile e;
     status := status e; media_file := media_file e; progress := p;
     add_date := add_date e; update_date := update_date e; size := size e;
     total_run_time := total_run_time e; retries := retries e;
     worker := worker e; chunk := chunk e;
     chunk_file_path := chunk_file_path e; chunks_info := chunks_info e;
     md5sum := md5sum e |}.

Definition with_media_file (f sz : string) (e : t) : t :=
  {| id := id e; logs := logs e; media := media e; profile := profile e;
     status := status e; media_file := f; progress := progress e;
     add_date := add_date e; update_date := update_date e; size := sz;
     total_run_time := total_run_time e; retries := retries e;
     worker := worker e; chunk := chunk e;
     chunk_file_path := chunk_file_path e; chunks_info := chunks_info e;
     md5sum := md5sum e |}.

Definition with_md5sum (sum : option string) (e : t) : t :=
  {| id := id e; logs := logs e; media := media e; profile := profile e;
     status := status e; media_file := media_file e; progress := progress e;
     add_date := add_date e; update_date := update_date e; size := size e;
     total_run_time := total_run_time e; retries := retries e;
     worker := worker e; chunk := chunk e;
     chunk_file_path := chunk_file_path e; chunks_info := chunks_info e;
     md5sum := sum |}.

Definition with_report (l w : string) (rt : Z) (e : t) : t :=
  {| id := id e; logs := l; media := media e; profile := profile e;
     status := status e; media_file := media_file e; progress := progress e;
     add_date := add_date e; update_date := update_date e; size := size e;
     total_run_time := rt; retries := retries e;
     worker := w; chunk := chunk e;
     chunk_file_path := chunk_file_path e; chunks_info := chunks_info e;
     md5sum := md5sum e |}.
End Encoding.

Module Media.
Record t : Type := mk {
  id : Z;
  friendly_token : string;
  media_file : string;            (* media_file.path *)
  state : string;
  media_type : string;
  duration : Z;
  video_height : Z;
  media_info : string;
  size : string;
  md5sum : option string;
  encoding_status : string
}.

Definition with_state (st : string) (m : t) : t :=
  {| id := id m; friendly_token := friendly_token m;
     media_file := media_file m; state := st; media_type := media_type m;
     duration := duration m; video_height := video_height m;
     media_info := media_info m; size := size m; md5sum := md5sum m;
     encoding_status := encoding_status m |}.

Definition with_media_type (ty : string) (m : t) : t :=
  {| id := id m; friendly_token := friendly_token m;
     media_file := media_file m; state := state m; media_type := ty;
     duration := duration m; video_height := video_height m;
     media_info := media_info m; size := size m; md5sum := md5sum m;
     encoding_status := encoding_status m |}.

Definition with_encoding_status (st : string) (m : t) : t :=
  {| id := id m; friendly_token := friendly_token m;
     media_file := media_file m; state := state m;
     media_type := media_type m; duration := duration m;
     video_height := video_height m; media_info := media_info m;
     size := size m; md5sum := md5sum m; encoding_status := st |}.

Definition with_duration (d : Z) (m : t) : t :=
  {| id := id m; friendly_token := friendly_token m;
     media_file := media_file m; state := state m;
     media_type := media_type m; duration := d;
     video_height := video_height m; media_info := media_info m;
     size := size m; md5sum := md5sum m;
     encoding_status := encoding_status m |}.

Definition with_video_height (h : Z) (m : t) : t :=
  {| id := id m; friendly_token := friendly_token m;
     media_file := media_file m; state := state m;
     media_type := media_type m; duration := duration m;
     video_height := h; media_info := media_info m;
     size := size m; md5sum := md5sum m;
     encoding_status := encoding_status m |}.

Definition with_info (info sz : string) (md5 : option string) (m : t) : t :=
  {| id := id m; friendly_token := friendly_token m;
     media_file := media_file m; state := state m;
     media_type := media_type m; duration := duration m;
     video_height := video_height m; media_info := info;
     size := sz; md5sum := md5;
     encoding_status := encoding_status m |}.
End Media.

(** The dictionary [helpers.media_file_info] returns, read through the
    accessors [Media.set_media_type] applies to it. *)
Module FileInfo.
Record t : Type := mk {
  fail : bool;                    (* ret.get("fail") *)
  is_video : bool;                (* ret.get("is_video") *)
  is_audio : bool;                (* ret.get("is_audio") *)
  (** The float [ret["video_duration"]] denotes, when the key is there. *)
  video_duration : option Q;
  (** [int(ret.get("video_height"))], when the key is there. *)
  video_height : option Z;
  (** The float [ret["audio_info"]["duration"]] denotes, when it is there. *)
  audio_duration : option Q;
  dumps : string;                 (* json.dumps(ret), "" on TypeError *)
  md5sum : option string;         (* ret.get("md5sum") *)
  file_size : string              (* helpers.show_file_size(...) *)
}.
End FileInfo.

(** ** Settings and external helpers *)

(** The values of [django.conf.settings] the modelled code reads. *)
Class Settings : Type := {
  CHUNKIZE_VIDEO_DURATION : Z;
  MINIMUM_RESOLUTIONS_TO_ENCODE : list Z;
  SSL_FRONTEND_HOST : string;
  MEDIA_ROOT : string
}.

(** Library and helper functions that are called by, but not defined in,
    [files/models.py]. *)
Class Helpers : Type := {
  (** [json.loads(s).keys()]; [None] when either call raises. *)
  json_keys : string → option (list string);
  (** [json.loads("")] raises. *)
  json_keys_empty : json_keys "" = None;
  (** [str(helpers.run_command(cmd))] for the ffmpeg concat command over the
      given segment files. *)
  run_concat : list string → string;
  (** [str(l)] for a list of paths. *)
  repr_paths : list string → string;
  (** [json.dumps({"workers": l})]. *)
  dumps_workers : list string → string;
  (** [helpers.get_file_name(media.media_file.path)] for a Media key. *)
  source_file_name : Z → string;
  (** [encoding_media_file_path(instance, filename)]. *)
  upload_to : Z → string → string;
  (** [helpers.show_file_size] of what [stat] prints for a path, when it
      prints something. *)
  stat_size : string → option string;
  (** [reverse("api_get_encoding", ...)]. *)
  get_absolute_url : Z → string;
  (** [helpers.get_file_type(path)]. *)
  get_file_type : string → option string;
  (** [helpers.media_file_info(path)]. *)
  media_file_info : string → FileInfo.t;
  (** [methods.is_media_allowed_type(media)]. *)
  is_media_allowed_type : Media.t → bool;
  (** [instance.media.media_type] for a Media key: the receivers read this
      column and never write it. *)
  media_type_of : Z → string;
  (** The checksum [md5sum] prints for a path, [stdout.strip().split()[0]],
      when it prints something. *)
  md5sum_of : string → option string
}.

(** ** Effects, the store and its monad *)

Inductive event : Type :=
| RmFile (path : string)
| RunConcat (segments : list string)
| PostEncodeActions (media encoding : Z) (action : string)
| EncodeMediaTask (friendly_token : string) (profile_id encoding_id : Z)
    (enc_url : string) (force : bool) (priority : Z)
| ChunkizeMediaTask (friendly_token : string) (profile_ids : list Z)
    (force : bool)
| SetThumbnail (media : Z)
| ProduceSprite (friendly_token : string).

Record store : Type := mkStore {
  rows : list Encoding.t;           (* Encoding.objects, by insertion *)
  now : Z;                          (* timezone.now() *)
  trace : list event                (* effects issued, oldest first *)
}.

Definition M (A : Type) : Type := store → (Py.exn + A) * store.

#[global] Instance M_ret : MRet M := λ A a s, (inr a, s).

#[global] Instance M_bind : MBind M := λ A B f m s,
  match m s with
  | (inr a, s') => f a s'
  | (inl e, s') => (inl e, s')
  end.

Definition raise {A : Type} (e : Py.exn) : M A := λ s, (inl e, s).

Definition lift {A : Type} (r : Py.exn + A) : M A := λ s, (r, s).

Definition get_rows : M (list Encoding.t) := λ s, (inr (rows s), s).

Definition put_rows (l : list Encoding.t) : M unit :=
  λ s, (inr (), {| rows := l; now := now s; trace := trace s |}).

Definition get_now : M Z := λ s, (inr (now s), s).

Definition emit (ev : event) : M unit :=
  λ s, (inr (), {| rows := rows s; now := now s; trace := trace s ++ [ev] |}).

(** Iteration of an action over a list, stopping at the first exception. *)
Fixpoint for_each {A : Type} (f : A → M unit) (l : list A) : M unit :=
  match l with
  | [] => mret ()
  | x :: l' => f x ≫= λ _, for_each f l'
  end.

(** A list comprehension whose element expression may raise. *)
Fixpoint comprehension {A B : Type} (f : A → Py.exn + B) (l : list A)
    : Py.exn + list B :=
  match l with
  | [] => inr []
  | x :: l' =>
      match f x with
      | inl e => inl e
      | inr y =>
          match comprehension f l' with
          | inl e => inl e
          | inr ys => inr (y :: ys)
          end
      end
  end.

(** ** Tables and files *)

(** [FieldFile.path]: [ValueError] when the field has no file. *)
Definition media_file_path `{Settings} (e : Encoding.t) : Py.exn + string :=
  if bool_decide (Encoding.media_file e = "") then inl Py.ValueError
  else inr (MEDIA_ROOT ++ Encoding.media_file e).

(** The key an AutoField hands to a new row. The database takes it from a
    sequence, which makes it larger than every key in use; the model takes
    the least such key. *)
Definition fresh_id (l : list Encoding.t) : Z :=
  1 + foldr Z.max 0 (Encoding.id <$> l).

(** [order_by("add_date")]: a stable insertion sort on the creation time. *)
Fixpoint insert_by_add_date (e : Encoding.t) (l : list Encoding.t)
    : list Encoding.t :=
  match l with
  | [] => [e]
  | x :: l' =>
      if bool_decide (Encoding.add_date e ≤ Encoding.add_date x)
      then e :: x :: l'
      else x :: insert_by_add_date e l'
  end.

Definition order_by_add_date (l : list Encoding.t) : list Encoding.t :=
  foldr insert_by_add_date [] l.

(** The order in which [QuerySet.delete()] and [Model.delete()] send
    [post_delete]: the collector sorts the rows by key, with a stable sort,
    and reverses them. *)
Fixpoint insert_by_pk (e : Encoding.t) (l : list Encoding.t)
    : list Encoding.t :=
  match l with
  | [] => [e]
  | x :: l' =>
      if bool_decide (Encoding.id e ≤ Encoding.id x)
      then e :: x :: l'
      else x :: insert_by_pk e l'
  end.

Definition reverse_pk_order (l : list Encoding.t) : list Encoding.t :=
  reverse (foldr insert_by_pk [] l).

(** [Media.post_encode_actions(encoding=..., action=...)], always called
    with an encoding. It recomputes the aggregate status of the media, sets
    the preview path from a gif encoding of a video, saves the media and
    may schedule packaging; it never touches the Encoding table. For a gif
    encoding of a video and an action other than delete it reads
    [encoding.media_file.path], which raises [ValueError] when the encoding
    has no file. [Media.save] and [tasks.create_hls] are taken to return. *)
Definition post_encode_actions `{Settings} `{Helpers} (media : Z)
    (encoding : Encoding.t) (action : string) : M unit :=
  emit (PostEncodeActions media (Encoding.id encoding) action) ≫= λ _,
  if bool_decide (media_type_of media = "video")
     && bool_decide (EncodeProfile.extension (Encoding.profile encoding) = "gif")
  then
    if bool_decide (action = "delete") then mret ()
    else lift (media_file_path encoding) ≫= λ _, mret ()
  else mret ().

(** The last branch of the [post_save] receiver, taken for every row that
    is not a chunk (and for chunks that are neither success nor fail). *)
Definition encoding_file_save_other `{Settings} `{Helpers}
    (instance : Encoding.t) : M (option bool) :=
  (if bool_decide (Encoding.status instance ∈ ["fail"; "success"])
   then post_encode_actions (Encoding.media instance) instance "add"
   else mret ()) ≫= λ _,
  mret None.

(** [Encoding.save] of an object that is not a chunk: refresh [size] when a
    file is attached (no checksum is computed, [chunk_file_path] being empty
    for such an object), write the row (insert when the object has no key
    yet, update otherwise) and run the [post_save] receiver, which takes its
    last branch for such a row. The clock stands still during a call. *)
Definition save `{Helpers} `{Settings} (e : Encoding.t) : M Encoding.t :=
  let e1 :=
    if bool_decide (Encoding.media_file e = "") then e
    else match stat_size (MEDIA_ROOT ++ Encoding.media_file e) with
         | Some sz => Encoding.with_media_file (Encoding.media_file e) sz e
         | None => e
         end in
  table ← get_rows;
  t ← get_now;
  let e2 :=
    if bool_decide (Encoding.id e1 = 0)
    then Encoding.with_id (fresh_id table) (Encoding.with_dates t t e1)
    else Encoding.with_dates (Encoding.add_date e1) t e1 in
  put_rows
    (if bool_decide (Encoding.id e1 = 0) then table ++ [e2]
     else (λ r, if bool_decide (Encoding.id r = Encoding.id e2) then e2 else r)
            <$> table) ≫= λ _,
  encoding_file_save_other e2 ≫= λ _,
  mret e2.

(** [encoding_file_delete], the [post_delete] receiver. *)
Definition encoding_file_delete `{Settings} `{Helpers} (instance : Encoding.t)
    : M unit :=
  if bool_decide (Encoding.media_file instance = "") then mret ()
  else
    emit (RmFile (MEDIA_ROOT ++ Encoding.media_file instance)) ≫= λ _,
    if Encoding.chunk instance then mret ()
    else post_encode_actions (Encoding.media instance) instance "delete".

(** [QuerySet.delete()] for the rows selected by [P]: the rows leave the
    table, then the [post_delete] receiver runs for each of them, the row
    with the largest key first. *)
Definition queryset_delete `{Settings} `{Helpers} (P : Encoding.t → Prop)
    `{∀ r, Decision (P r)} : M unit :=
  table ← get_rows;
  put_rows (filter (λ r, ¬ P r) table) ≫= λ _,
  for_each encoding_file_delete (reverse_pk_order (filter P table)).

(** [instance.delete()]. *)
Definition delete `{Settings} `{Helpers} (instance : Encoding.t) : M unit :=
  table ← get_rows;
  put_rows (filter (λ r, Encoding.id r ≠ Encoding.id instance) table) ≫= λ _,
  encoding_file_delete instance.

(** [encoding.media_file.save(content=..., name=...)]: the file is stored
    under the name [upload_to] gives it and the row is saved again. *)
Definition media_file_save `{Helpers} `{Settings} (e : Encoding.t)
    (name : string) : M Encoding.t :=
  save (Encoding.with_media_file
          (upload_to (Encoding.media e) name) (Encoding.size e) e).

(** ** Chunk completion coordinator: the [post_save] receiver *)

Section Coordinator.
Context `{Settings} `{Helpers}.

(** Rows of the chunk set of [instance] on the success path:
    [filter(media=..., profile=..., chunks_info=..., chunk=True)]. *)
Definition sibling (instance r : Encoding.t) : Prop :=
  Encoding.media r = Encoding.media instance
  ∧ EncodeProfile.id (Encoding.profile r)
    = EncodeProfile.id (Encoding.profile instance)
  ∧ Encoding.chunks_info r = Encoding.chunks_info instance
  ∧ Encoding.chunk r = true.

(** Rows aggregated on the failure path:
    [filter(media=..., chunks_info=..., chunk=True)]. *)
Definition fail_sibling (instance r : Encoding.t) : Prop :=
  Encoding.media r = Encoding.media instance
  ∧ Encoding.chunks_info r = Encoding.chunks_info instance
  ∧ Encoding.chunk r = true.

(** Rows counted by the final validation:
    [filter(media=..., profile=..., chunks_info=...)]. *)
Definition same_manifest (instance r : Encoding.t) : Prop :=
  Encoding.media r = Encoding.media instance
  ∧ EncodeProfile.id (Encoding.profile r)
    = EncodeProfile.id (Encoding.profile instance)
  ∧ Encoding.chunks_info r = Encoding.chunks_info instance.

(** [filter(media=encoding.media, profile=encoding.profile)
      .exclude(id=encoding.id)]. *)
Definition who (encoding r : Encoding.t) : Prop :=
  (Encoding.media r = Encoding.media encoding
   ∧ EncodeProfile.id (Encoding.profile r)
     = EncodeProfile.id (Encoding.profile encoding))
  ∧ Encoding.id r ≠ Encoding.id encoding.

#[global] Instance sibling_dec i r : Decision (sibling i r).
Proof. unfold sibling. apply _. Defined.
#[global] Instance fail_sibling_dec i r : Decision (fail_sibling i r).
Proof. unfold fail_sibling. apply _. Defined.
#[global] Instance same_manifest_dec i r : Decision (same_manifest i r).
Proof. unfold same_manifest. apply _. Defined.
#[global] Instance who_dec i r : Decision (who i r).
Proof. unfold who. apply _. Defined.

(** [chunk.media_file and chunk.media_file.path]. *)
Definition has_artifact (c : Encoding.t) : bool :=
  if bool_decide (Encoding.media_file c = "") then false
  else bool_decide (MEDIA_ROOT ++ Encoding.media_file c ≠ "").

(** The two validation loops: every manifest key is the
    [chunk_file_path] of some sibling, and every sibling has a file. *)
Definition complete (orig_chunks : list string) (chunks : list Encoding.t)
    : bool :=
  forallb
    (λ k, bool_decide (filter (λ c, Encoding.chunk_file_path c = k) chunks ≠ []))
    orig_chunks
  && forallb has_artifact chunks.

(** Logs, workers and run time gathered from the chunk rows. *)
Definition aggregate (chunks : list Encoding.t) (head : list string)
    (encoding : Encoding.t) : M Encoding.t :=
  let all_logs := Py.join_lines (Encoding.logs <$> chunks) in
  let logs := Py.join_lines (head ++ [all_logs]) in
  let workers : gset string := list_to_set (Encoding.worker <$> chunks) in
  start_date ← lift (Py.min (Encoding.add_date <$> chunks));
  end_date ← lift (Py.max (Encoding.update_date <$> chunks));
  mret (Encoding.with_report logs (dumps_workers (elements workers))
          (Py.timedelta_seconds end_date start_date) encoding).

Definition encoding_file_save (instance : Encoding.t) : M (option bool) :=
  if Encoding.chunk instance
     && bool_decide (Encoding.status instance = "success") then
    if bool_decide (Encoding.media_file instance = "") then mret None
    else
      match json_keys (Encoding.chunks_info instance) with
      | None => delete instance ≫= λ _, mret (Some false)
      | Some orig_chunks =>
          table ← get_rows;
          let chunks := order_by_add_date (filter (sibling instance) table) in
          if complete orig_chunks chunks then
            chunks_paths ← lift (comprehension media_file_path chunks);
            emit (RunConcat chunks_paths) ≫= λ _,
            let stdout := run_concat chunks_paths in
            let encoding :=
              Encoding.new (Encoding.media instance)
                (Encoding.profile instance) "success" 100 in
            encoding ← aggregate chunks [repr_paths chunks_paths; stdout]
                         encoding;
            encoding ← save encoding;
            let output_name :=
              source_file_name (Encoding.media instance) ++ "."
              ++ EncodeProfile.extension (Encoding.profile instance) in
            encoding ← media_file_save encoding output_name;
            (* final validation to avoid double-run *)
            table ← get_rows;
            (if bool_decide
                  (length orig_chunks
                   = length (filter (same_manifest instance) table))
             then queryset_delete (who encoding)
             else delete encoding) ≫= λ _,
            table ← get_rows;
            (if bool_decide
                  (filter (λ r, Encoding.chunks_info r
                                = Encoding.chunks_info instance) table = [])
             then for_each (λ chunk, emit (RmFile chunk)) orig_chunks
             else mret ()) ≫= λ _,
            post_encode_actions (Encoding.media instance) instance "add"
              ≫= λ _,
            mret None
          else mret None
      end
  else if Encoding.chunk instance
          && bool_decide (Encoding.status instance = "fail") then
    let encoding :=
      Encoding.new (Encoding.media instance) (Encoding.profile instance)
        "fail" 100 in
    table ← get_rows;
    let chunks := order_by_add_date (filter (fail_sibling instance) table) in
    chunks_paths ← lift (comprehension media_file_path chunks);
    encoding ← aggregate chunks [repr_paths chunks_paths] encoding;
    encoding ← save encoding;
    queryset_delete (who encoding) ≫= λ _,
    mret None
  else encoding_file_save_other instance.

End Coordinator.

(** ** Encoding.set_progress *)

Section SetProgress.
Context `{Settings} `{Helpers}.

(** The statements of [Encoding.save] before [super().save]: [size] is read
    again when a file is attached, and the checksum of the chunk source is
    computed when there is a [chunk_file_path] and no [md5sum] yet. *)
Definition refreshed (self : Encoding.t) : Encoding.t :=
  let self :=
    if bool_decide (Encoding.media_file self = "") then self
    else match stat_size (MEDIA_ROOT ++ Encoding.media_file self) with
         | Some sz => Encoding.with_media_file (Encoding.media_file self) sz self
         | None => self
         end in
  if bool_decide (Encoding.chunk_file_path self ≠ "")
     && bool_decide (Encoding.md5sum self = None
                     ∨ Encoding.md5sum self = Some "")
  then match md5sum_of (Encoding.chunk_file_path self) with
       | Some sum => Encoding.with_md5sum (Some sum) self
       | None => self
       end
  else self.

(** What the integer column [progress] holds for a value: [True] and
    [False] are written as 1 and 0. *)
Definition stored_progress (p : Py.value) : Py.value :=
  match Py.as_int p with
  | Some z => Py.VInt z
  | None => p
  end.

(** [self.save(update_fields=["progress"])]: after the statements of
    [Encoding.save], [super().save] raises [ValueError] for an object without
    key, writes the column [progress] of the row with the key of the object
    and no other column, raises [DatabaseError] when there is no such row,
    and sends [post_save] with the object. The call returns [None]; the
    object as the call leaves it is returned here. *)
Definition save_progress (self : Encoding.t) : M Encoding.t :=
  let self := refreshed self in
  if bool_decide (Encoding.id self = 0) then raise Py.ValueError
  else
    table ← get_rows;
    if bool_decide (Encoding.id self ∈ Encoding.id <$> table) then
      put_rows
        ((λ r, if bool_decide (Encoding.id r = Encoding.id self)
               then Encoding.with_progress
                      (stored_progress (Encoding.progress self)) r
               else r) <$> table) ≫= λ _,
      encoding_file_save self ≫= λ _,
      mret self
    else raise Py.DatabaseError.

(** [Encoding.set_progress]: the value returned and the object afterwards. *)
Definition set_progress (self : Encoding.t) (progress : Py.value)
    (commit : bool) : M (bool * Encoding.t) :=
  if Py.isinstance_int progress
     && match Py.as_int progress with
        | Some z => bool_decide (0 ≤ z) && bool_decide (z ≤ 100)
        | None => false
        end
  then
    let self := Encoding.with_progress progress self in
    if commit then
      self ← save_progress self;
      mret (true, self)
    else mret (true, self)
  else mret (false, self).

End SetProgress.

(** ** Aggregate status resolver: Media.set_encoding_status *)

(** [self.encodings.filter(profile__extension="mp4", chunk=False)]. *)
Definition mp4_jobs (table : list Encoding.t) (self : Media.t)
    : list Encoding.t :=
  filter (λ enc, Encoding.media enc = Media.id self
                 ∧ EncodeProfile.extension (Encoding.profile enc) = "mp4"
                 ∧ Encoding.chunk enc = false) table.

Definition mp4_statuses (table : list Encoding.t) (self : Media.t)
    : gset string :=
  list_to_set (Encoding.status <$> mp4_jobs table self).

Definition resolve_status (statuses : gset string) : string :=
  if bool_decide (statuses = ∅) then "pending"
  else if bool_decide ("success" ∈ statuses) then "success"
  else if bool_decide ("running" ∈ statuses) then "running"
  else "fail".

Definition set_encoding_status (table : list Encoding.t) (self : Media.t)
    : Media.t :=
  Media.with_encoding_status (resolve_status (mp4_statuses table self)) self.

(** ** Probe: Media.set_media_type *)

(** The method works on [self] in place and returns [True]; here it returns
    the object as the method leaves it, or the exception it raises. The
    closing [self.save(update_fields=...)] writes these fields to the Media
    row. *)
Definition set_media_type `{Helpers} (self : Media.t) : Py.exn + Media.t :=
  let kind := get_file_type (Media.media_file self) in
  let self :=
    match kind with
    | Some k =>
        if bool_decide (k = "image") then Media.with_media_type "image" self
        else if bool_decide (k = "pdf") then Media.with_media_type "pdf" self
        else if bool_decide (k = "audio") then Media.with_media_type "audio" self
        else Media.with_media_type "video" self
    | None => self
    end in
  if bool_decide (Media.media_type self ∈ ["image"; "pdf"]) then
    inr (Media.with_encoding_status "success" self)
  else
    let ret := media_file_info (Media.media_file self) in
    let failed m :=
      Media.with_encoding_status "fail" (Media.with_media_type "" m) in
    let self :=
      if FileInfo.fail ret then failed self
      else if FileInfo.is_video ret || FileInfo.is_audio ret then
        Media.with_info (FileInfo.dumps ret) (FileInfo.file_size ret)
          (FileInfo.md5sum ret) self
      else failed self in
    if FileInfo.is_video ret then
      let self := Media.with_media_type "video" self in
      let self :=
        Media.with_duration
          (Py.round (default 0%Q (FileInfo.video_duration ret))) self in
      match FileInfo.video_height ret with
      | Some h => inr (Media.with_video_height h self)
      | None => inl Py.TypeError
      end
    else if FileInfo.is_audio ret then
      let self := Media.with_media_type "audio" self in
      let self :=
        Media.with_duration
          (Py.int (default 0%Q (FileInfo.audio_duration ret))) self in
      inr (Media.with_encoding_status "success" self)
    else inr self.

(** The media type after the [filetype] guess, before ffprobe is asked. *)
Definition guessed_type `{Helpers} (self : Media.t) : string :=
  match get_file_type (Media.media_file self) with
  | Some k =>
      if bool_decide (k = "image") then "image"
      else if bool_decide (k = "pdf") then "pdf"
      else if bool_decide (k = "audio") then "audio"
      else "video"
  | None => Media.media_type self
  end.

(** ** Profile selection, chunk planning and dispatch: Media.encode *)

Section Encode.
Context `{Settings} `{Helpers}.

(** [profiles.remove(profile)]: drops the first element equal to
    [profile]; [ValueError] when there is none. *)
Fixpoint list_remove (profile : EncodeProfile.t)
    (profiles : list EncodeProfile.t) : Py.exn + list EncodeProfile.t :=
  match profiles with
  | [] => inl Py.ValueError
  | x :: rest =>
      if EncodeProfile.eqb x profile then inr rest
      else match list_remove profile rest with
           | inl e => inl e
           | inr rest' => inr (x :: rest')
           end
  end.

(** The four statements shared by both branches: create the row, save it,
    build the callback url, queue [tasks.encode_media]. *)
Definition create_and_dispatch (self : Media.t) (profile : EncodeProfile.t)
    (force : bool) (priority : Z) : M unit :=
  encoding ← save (Encoding.new (Media.id self) profile "pending" 0);
  let enc_url := SSL_FRONTEND_HOST ++ get_absolute_url (Encoding.id encoding) in
  emit (EncodeMediaTask (Media.friendly_token self) (EncodeProfile.id profile)
          (Encoding.id encoding) enc_url force priority).

(** The loop of the chunked branch, over the copy [list(profiles)]. *)
Fixpoint encode_gifs (self : Media.t) (force : bool)
    (copy profiles : list EncodeProfile.t) : M (list EncodeProfile.t) :=
  match copy with
  | [] => mret profiles
  | profile :: rest =>
      if bool_decide (EncodeProfile.extension profile = "gif") then
        profiles ← lift (list_remove profile profiles);
        create_and_dispatch self profile force 0 ≫= λ _,
        encode_gifs self force rest profiles
      else encode_gifs self force rest profiles
  end.

(** The test that ends in [continue] in the whole-file branch. *)
Definition skipped (self : Media.t) (profile : EncodeProfile.t)
    : Py.exn + bool :=
  if bool_decide (EncodeProfile.extension profile ≠ "gif") then
    if bool_decide (Media.video_height self ≠ 0) then
      match Py.lt (Media.video_height self) (EncodeProfile.resolution profile) with
      | inl e => inl e
      | inr true =>
          inr (negb (Py.contains MINIMUM_RESOLUTIONS_TO_ENCODE
                       (EncodeProfile.resolution profile)))
      | inr false => inr false
      end
    else inr false
  else inr false.

Definition priority_of (profile : EncodeProfile.t) : Z :=
  if Py.contains MINIMUM_RESOLUTIONS_TO_ENCODE (EncodeProfile.resolution profile)
  then 9 else 0.

(** The loop of the whole-file branch. *)
Fixpoint encode_whole (self : Media.t) (force : bool)
    (profiles : list EncodeProfile.t) : M unit :=
  match profiles with
  | [] => mret ()
  | profile :: rest =>
      skip ← lift (skipped self profile);
      (if skip : bool then mret ()
       else create_and_dispatch self profile force (priority_of profile))
        ≫= λ _,
      encode_whole self force rest
  end.

(** [Media.encode]; [active_profiles] is
    [EncodeProfile.objects.filter(active=True)]. *)
Definition encode (active_profiles : list EncodeProfile.t) (self : Media.t)
    (profiles : option (list EncodeProfile.t)) (force chunkize : bool)
    : M bool :=
  let profiles := default active_profiles profiles in
  (if bool_decide (Media.duration self > CHUNKIZE_VIDEO_DURATION) && chunkize
   then
     profiles ← encode_gifs self force profiles profiles;
     let profile_ids := EncodeProfile.id <$> profiles in
     emit (ChunkizeMediaTask (Media.friendly_token self) profile_ids force)
   else encode_whole self force profiles) ≫= λ _,
  mret true.

(** [Media.media_init], from the probe on: an exception raised by
    [set_thumbnail] is logged and dropped, so the call is an effect that
    cannot fail here. *)
Definition media_init (active_profiles : list EncodeProfile.t)
    (self : Media.t) : M (bool * Media.t) :=
  self ← lift (set_media_type self);
  if negb (is_media_allowed_type self) then
    emit (RmFile (Media.media_file self)) ≫= λ _,
    mret (false,
          if bool_decide (Media.state self = "public")
          then Media.with_state "unlisted" self else self)
  else if bool_decide (Media.media_type self = "video") then
    emit (SetThumbnail (Media.id self)) ≫= λ _,
    encode active_profiles self None true true ≫= λ _,
    emit (ProduceSprite (Media.friendly_token self)) ≫= λ _,
    mret (true, self)
  else if bool_decide (Media.media_type self = "image") then
    emit (SetThumbnail (Media.id self)) ≫= λ _,
    mret (true, self)
  else mret (true, self).

End Encode.

(** ** Vocabulary of the statements about Media.encode *)

Section EncodeVocabulary.
Context `{Settings} `{Helpers}.

(** The profile gets a job in the whole-file branch: the test before
    [continue] evaluates to [False]. *)
Definition selected (self : Media.t) (profile : EncodeProfile.t) : bool :=
  match skipped self profile with
  | inr false => true
  | _ => false
  end.

(** The [tasks.encode_media] call queued for the saved row [e]. *)
Definition dispatched (self : Media.t) (force : bool) (priority : Z)
    (e : Encoding.t) : event :=
  EncodeMediaTask (Media.friendly_token self)
    (EncodeProfile.id (Encoding.profile e)) (Encoding.id e)
    (SSL_FRONTEND_HOST ++ get_absolute_url (Encoding.id e)) force priority.

(** A row as [Encoding(media=self, profile=profile)] leaves it after its
    first save. *)
Definition whole_file_job (self : Media.t) (e : Encoding.t) : Prop :=
  Encoding.chunk e = false
  ∧ Encoding.status e = "pending"
  ∧ Encoding.media e = Media.id self
  ∧ Encoding.media_file e = ""
  ∧ Encoding.chunks_info e = "".

(** Profiles are rows of one table: objects with the same primary key have
    the same extension. *)
Definition same_key_same_extension (profiles : list EncodeProfile.t) : Prop :=
  ∀ p q, p ∈ profiles → q ∈ profiles
         → EncodeProfile.id p = EncodeProfile.id q
         → EncodeProfile.extension p = EncodeProfile.extension q.

(** Every profile that is not a gif has a target resolution. *)
Definition resolutions_set (profiles : list EncodeProfile.t) : Prop :=
  ∀ p, p ∈ profiles → EncodeProfile.extension p ≠ "gif"
       → is_Some (EncodeProfile.resolution p).

End EncodeVocabulary.

(** ** Vocabulary of the statements about the coordinator *)

(** The effects of the [post_delete] receiver for one row. *)
Definition deletion_trace `{Settings} (r : Encoding.t) : list event :=
  if bool_decide (Encoding.media_file r = "") then []
  else RmFile (MEDIA_ROOT ++ Encoding.media_file r)
       :: (if Encoding.chunk r then []
           else [PostEncodeActions (Encoding.media r) (Encoding.id r) "delete"]).

(** Rows of the (media, profile) pair of a row. *)
Definition same_pair (instance r : Encoding.t) : Prop :=
  Encoding.media r = Encoding.media instance
  ∧ EncodeProfile.id (Encoding.profile r)
    = EncodeProfile.id (Encoding.profile instance).

#[global] Instance same_pair_dec i r : Decision (same_pair i r).
Proof. unfold same_pair. apply _. Defined.

(** Successful jobs of the pair that are not chunks. *)
Definition final_success (instance r : Encoding.t) : Prop :=
  same_pair instance r ∧ Encoding.chunk r = false
  ∧ Encoding.status r = "success".

#[global] Instance final_success_dec i r : Decision (final_success i r).
Proof. unfold final_success. apply _. Defined.

(** ** Concrete settings, helpers and rows for the examples *)

Module Demo.

Definition quote : string := String "034"%char EmptyString.

(** [json.dumps] of a dictionary from chunk paths to checksums. *)
Definition dumps (d : list (string * string)) : string :=
  "{" ++ String.concat ", "
           ((λ kv, quote ++ kv.1 ++ quote ++ ": " ++ quote ++ kv.2 ++ quote)
              <$> d) ++ "}".

Definition manifest1 : string := dumps [("/tmp/c0.mkv", "d41d")].
Definition manifest2 : string :=
  dumps [("/tmp/c0.mkv", "d41d"); ("/tmp/c1.mkv", "8cd9")].

#[export] Instance settings : Settings := {|
  CHUNKIZE_VIDEO_DURATION := 240;
  MINIMUM_RESOLUTIONS_TO_ENCODE := [240; 360];
  SSL_FRONTEND_HOST := "https://cinemata.org";
  MEDIA_ROOT := "/media/"
|}.

Definition probe_video : FileInfo.t :=
  {| FileInfo.fail := false; FileInfo.is_video := true;
     FileInfo.is_audio := false;
     FileInfo.video_duration := Some (5 # 2)%Q;
     FileInfo.video_height := Some 720;
     FileInfo.audio_duration := None; FileInfo.dumps := "{}";
     FileInfo.md5sum := Some "d41d"; FileInfo.file_size := "1MB" |}.

Definition probe_audio : FileInfo.t :=
  {| FileInfo.fail := false; FileInfo.is_video := false;
     FileInfo.is_audio := true;
     FileInfo.video_duration := None;
     FileInfo.video_height := None;
     FileInfo.audio_duration := Some (19 # 10)%Q; FileInfo.dumps := "{}";
     FileInfo.md5sum := Some "8cd9"; FileInfo.file_size := "1MB" |}.

(** The helpers on the inputs of the examples: the two manifests are the
    only JSON among the strings used, and the probe knows four files. *)
#[export] Instance helpers : Helpers := {|
  json_keys s :=
    if bool_decide (s = manifest1) then Some ["/tmp/c0.mkv"]
    else if bool_decide (s = manifest2) then Some ["/tmp/c0.mkv"; "/tmp/c1.mkv"]
    else None;
  json_keys_empty := eq_refl;
  run_concat _ := "{'out': ''}";
  repr_paths l := "[" ++ String.concat ", " ((λ p, "'" ++ p ++ "'") <$> l) ++ "]";
  dumps_workers l :=
    "{" ++ quote ++ "workers" ++ quote ++ ": ["
    ++ String.concat ", " ((λ w, quote ++ w ++ quote) <$> l) ++ "]}";
  source_file_name _ := "talk";
  upload_to media name := "encoded/" ++ name;
  stat_size _ := Some "1MB";
  get_absolute_url _ := "/api/v1/encodings/";
  get_file_type path :=
    if bool_decide (path = "/media/a.jpg") then Some "image"
    else if bool_decide (path = "/media/a.pdf") then Some "pdf"
    else if bool_decide (path = "/media/a.mp3") then Some "audio"
    else if bool_decide (path = "/media/a.mov") then Some "video"
    else None;
  media_file_info path :=
    if bool_decide (path = "/media/a.mp3") then probe_audio else probe_video;
  is_media_allowed_type _ := true;
  media_type_of _ := "video";
  md5sum_of _ := Some "d41d"
|}.

Definition mp4_720 : EncodeProfile.t :=
  {| EncodeProfile.id := 1; EncodeProfile.name := "h264-720";
     EncodeProfile.extension := "mp4"; EncodeProfile.resolution := Some 720;
     EncodeProfile.codec := Some "h264"; EncodeProfile.active := true |}.

Definition mp4_240 : EncodeProfile.t :=
  {| EncodeProfile.id := 2; EncodeProfile.name := "h264-240";
     EncodeProfile.extension := "mp4"; EncodeProfile.resolution := Some 240;
     EncodeProfile.codec := Some "h264"; EncodeProfile.active := true |}.

Definition webm_720 : EncodeProfile.t :=
  {| EncodeProfile.id := 5; EncodeProfile.name := "vp9-720";
     EncodeProfile.extension := "webm"; EncodeProfile.resolution := Some 720;
     EncodeProfile.codec := Some "vp9"; EncodeProfile.active := true |}.

Definition preview : EncodeProfile.t :=
  {| EncodeProfile.id := 3; EncodeProfile.name := "preview";
     EncodeProfile.extension := "gif"; EncodeProfile.resolution := None;
     EncodeProfile.codec := None; EncodeProfile.active := true |}.

(** A row of the Encoding table for media 1. *)
Definition row (id : Z) (profile : EncodeProfile.t) (status file : string)
    (chunk : bool) (chunk_file_path chunks_info : string) : Encoding.t :=
  {| Encoding.id := id; Encoding.logs := "log"; Encoding.media := 1;
     Encoding.profile := profile; Encoding.status := status;
     Encoding.media_file := file; Encoding.progress := Py.VInt 100;
     Encoding.add_date := id * 1000000;
     Encoding.update_date := (id + 60) * 1000000;
     Encoding.size := ""; Encoding.total_run_time := 0;
     Encoding.retries := 0; Encoding.worker := "w1"; Encoding.chunk := chunk;
     Encoding.chunk_file_path := chunk_file_path;
     Encoding.chunks_info := chunks_info; Encoding.md5sum := None |}.

Definition table_of (l : list Encoding.t) : store :=
  {| rows := l; now := 900000000; trace := [] |}.

Definition video (duration height : Z) : Media.t :=
  {| Media.id := 1; Media.friendly_token := "tok"; Media.media_file := "/media/a.mov";
     Media.state := "public"; Media.media_type := "video";
     Media.duration := duration; Media.video_height := height;
     Media.media_info := ""; Media.size := ""; Media.md5sum := None;
     Media.encoding_status := "pending" |}.

Definition audio : Media.t :=
  {| Media.id := 2; Media.friendly_token := "tok2"; Media.media_file := "/media/a.mp3";
     Media.state := "public"; Media.media_type := "video";
     Media.duration := 0; Media.video_height := 1;
     Media.media_info := ""; Media.size := ""; Media.md5sum := None;
     Media.encoding_status := "pending" |}.

(** One chunk of a one-chunk set, encoded, with its file. *)
Definition done0 : Encoding.t :=
  row 5 mp4_720 "success" "encoded/c0.mp4" true "/tmp/c0.mkv" manifest1.

(** A failed chunk: the worker stored no file for it. *)
Definition failed0 : Encoding.t :=
  row 5 mp4_720 "fail" "" true "/tmp/c0.mkv" manifest1.

(** An earlier whole-file result for the same media and profile. *)
Definition old_success : Encoding.t :=
  row 2 mp4_720 "success" "encoded/old.mp4" false "" "".

Definition old_fail : Encoding.t :=
  row 3 mp4_720 "fail" "" false "" "".

(** A second row for the chunk of [done0]. *)
Definition done0_again : Encoding.t :=
  row 6 mp4_720 "success" "encoded/c0b.mp4" true "/tmp/c0.mkv" manifest1.

(** The two chunks of a two-chunk set, both encoded. *)
Definition part0 : Encoding.t :=
  row 8 mp4_240 "success" "encoded/p0.mp4" true "/tmp/c0.mkv" manifest2.

Definition part1 : Encoding.t :=
  row 9 mp4_240 "success" "encoded/p1.mp4" true "/tmp/c1.mkv" manifest2.

(** A chunk whose [chunks_info] is not JSON. *)
Definition garbled : Encoding.t :=
  row 7 mp4_720 "success" "encoded/c7.mp4" true "/tmp/c7.mkv" "c7.mkv".

End Demo.

(** ** The Language table and the data migration that fills it
    (files/migrations/0004_add_apac_languages.py) *)

Module Language.
Record t : Type := mk {
  id : Z;
  code : string;
  title : string
}.
End Language.

Module AddApacLanguages.

(** [get_or_create] raises when [get] finds more than one row. *)
Inductive error : Type :=
| MultipleObjectsReturned.

Definition languages : list (string * string) :=
  [("en", "English");
   ("zh", "Chinese (Simplified)");
   ("zh-TW", "Chinese (Traditional)");
   ("ja", "Japanese");
   ("ko", "Korean");
   ("th", "Thai");
   ("vi", "Vietnamese");
   ("id", "Indonesian");
   ("ms", "Malay");
   ("tl", "Filipino");
   ("hi", "Hindi");
   ("ta", "Tamil");
   ("bn", "Bengali");
   ("ur", "Urdu");
   ("pa", "Punjabi");
   ("te", "Telugu");
   ("kn", "Kannada");
   ("ml", "Malayalam");
   ("gu", "Gujarati");
   ("mr", "Marathi");
   ("ne", "Nepali");
   ("si", "Sinhala");
   ("my", "Myanmar (Burmese)");
   ("km", "Khmer");
   ("lo", "Lao");
   ("automatic", "Automatic Detection");
   ("automatic-translation", "Auto-detect & Translate to English")].

Definition codes : list string :=
  ["en"; "zh"; "zh-TW"; "ja"; "ko"; "th"; "vi"; "id"; "ms"; "tl"; "hi"; "ta";
   "bn"; "ur"; "pa"; "te"; "kn"; "ml"; "gu"; "mr"; "ne"; "si"; "my"; "km";
   "lo"; "automatic"; "automatic-translation"].

(** The key of a new row: larger than every key in the table. *)
Definition fresh_id (table : list Language.t) : Z :=
  1 + foldr Z.max 0 (Language.id <$> table).

(** [Language.objects.get_or_create(code=code, defaults={"title": title})]:
    the row with that code when there is exactly one, a new row with the
    default title when there is none. *)
Definition get_or_create (code title : string) (table : list Language.t)
    : error + list Language.t :=
  match filter (λ r, Language.code r = code) table with
  | [] => inr (table ++ [Language.mk (fresh_id table) code title])%list
  | [_] => inr table
  | _ :: _ :: _ => inl MultipleObjectsReturned
  end.

(** [for lang in languages: Language.objects.get_or_create(...)]. *)
Fixpoint for_languages (langs : list (string * string))
    (table : list Language.t) : error + list Language.t :=
  match langs with
  | [] => inr table
  | lang :: rest =>
      match get_or_create lang.1 lang.2 table with
      | inl e => inl e
      | inr table' => for_languages rest table'
      end
  end.

Definition load_apac_languages (table : list Language.t)
    : error + list Language.t :=
  for_languages languages table.

(** [Language.objects.filter(code__in=codes).delete()]. *)
Definition reverse_load_apac_languages (table : list Language.t)
    : list Language.t :=
  filter (λ r, Language.code r ∉ codes) table.

(** Number of rows with a given code. *)
Definition count (code : string) (table : list Language.t) : nat :=
  length (filter (λ r, Language.code r = code) table).

End AddApacLanguages.

(** ** Playlists: Playlist.set_ordering *)

Module PlaylistMedia.
Record t : Type := mk {
  id : Z;
  media : Z;
  playlist : Z;
  ordering : Z;
  action_date : Z
}.

(** [Meta.ordering = ["ordering", "-action_date"]]: [a] comes strictly
    before [b]. *)
Definition before (a b : t) : Prop :=
  ordering a < ordering b
  ∨ (ordering a = ordering b ∧ action_date b < action_date a).

#[global] Instance before_dec a b : Decision (before a b).
Proof. unfold before. apply _. Defined.

(** [QuerySet.first()] in that order; among rows that compare equal, the
    one that comes first in the table. *)
Fixpoint first (l : list t) : option t :=
  match l with
  | [] => None
  | x :: l' =>
      match first l' with
      | None => Some x
      | Some y => if decide (before y x) then Some y else Some x
      end
  end.

(** [pm.ordering = ordering; pm.save()]: the row is rewritten with the new
    ordering and, [action_date] being [auto_now], the current time. *)
Definition reordered (z now : Z) (pm : t) : t :=
  {| id := id pm; media := media pm; playlist := playlist pm;
     ordering := z; action_date := now |}.
End PlaylistMedia.

Module Playlist.

(** Rows that link the media to the playlist. *)
Definition links (self media : Z) (pm : PlaylistMedia.t) : Prop :=
  PlaylistMedia.playlist pm = self ∧ PlaylistMedia.media pm = media.

#[global] Instance links_dec self media pm : Decision (links self media pm).
Proof. unfold links. apply _. Defined.

(** [Playlist.set_ordering(media, ordering)] for the playlist with key
    [self], at time [now]: the value returned and the PlaylistMedia table
    afterwards. *)
Definition set_ordering (self media : Z) (ordering : Py.value) (now : Z)
    (table : list PlaylistMedia.t) : bool * list PlaylistMedia.t :=
  if bool_decide (filter (links self media) table = []) then (false, table)
  else
    match PlaylistMedia.first (filter (links self media) table) with
    | Some pm =>
        if Py.isinstance_int ordering
           && match Py.as_int ordering with
              | Some z => bool_decide (z > 0)
              | None => false
              end
        then
          (true,
           (λ r, if bool_decide (PlaylistMedia.id r = PlaylistMedia.id pm)
                 then PlaylistMedia.reordered
                        (default 0 (Py.as_int ordering)) now r
                 else r) <$> table)
        else (false, table)
    | None => (false, table)
    end.

End Playlist.

(** ** Whisper requests: Media.transcribe_function *)

Module TranscriptionRequest.
Record t : Type := mk {
  id : Z;
  media : Z;
  translate_to_english : bool
}.
End TranscriptionRequest.

(** [tasks.whisper_transcribe.delay(friendly_token)] and
    [tasks.whisper_transcribe.delay(friendly_token, translate=True)]. *)
Inductive whisper_task : Type :=
| WhisperTranscribe (friendly_token : string) (translate : bool).

(** [TranscriptionRequest.objects.filter(media=self,
      translate_to_english=...).exists()]. *)
Definition requested (self : Media.t) (translate : bool)
    (requests : list TranscriptionRequest.t) : bool :=
  bool_decide
    (filter (λ r, TranscriptionRequest.media r = Media.id self
                  ∧ TranscriptionRequest.translate_to_english r = translate)
       requests ≠ []).

(** [Media.transcribe_function]: the tasks it queues, in order. The two
    flags are columns of the Media row. *)
Definition transcribe_function (self : Media.t)
    (allow_whisper_transcribe allow_whisper_transcribe_and_translate : bool)
    (requests : list TranscriptionRequest.t) : list whisper_task :=
  if allow_whisper_transcribe || allow_whisper_transcribe_and_translate then
    let can_transcribe_and_translate :=
      if allow_whisper_transcribe_and_translate
      then negb (requested self true requests) else false in
    let can_transcribe :=
      if allow_whisper_transcribe
      then negb (requested self false requests) else false in
    ((if can_transcribe
      then [WhisperTranscribe (Media.friendly_token self) false] else [])
     ++ (if can_transcribe_and_translate
         then [WhisperTranscribe (Media.friendly_token self) true] else []))%list
  else [].

(** ** Comments: Comment.save and the post_delete receiver *)

(** The text of a comment is a Python [str], modelled by the list of its
    code points: [len] and slices count code points, not bytes. *)
Definition unicode : Type := list N.

(** Settings and the library function the comment code uses. *)
Class CommentSettings : Type := {
  MAX_CHARS_FOR_COMMENT : Z;
  UNLISTED_WORKFLOW_MAKE_PUBLIC_UPON_COMMENTARY_ADD : bool;
  UNLISTED_WORKFLOW_MAKE_PRIVATE_UPON_COMMENTARY_DELETE : bool;
  (** [django.utils.html.strip_tags]. *)
  strip_tags : unicode → unicode
}.

(** [s[:k]]: the first [k] code points, or all but the last [-k] when [k]
    is negative. *)
Definition slice_to (k : Z) (s : unicode) : unicode :=
  let n := Z.of_nat (length s) in
  let stop := if bool_decide (k < 0) then Z.max 0 (n + k) else Z.min k n in
  take (Z.to_nat stop) s.

Module Comment.
Record t : Type := mk {
  id : Z;                           (* 0 before the first save *)
  uid : Z;
  text : unicode;
  media : Z
}.

Definition with_text (s : unicode) (c : t) : t :=
  {| id := id c; uid := uid c; text := s; media := media c |}.

Definition with_id (i : Z) (c : t) : t :=
  {| id := i; uid := uid c; text := text c; media := media c |}.
End Comment.

Section Comments.
Context `{CommentSettings}.

(** The text as [Comment.save] stores it. *)
Definition saved_text (text : unicode) : unicode :=
  let text := if bool_decide (text = []) then text else strip_tags text in
  if bool_decide (text = []) then text else slice_to MAX_CHARS_FOR_COMMENT text.

(** [Comment.save]: the comment and the Comment table afterwards, and
    [self.media.state] ([media_state] before the call). [super().save] inserts
    a comment without key under a fresh one, updates the row of a comment
    with a key, and inserts it when no row has that key.
    [Media.save(update_fields=["state"])] is taken to return. *)
Definition Comment_save (self : Comment.t) (media_state : string)
    (table : list Comment.t) : Comment.t * list Comment.t * string :=
  let self := Comment.with_text (saved_text (Comment.text self)) self in
  let saved :=
    if bool_decide (Comment.id self = 0)
    then Comment.with_id (1 + foldr Z.max 0 (Comment.id <$> table)) self
    else self in
  let table' :=
    if bool_decide (Comment.id saved ∈ Comment.id <$> table)
    then (λ r, if bool_decide (Comment.id r = Comment.id saved)
               then saved else r) <$> table
    else (table ++ [saved])%list in
  (saved, table',
   if UNLISTED_WORKFLOW_MAKE_PUBLIC_UPON_COMMENTARY_ADD
      && bool_decide (media_state = "unlisted")
   then "public" else media_state).

(** [comment_delete], the [post_delete] receiver: the state of the media
    afterwards. [table] is the Comment table when the receiver runs, the
    row of [instance] already deleted. *)
Definition comment_delete (instance : Comment.t) (media_state : string)
    (table : list Comment.t) : string :=
  if bool_decide (media_state = "public") then
    if UNLISTED_WORKFLOW_MAKE_PRIVATE_UPON_COMMENTARY_DELETE then
      if bool_decide
           (length (filter (λ r, Comment.media r = Comment.media instance
                                 ∧ Comment.uid r ≠ Comment.uid instance)
                      table) = 0%nat)
      then "unlisted" else media_state
    else media_state
  else media_state.

End Comments.

(** An instance of the comment settings: comments of at most ten characters,
    both workflow settings on, a [strip_tags] that finds no tag. *)
Module DemoComments.
Definition settings : CommentSettings := {|
  MAX_CHARS_FOR_COMMENT := 10;
  UNLISTED_WORKFLOW_MAKE_PUBLIC_UPON_COMMENTARY_ADD := true;
  UNLISTED_WORKFLOW_MAKE_PRIVATE_UPON_COMMENTARY_DELETE := true;
  strip_tags s := s
|}.
End DemoComments.

(** ** Media.encodings_info *)

(** The dictionary [Media.get_encoding_info] builds for one encoding. The
    method is reached through the property [encodings_info] only, whose
    [full] is always [False]. *)
Module EncodingInfo.
Record t : Type := mk {
  title : string;
  url : option string;
  progress : Py.value;
  size : string;
  encoding_id : Z;
  status : string
}.
End EncodingInfo.

Definition ENCODE_RESOLUTIONS_KEYS : list Z :=
  [2160; 1440; 1080; 720; 480; 360; 240].

(** [KeyError], with the key that is missing. *)
Inductive key_error : Type :=
| KeyError (key : option Z).

Section EncodingsInfo.
Context `{Settings}.
(** [helpers.url_from_path]. *)
Variable url_from_path : string → string.

(** The property [Encoding.media_encoding_url]. *)
Definition media_encoding_url (self : Encoding.t) : option string :=
  if bool_decide (Encoding.media_file self = "") then None
  else Some (url_from_path (MEDIA_ROOT ++ Encoding.media_file self)).

Definition get_encoding_info (encoding : Encoding.t) : EncodingInfo.t :=
  {| EncodingInfo.title := EncodeProfile.name (Encoding.profile encoding);
     EncodingInfo.url := media_encoding_url encoding;
     EncodingInfo.progress := Encoding.progress encoding;
     EncodingInfo.size := Encoding.size encoding;
     EncodingInfo.encoding_id := Encoding.id encoding;
     EncodingInfo.status := Encoding.status encoding |}.

(** One turn of the loop over the encodings: [ret[resolution][codec] = enc],
    where [ret[resolution]] raises [KeyError] for a resolution that is not a
    key of [ret]. A codec that is [None] is a key as any other. *)
Definition encodings_info_step
    (ret : gmap Z (gmap (option string) EncodingInfo.t))
    (encoding : Encoding.t)
    : key_error + gmap Z (gmap (option string) EncodingInfo.t) :=
  if bool_decide (EncodeProfile.extension (Encoding.profile encoding) = "gif")
  then inr ret
  else
    let enc := get_encoding_info encoding in
    match EncodeProfile.resolution (Encoding.profile encoding) with
    | None => inl (KeyError None)
    | Some resolution =>
        match ret !! resolution with
        | None => inl (KeyError (Some resolution))
        | Some d =>
            inr (<[resolution :=
                     <[EncodeProfile.codec (Encoding.profile encoding) := enc]> d]>
                   ret)
        end
    end.

Fixpoint encodings_info_loop
    (ret : gmap Z (gmap (option string) EncodingInfo.t))
    (encodings : list Encoding.t)
    : key_error + gmap Z (gmap (option string) EncodingInfo.t) :=
  match encodings with
  | [] => inr ret
  | encoding :: rest =>
      match encodings_info_step ret encoding with
      | inl e => inl e
      | inr ret' => encodings_info_loop ret' rest
      end
  end.

(** The property [Media.encodings_info] over the Encoding table. *)
Definition encodings_info (self : Media.t) (table : list Encoding.t)
    : key_error + gmap Z (gmap (option string) EncodingInfo.t) :=
  if bool_decide (Media.media_type self ≠ "video") then inr ∅
  else
    encodings_info_loop
      (list_to_map ((λ key, (key, ∅)) <$> ENCODE_RESOLUTIONS_KEYS))
      (filter (λ e, Encoding.media e = Media.id self
                    ∧ Encoding.chunk e = false) table).

(** The encodings [encodings_info] reports: those of the media that are no
    chunks and whose profile does not produce a gif. *)
Definition reported (self : Media.t) (table : list Encoding.t)
    (e : Encoding.t) : Prop :=
  e ∈ table ∧ Encoding.media e = Media.id self ∧ Encoding.chunk e = false
  ∧ EncodeProfile.extension (Encoding.profile e) ≠ "gif".

End EncodingsInfo.

(** [ret[resolution][codec] == info]. *)
Definition entry (ret : gmap Z (gmap (option string) EncodingInfo.t))
    (resolution : Z) (codec : option string) (info : EncodingInfo.t) : Prop :=
  ∃ d, ret !! resolution = Some d ∧ d !! codec = Some info.

Module DemoEncodingsInfo.
(** A profile without resolution that produces no gif. *)
Definition audio_only : EncodeProfile.t :=
  {| EncodeProfile.id := 4; EncodeProfile.name := "audio";
     EncodeProfile.extension := "mp3"; EncodeProfile.resolution := None;
     EncodeProfile.codec := None; EncodeProfile.active := true |}.

Definition url_from_path (path : string) : string :=
  "https://cinemata.org" ++ path.
End DemoEncodingsInfo.

(** * Properties *)

(** One step of symbolic execution: expose the first action of a sequence. *)
Ltac bind_step := unfold mbind at 1, M_bind at 1.


(** ** Python arithmetic *)

Lemma Py_round_nearest (q : Q) :
  (inject_Z (Py.round q) - q <= 1 # 2)%Q ∧ (q - inject_Z (Py.round q) <= 1 # 2)%Q.
Proof.
  unfold Py.round.
  pose proof (Qfloor_le q) as Hlo.
  pose proof (Qlt_floor q) as Hhi.
  rewrite inject_Z_plus in Hhi. change (inject_Z 1) with 1%Q in Hhi.
  destruct (Qcompare_spec (q - inject_Z (Qfloor q)) (1 # 2)) as [Heq|Hlt|Hgt];
    [destruct (Z.even (Qfloor q))| |];
    rewrite ?inject_Z_plus; change (inject_Z 1) with 1%Q; split; lra.
Qed.

(** [round(0.5) == 0], [round(1.5) == 2], [round(2.5) == 2],
    [round(-1.5) == -2]; [int(1.9) == 1], [int(-1.9) == -1]. *)
Example Py_round_ties :
  Py.round (1 # 2) = 0 ∧ Py.round (3 # 2) = 2 ∧ Py.round (5 # 2) = 2
  ∧ Py.round (-3 # 2) = -2 ∧ Py.int (19 # 10) = 1 ∧ Py.int (-19 # 10) = -1.
Proof. repeat split; reflexivity. Qed.

(** A difference of 25 hours reads as one hour. *)
Example Py_timedelta_seconds_day :
  Py.timedelta_seconds (90000 * 1000000) 0 = 3600.
Proof. reflexivity. Qed.

Lemma Py_round_integer (z : Z) : Py.round (inject_Z z) = z.
Proof.
  unfold Py.round. rewrite Qfloor_Z.
  destruct (Qcompare_spec (inject_Z z - inject_Z z) (1 # 2)) as [Heq|Hlt|Hgt];
    [lra | done | lra].
Qed.

Lemma Py_int_floor (q : Q) : (0 <= q)%Q → Py.int q = Qfloor q.
Proof.
  destruct q as [n d]. unfold Qle, Py.int, Qfloor. simpl. intros Hn.
  apply Z.quot_div_nonneg; lia.
Qed.

Lemma Py_int_truncates (q : Q) :
  (0 <= q)%Q → (inject_Z (Py.int q) <= q)%Q ∧ (q < inject_Z (Py.int q + 1))%Q.
Proof.
  intros Hq. rewrite (Py_int_floor q Hq). split.
  - apply Qfloor_le.
  - apply Qlt_floor.
Qed.

(** ** Encoding.set_progress *)

Section SetProgressFacts.
Context `{Settings} `{Helpers}.

Lemma accepted_spec (p : Py.value) :
  Py.isinstance_int p
  && match Py.as_int p with
     | Some z => bool_decide (0 ≤ z) && bool_decide (z ≤ 100)
     | None => false
     end = true
  ↔ ∃ z, Py.as_int p = Some z ∧ 0 ≤ z ≤ 100.
Proof.
  unfold Py.isinstance_int.
  destruct (Py.as_int p) as [z|]; simpl.
  - rewrite andb_true_iff, !bool_decide_eq_true. split.
    + intros [? ?]. exists z. split; [done|lia].
    + intros (z' & [= <-] & ?). lia.
  - split; [done|]. by intros (z' & ? & _).
Qed.

(** [Encoding.save] touches [size] and [md5sum] only. *)
Lemma refreshed_fields (self : Encoding.t) :
  Encoding.id (refreshed self) = Encoding.id self
  ∧ Encoding.status (refreshed self) = Encoding.status self
  ∧ Encoding.chunk (refreshed self) = Encoding.chunk self
  ∧ Encoding.progress (refreshed self) = Encoding.progress self
  ∧ Encoding.media_file (refreshed self) = Encoding.media_file self.
Proof.
  unfold refreshed.
  repeat (case_bool_decide || destruct (stat_size _) || destruct (md5sum_of _)
          || (cbn [andb]));
    done.
Qed.


(** Saving the progress of a row that is neither success nor fail: the
    receiver finds nothing to do. *)
Lemma save_progress_quiet (self : Encoding.t) (s : store) :
  Encoding.id self ≠ 0
  → Encoding.id self ∈ Encoding.id <$> rows s
  → Encoding.status self ∉ ["success"; "fail"]
  → save_progress self s
    = (inr (refreshed self),
       {| rows := (λ r, if bool_decide (Encoding.id r = Encoding.id self)
                        then Encoding.with_progress
                               (stored_progress (Encoding.progress self)) r
                        else r) <$> rows s;
          now := now s; trace := trace s |}).
Proof.
  intros Hid Hin Hstatus.
  destruct (refreshed_fields self) as (Hi & Hs & Hc & Hp & _).
  unfold save_progress. rewrite Hi, Hp.
  rewrite (bool_decide_eq_false_2 _ Hid).
  unfold mbind, M_bind, get_rows, put_rows.
  rewrite (bool_decide_eq_true_2 _ Hin).
  unfold encoding_file_save. rewrite Hs.
  rewrite !(bool_decide_eq_false_2 (Encoding.status self = _)) by set_solver.
  rewrite !andb_false_r.
  unfold encoding_file_save_other, mbind, M_bind, mret, M_ret.
  rewrite Hs. by rewrite bool_decide_eq_false_2 by set_solver.
Qed.


End SetProgressFacts.

Section SetProgressExamples.
#[local] Existing Instance Demo.settings.
#[local] Existing Instance Demo.helpers.



End SetProgressExamples.

(** ** Aggregate status *)

Lemma elem_of_mp4_statuses (table : list Encoding.t) (self : Media.t) (s : string) :
  s ∈ mp4_statuses table self
  ↔ ∃ e, e ∈ mp4_jobs table self ∧ Encoding.status e = s.
Proof.
  unfold mp4_statuses. rewrite elem_of_list_to_set, list_elem_of_fmap.
  naive_solver.
Qed.

Lemma mp4_statuses_empty (table : list Encoding.t) (self : Media.t) :
  mp4_statuses table self = ∅ ↔ mp4_jobs table self = [].
Proof.
  unfold mp4_statuses. split.
  - intros Hs. destruct (mp4_jobs table self) as [|e l]; [done|].
    exfalso. assert (Encoding.status e ∈ (∅ : gset string)) as Hin.
    { rewrite <- Hs. simpl. set_solver. }
    set_solver.
  - by intros ->.
Qed.

Lemma elem_of_mp4_jobs (table : list Encoding.t) (self : Media.t)
    (e : Encoding.t) :
  e ∈ mp4_jobs table self
  ↔ e ∈ table ∧ Encoding.media e = Media.id self
    ∧ EncodeProfile.extension (Encoding.profile e) = "mp4"
    ∧ Encoding.chunk e = false.
Proof. unfold mp4_jobs. rewrite list_elem_of_filter. naive_solver. Qed.

Lemma mp4_jobs_nil (table : list Encoding.t) (self : Media.t) :
  mp4_jobs table self = []
  ↔ ¬ (∃ e, e ∈ table ∧ Encoding.media e = Media.id self
            ∧ EncodeProfile.extension (Encoding.profile e) = "mp4"
            ∧ Encoding.chunk e = false).
Proof.
  split.
  - intros Hnil (e & He). apply elem_of_mp4_jobs in He.
    rewrite Hnil in He. by apply elem_of_nil in He.
  - intros Hnone. destruct (mp4_jobs table self) as [|e l] eqn:Hjobs; [done|].
    exfalso. apply Hnone. exists e. apply elem_of_mp4_jobs.
    rewrite Hjobs. by left.
Qed.

Lemma elem_of_mp4_statuses_rows (table : list Encoding.t) (self : Media.t)
    (st : string) :
  st ∈ mp4_statuses table self
  ↔ ∃ e, e ∈ table ∧ Encoding.media e = Media.id self
         ∧ EncodeProfile.extension (Encoding.profile e) = "mp4"
         ∧ Encoding.chunk e = false
         ∧ Encoding.status e = st.
Proof.
  rewrite elem_of_mp4_statuses. setoid_rewrite elem_of_mp4_jobs. naive_solver.
Qed.

(** C4. The aggregate status written by [set_encoding_status] depends only
    on the set of statuses of the jobs of the media that are not chunks and
    whose profile has the extension mp4: pending when the table has no such
    job, else success when one of them is success, else running when one of
    them is running, else fail. Rows of another media, of another extension,
    and chunks do not count. *)
Theorem set_encoding_status_precedence (table : list Encoding.t)
    (self : Media.t) :
  (¬ (∃ e, e ∈ table ∧ Encoding.media e = Media.id self
           ∧ EncodeProfile.extension (Encoding.profile e) = "mp4"
           ∧ Encoding.chunk e = false)
   → Media.encoding_status (set_encoding_status table self) = "pending")
  ∧ ((∃ e, e ∈ table ∧ Encoding.media e = Media.id self
           ∧ EncodeProfile.extension (Encoding.profile e) = "mp4"
           ∧ Encoding.chunk e = false
           ∧ Encoding.status e = "success")
     → Media.encoding_status (set_encoding_status table self) = "success")
  ∧ (¬ (∃ e, e ∈ table ∧ Encoding.media e = Media.id self
             ∧ EncodeProfile.extension (Encoding.profile e) = "mp4"
             ∧ Encoding.chunk e = false
             ∧ Encoding.status e = "success")
     → (∃ e, e ∈ table ∧ Encoding.media e = Media.id self
             ∧ EncodeProfile.extension (Encoding.profile e) = "mp4"
             ∧ Encoding.chunk e = false
             ∧ Encoding.status e = "running")
     → Media.encoding_status (set_encoding_status table self) = "running")
  ∧ ((∃ e, e ∈ table ∧ Encoding.media e = Media.id self
           ∧ EncodeProfile.extension (Encoding.profile e) = "mp4"
           ∧ Encoding.chunk e = false)
     → ¬ (∃ e, e ∈ table ∧ Encoding.media e = Media.id self
               ∧ EncodeProfile.extension (Encoding.profile e) = "mp4"
               ∧ Encoding.chunk e = false
               ∧ Encoding.status e = "success")
     → ¬ (∃ e, e ∈ table ∧ Encoding.media e = Media.id self
               ∧ EncodeProfile.extension (Encoding.profile e) = "mp4"
               ∧ Encoding.chunk e = false
               ∧ Encoding.status e = "running")
     → Media.encoding_status (set_encoding_status table self) = "fail")
  ∧ (∀ table' self',
       (∀ st, (∃ e, e ∈ table ∧ Encoding.media e = Media.id self
                    ∧ EncodeProfile.extension (Encoding.profile e) = "mp4"
                    ∧ Encoding.chunk e = false
                    ∧ Encoding.status e = st)
              ↔ (∃ e, e ∈ table' ∧ Encoding.media e = Media.id self'
                      ∧ EncodeProfile.extension (Encoding.profile e) = "mp4"
                      ∧ Encoding.chunk e = false
                      ∧ Encoding.status e = st))
       → Media.encoding_status (set_encoding_status table' self')
         = Media.encoding_status (set_encoding_status table self)).
Proof.
  unfold set_encoding_status, resolve_status. simpl.
  split; [|split; [|split; [|split]]].
  - intros Hnone. apply mp4_jobs_nil, mp4_statuses_empty in Hnone.
    by rewrite bool_decide_eq_true_2.
  - intros Hs. apply elem_of_mp4_statuses_rows in Hs.
    rewrite bool_decide_eq_false_2 by set_solver.
    by rewrite bool_decide_eq_true_2.
  - intros Hns Hr. rewrite <- elem_of_mp4_statuses_rows in Hns, Hr.
    rewrite bool_decide_eq_false_2 by set_solver.
    rewrite bool_decide_eq_false_2 by done.
    by rewrite bool_decide_eq_true_2.
  - intros Hsome Hns Hnr. rewrite <- elem_of_mp4_statuses_rows in Hns, Hnr.
    assert (mp4_statuses table self ≠ ∅) as Hne.
    { rewrite mp4_statuses_empty, mp4_jobs_nil. by intros Hnone. }
    by rewrite !bool_decide_eq_false_2.
  - intros table' self' Hsame.
    assert (mp4_statuses table' self' = mp4_statuses table self) as ->; [|done].
    apply set_eq. intros st. rewrite !elem_of_mp4_statuses_rows.
    by rewrite Hsame.
Qed.

(** Successes that do not count (a webm job, a gif preview, a chunk, a job
    of another media) next to an mp4 job that failed and one that is
    running: the status is running. *)
Lemma set_encoding_status_precedence_witness :
  Media.encoding_status
    (set_encoding_status
       [Demo.row 1 Demo.webm_720 "success" "encoded/a.webm" false "" "";
        Demo.row 2 Demo.preview "success" "encoded/a.gif" false "" "";
        Demo.row 3 Demo.mp4_720 "success" "encoded/c0.mp4" true "/tmp/c0.mkv"
          Demo.manifest1;
        Encoding.new 2 Demo.mp4_720 "success" 100;
        Demo.row 4 Demo.mp4_720 "fail" "" false "" "";
        Demo.row 5 Demo.mp4_240 "running" "" false "" ""]
       (Demo.video 100 720)) = "running".
Proof.
  apply (proj1 (proj2 (proj2 (set_encoding_status_precedence _ _)))).
  - intros (e & Hin & Hm & Hx & Hc & Hs). apply list_elem_of_In in Hin.
    destruct Hin as [<-|[<-|[<-|[<-|[<-|[<-|[]]]]]]];
      first [discriminate Hm | discriminate Hx | discriminate Hc
            | discriminate Hs].
  - exists (Demo.row 5 Demo.mp4_240 "running" "" false "" "").
    split; [|repeat split].
    apply list_elem_of_In. do 5 right. left. reflexivity.
Defined.

(** ** Probe *)

Section ProbeFacts.
Context `{Settings} `{Helpers}.

Lemma set_media_type_returns (self : Media.t) :
  (guessed_type self ∉ ["image"; "pdf"]
   → FileInfo.is_video (media_file_info (Media.media_file self)) = true
   → is_Some (FileInfo.video_height (media_file_info (Media.media_file self))))
  → ∃ m, set_media_type self = inr m.
Proof.
  unfold set_media_type, guessed_type.
  destruct (get_file_type (Media.media_file self)) as [k|];
    repeat case_bool_decide; simpl in *; subst; eauto;
    destruct (FileInfo.is_video _) eqn:Hv; eauto;
    try (destruct (FileInfo.is_audio _); eauto; fail);
    intros Hh; destruct Hh as [h ->]; eauto.
Qed.

Lemma set_media_type_result (self m : Media.t) :
  set_media_type self = inr m
  → (Media.media_type m = "video"
     → Media.duration m
       = Py.round (default 0%Q (FileInfo.video_duration
                                  (media_file_info (Media.media_file self)))))
    ∧ (Media.media_type m = "audio"
       → Media.duration m
         = Py.int (default 0%Q (FileInfo.audio_duration
                                  (media_file_info (Media.media_file self))))
         ∧ Media.encoding_status m = "success")
    ∧ (Media.media_type m ∈ ["image"; "pdf"]
       → Media.encoding_status m = "success").
Proof.
  unfold set_media_type.
  set (ret := media_file_info (Media.media_file self)).
  set (self1 := match get_file_type (Media.media_file self) with
                | Some _ => _ | None => _ end).
  assert (Media.media_file self1 = Media.media_file self) as ->.
  { unfold self1. destruct (get_file_type _); repeat case_bool_decide; done. }
  fold ret.
  case_bool_decide as Himg.
  - intros [= <-]. simpl. split; [|split]; [| |done].
    + intros Hv. rewrite Hv in Himg. set_solver.
    + intros Ha. rewrite Ha in Himg. set_solver.
  - destruct (FileInfo.is_video ret) eqn:Hv.
    + destruct (FileInfo.video_height ret) as [h|]; [|intros ?; discriminate].
      intros [= <-]. simpl. split; [done|]. split; [done|]. set_solver.
    + destruct (FileInfo.is_audio ret) eqn:Ha.
      * intros [= <-]. simpl. split; [done|]. split; [done|]. set_solver.
      * destruct (FileInfo.fail ret); simpl; intros [= <-]; simpl;
          (split; [done|]; split; [done|]; set_solver).
Qed.

Lemma set_media_type_image_pdf (self : Media.t) :
  guessed_type self ∈ ["image"; "pdf"]
  → ∃ m, set_media_type self = inr m
         ∧ Media.media_type m = guessed_type self
         ∧ Media.media_file m = Media.media_file self
         ∧ Media.id m = Media.id self.
Proof.
  unfold set_media_type, guessed_type.
  destruct (get_file_type (Media.media_file self)) as [k|];
    repeat case_bool_decide; simpl in *; subst; eauto; set_solver.
Qed.

Lemma media_init_image_pdf (active_profiles : list EncodeProfile.t)
    (self : Media.t) (s : store) :
  guessed_type self ∈ ["image"; "pdf"]
  → ∃ r tr,
      media_init active_profiles self s
      = (inr r, {| rows := rows s; now := now s; trace := trace s ++ tr |})
      ∧ (tr = [] ∨ tr = [RmFile (Media.media_file self)]
         ∨ tr = [SetThumbnail (Media.id self)]).
Proof.
  intros Hg. destruct (set_media_type_image_pdf self Hg) as (m & Hm & Hty & Hf & Hid).
  unfold media_init, mbind, M_bind, lift. rewrite Hm.
  destruct (is_media_allowed_type m); simpl.
  - case_bool_decide as Hv.
    { rewrite Hty in Hv. rewrite Hv in Hg. set_solver. }
    case_bool_decide; unfold mbind, M_bind, emit, mret, M_ret; simpl.
    + rewrite Hid. eauto 10.
    + exists (true, m), []. rewrite app_nil_r. destruct s; eauto.
  - unfold mbind, M_bind, emit, mret, M_ret. simpl. rewrite Hf. eauto 10.
Qed.

(** C9. A source classified as video gets the probed duration rounded to
    the nearest integer (ties to the even one); a source classified as audio
    gets the probed duration truncated to an integer and the encoding status
    success; image and pdf get the encoding status success, and
    [media_init] then creates no row and queues no task for them. The probe
    returns whenever ffprobe reports a height for what it calls a video. *)
Theorem set_media_type_duration (self : Media.t) :
  (∀ m, set_media_type self = inr m
     → (Media.media_type m = "video"
        → ∃ q, q = default 0%Q (FileInfo.video_duration
                                  (media_file_info (Media.media_file self)))
             ∧ Media.duration m = Py.round q
             ∧ (inject_Z (Media.duration m) - q <= 1 # 2)%Q
             ∧ (q - inject_Z (Media.duration m) <= 1 # 2)%Q)
       ∧ (Media.media_type m = "audio"
          → ∃ q, q = default 0%Q (FileInfo.audio_duration
                                    (media_file_info (Media.media_file self)))
               ∧ Media.duration m = Py.int q
               ∧ ((0 <= q)%Q → (inject_Z (Media.duration m) <= q)%Q
                               ∧ (q < inject_Z (Media.duration m + 1))%Q)
               ∧ Media.encoding_status m = "success")
       ∧ (Media.media_type m ∈ ["image"; "pdf"]
          → Media.encoding_status m = "success"))
  ∧ ((guessed_type self ∉ ["image"; "pdf"]
      → FileInfo.is_video (media_file_info (Media.media_file self)) = true
      → is_Some (FileInfo.video_height
                   (media_file_info (Media.media_file self))))
     → ∃ m, set_media_type self = inr m)
  ∧ (∀ active_profiles s,
       guessed_type self ∈ ["image"; "pdf"]
       → ∃ r tr,
           media_init active_profiles self s
           = (inr r, {| rows := rows s; now := now s; trace := trace s ++ tr |})
           ∧ (tr = [] ∨ tr = [RmFile (Media.media_file self)]
              ∨ tr = [SetThumbnail (Media.id self)])).
Proof.
  split; [|split; [apply set_media_type_returns|intros; by apply media_init_image_pdf]].
  intros m Hm. destruct (set_media_type_result self m Hm) as (Hv & Ha & Hi).
  repeat split; [| |done].
  - intros Hty. eexists. split; [done|]. rewrite (Hv Hty).
    split; [done|]. apply Py_round_nearest.
  - intros Hty. destruct (Ha Hty) as [Hd Hs]. eexists. split; [done|].
    rewrite Hd. split; [done|]. split; [|done]. apply Py_int_truncates.
Qed.

End ProbeFacts.

Section ProbeExamples.
#[local] Existing Instance Demo.settings.
#[local] Existing Instance Demo.helpers.

(** A video of 2.5 s is stored with duration 2, an audio file of 1.9 s with
    duration 1 and status success. *)
Lemma set_media_type_duration_witness :
  (∃ m, set_media_type (Demo.video 0 1) = inr m
        ∧ Media.media_type m = "video" ∧ Media.duration m = 2)
  ∧ (∃ m, set_media_type Demo.audio = inr m
          ∧ Media.media_type m = "audio" ∧ Media.duration m = 1
          ∧ Media.encoding_status m = "success").
Proof.
  split.
  - destruct (set_media_type_duration (Demo.video 0 1)) as (Hres & Hret & _).
    destruct Hret as [m Hm].
    { intros _ _. exists 720. reflexivity. }
    exists m. split; [exact Hm|].
    assert (Media.media_type m = "video") as Hty.
    { vm_compute in Hm. injection Hm as <-. reflexivity. }
    split; [exact Hty|].
    destruct (Hres m Hm) as [Hv _]. destruct (Hv Hty) as (q & -> & Hd & _).
    rewrite Hd. reflexivity.
  - destruct (set_media_type_duration Demo.audio) as (Hres & Hret & _).
    destruct Hret as [m Hm].
    { intros _ Hv. vm_compute in Hv. discriminate Hv. }
    exists m. split; [exact Hm|].
    assert (Media.media_type m = "audio") as Hty.
    { vm_compute in Hm. injection Hm as <-. reflexivity. }
    split; [exact Hty|].
    destruct (Hres m Hm) as (_ & Ha & _).
    destruct (Ha Hty) as (q & -> & Hd & _ & Hs).
    split; [|exact Hs]. rewrite Hd. reflexivity.
Defined.

End ProbeExamples.

(** ** Saving and dispatching *)

Section EncodeFacts.
Context `{Settings} `{Helpers}.

Lemma post_encode_actions_spec (media : Z) (encoding : Encoding.t)
    (action : string) (s : store) :
  post_encode_actions media encoding action s
  = (if bool_decide (media_type_of media = "video")
        && bool_decide (EncodeProfile.extension (Encoding.profile encoding)
                        = "gif")
        && negb (bool_decide (action = "delete"))
        && bool_decide (Encoding.media_file encoding = "")
     then inl Py.ValueError else inr (),
     {| rows := rows s; now := now s;
        trace := trace s
                 ++ [PostEncodeActions media (Encoding.id encoding) action] |}).
Proof.
  unfold post_encode_actions, mbind, M_bind, emit, lift, media_file_path,
    mret, M_ret.
  by repeat (case_bool_decide; cbn [andb negb]).
Qed.

Lemma save_new (e : Encoding.t) (s : store) :
  Encoding.id e = 0 → Encoding.media_file e = ""
  → save e s
    = (let e' := Encoding.with_id (fresh_id (rows s))
                   (Encoding.with_dates (now s) (now s) e) in
       let called := bool_decide (Encoding.status e ∈ ["fail"; "success"]) in
       (if called
           && bool_decide (media_type_of (Encoding.media e) = "video")
           && bool_decide (EncodeProfile.extension (Encoding.profile e) = "gif")
        then inl Py.ValueError else inr e',
        {| rows := rows s ++ [e']; now := now s;
           trace := trace s
                    ++ (if called
                        then [PostEncodeActions (Encoding.media e)
                                (Encoding.id e') "add"]
                        else []) |})).
Proof.
  intros Hid Hfile. unfold save.
  rewrite (bool_decide_eq_true_2 _ Hfile).
  rewrite !(bool_decide_eq_true_2 _ Hid).
  unfold mbind, M_bind, get_rows, get_now, put_rows, encoding_file_save_other.
  cbn [rows now trace Encoding.status Encoding.with_id Encoding.with_dates].
  case_bool_decide; cbn [andb].
  - unfold mbind, M_bind. rewrite post_encode_actions_spec.
    cbn [rows now trace Encoding.media Encoding.profile Encoding.media_file
         Encoding.id Encoding.with_id Encoding.with_dates].
    rewrite (bool_decide_eq_false_2 ("add" = "delete")) by discriminate.
    rewrite (bool_decide_eq_true_2 _ Hfile). cbn [negb].
    rewrite !andb_true_r.
    by destruct (_ && _).
  - unfold mbind, M_bind, mret, M_ret. cbn. by rewrite app_nil_r.
Qed.

Lemma create_and_dispatch_spec (self : Media.t) (profile : EncodeProfile.t)
    (force : bool) (priority : Z) (s : store) :
  ∃ e, create_and_dispatch self profile force priority s
       = (inr (), {| rows := rows s ++ [e]; now := now s;
                     trace := trace s ++ [dispatched self force priority e] |})
       ∧ Encoding.profile e = profile ∧ whole_file_job self e.
Proof.
  unfold create_and_dispatch, mbind, M_bind.
  rewrite save_new by done. cbn zeta.
  rewrite (bool_decide_eq_false_2 ("pending" ∈ _)) by set_solver.
  unfold emit. simpl. rewrite app_nil_r.
  exists (Encoding.with_id (fresh_id (rows s))
            (Encoding.with_dates (now s) (now s)
               (Encoding.new (Media.id self) profile "pending" 0))).
  done.
Qed.

Lemma skipped_returns (self : Media.t) (p : EncodeProfile.t) :
  (EncodeProfile.extension p ≠ "gif" → is_Some (EncodeProfile.resolution p))
  → skipped self p = inr (negb (selected self p)).
Proof.
  unfold selected, skipped. intros Hres.
  case_bool_decide as Hgif; [|done].
  destruct (Hres Hgif) as [r ->]. simpl.
  case_bool_decide; [|done].
  case_bool_decide; [|done].
  by destruct (negb _).
Qed.

(** What [selected] says in terms of the profile. *)
Lemma selected_spec (self : Media.t) (p : EncodeProfile.t) (r : Z) :
  EncodeProfile.resolution p = Some r
  → (selected self p = false
     ↔ EncodeProfile.extension p ≠ "gif" ∧ Media.video_height self ≠ 0
       ∧ Media.video_height self < r ∧ r ∉ MINIMUM_RESOLUTIONS_TO_ENCODE).
Proof.
  intros Hr. unfold selected, skipped. rewrite Hr. simpl.
  repeat case_bool_decide; simpl; naive_solver.
Qed.

Lemma selected_gif (self : Media.t) (p : EncodeProfile.t) :
  EncodeProfile.extension p = "gif" → selected self p = true.
Proof.
  intros Hg. unfold selected, skipped. by rewrite bool_decide_eq_false_2 by naive_solver.
Qed.

Lemma encode_whole_spec (self : Media.t) (force : bool)
    (profiles : list EncodeProfile.t) (s : store) :
  resolutions_set profiles
  → ∃ new,
      encode_whole self force profiles s
      = (inr (), {| rows := rows s ++ new; now := now s;
                    trace := trace s
                             ++ ((λ e, dispatched self force
                                         (priority_of (Encoding.profile e)) e)
                                   <$> new) |})
      ∧ Encoding.profile <$> new = filter (λ p, selected self p = true) profiles
      ∧ Forall (whole_file_job self) new.
Proof.
  revert s. induction profiles as [|p rest IH]; intros s Hres.
  - exists []. simpl. rewrite !app_nil_r. by destruct s.
  - assert (resolutions_set rest) as Hrest.
    { intros q Hq. apply Hres. by right. }
    simpl. unfold mbind at 1, M_bind at 1, lift.
    rewrite skipped_returns by (apply Hres; left).
    destruct (selected self p) eqn:Hsel; simpl.
    + destruct (create_and_dispatch_spec self p force (priority_of p) s)
        as (e & He & Hp & Hjob).
      unfold mbind, M_bind. rewrite He.
      destruct (IH {| rows := rows s ++ [e]; now := now s;
                      trace := trace s ++ [dispatched self force (priority_of p) e] |}
                  Hrest) as (new & Hnew & Hprof & Hall).
      exists (e :: new). simpl in Hnew. rewrite Hnew. simpl.
      rewrite <- !app_assoc. simpl.
      split; [by rewrite Hp|]. rewrite filter_cons_True by done.
      split; [|by constructor].
      f_equal; [exact Hp | exact Hprof].
    + unfold mbind, M_bind, mret, M_ret.
      destruct (IH s Hrest) as (new & Hnew & Hprof & Hall).
      exists new. rewrite filter_cons_False by (by rewrite Hsel). done.
Qed.


Lemma list_remove_first (p : EncodeProfile.t) (pre rest : list EncodeProfile.t) :
  (∀ x, x ∈ pre → EncodeProfile.id x ≠ EncodeProfile.id p)
  → list_remove p (pre ++ p :: rest) = inr (pre ++ rest)%list.
Proof.
  induction pre as [|x pre IH]; intros Hpre; simpl.
  - unfold EncodeProfile.eqb. by rewrite bool_decide_eq_true_2.
  - unfold EncodeProfile.eqb. rewrite bool_decide_eq_false_2.
    + rewrite IH; [done|]. intros y Hy. apply Hpre. by right.
    + apply Hpre. by left.
Qed.

Lemma encode_gifs_spec (self : Media.t) (force : bool)
    (copy pre : list EncodeProfile.t) (s : store) :
  same_key_same_extension (pre ++ copy)
  → (∀ x, x ∈ pre → EncodeProfile.extension x ≠ "gif")
  → ∃ new,
      encode_gifs self force copy (pre ++ copy) s
      = (inr (pre ++ filter (λ p, EncodeProfile.extension p ≠ "gif") copy)%list,
         {| rows := rows s ++ new; now := now s;
            trace := trace s ++ (dispatched self force 0 <$> new) |})
      ∧ Encoding.profile <$> new
        = filter (λ p, EncodeProfile.extension p = "gif") copy
      ∧ Forall (whole_file_job self) new.
Proof.
  revert pre s. induction copy as [|p rest IH]; intros pre s Hkey Hpre.
  - exists []. simpl. rewrite !app_nil_r. unfold mret, M_ret. by destruct s.
  - simpl. case_bool_decide as Hgif.
    + unfold mbind at 1, M_bind at 1, lift.
      rewrite list_remove_first; last first.
      { intros x Hx Hid. apply (Hpre x Hx). rewrite <- Hgif.
        apply Hkey; [set_solver|set_solver|done]. }
      destruct (create_and_dispatch_spec self p force 0 s) as (e & He & Hp & Hjob).
      unfold mbind, M_bind. rewrite He.
      destruct (IH pre {| rows := rows s ++ [e]; now := now s;
                          trace := trace s ++ [dispatched self force 0 e] |})
        as (new & Hnew & Hprof & Hall).
      { intros x y Hx Hy. apply Hkey; set_solver. }
      { done. }
      exists (e :: new). simpl in Hnew. rewrite Hnew. simpl.
      rewrite <- !app_assoc. simpl.
      rewrite filter_cons_False by naive_solver.
      rewrite filter_cons_True by done.
      split; [done|]. split; [|by constructor].
      f_equal; [exact Hp | exact Hprof].
    + destruct (IH (pre ++ [p])%list s) as (new & Hnew & Hprof & Hall).
      { by rewrite <- app_assoc. }
      { intros x Hx. apply elem_of_app in Hx as [Hx|Hx]; [by apply Hpre|].
        apply list_elem_of_singleton in Hx. by subst. }
      exists new. rewrite <- !app_assoc in Hnew. simpl in Hnew. rewrite Hnew.
      rewrite filter_cons_True by done.
      rewrite filter_cons_False by done.
      done.
Qed.

(** Whatever the outcome, the whole-file loop only appends rows that are
    not chunks and queues their [encode_media] tasks. *)
Lemma encode_whole_effects (self : Media.t) (force : bool)
    (profiles : list EncodeProfile.t) (s : store) :
  ∃ new,
    (encode_whole self force profiles s).2
    = {| rows := rows s ++ new; now := now s;
         trace := trace s
                  ++ ((λ e, dispatched self force
                              (priority_of (Encoding.profile e)) e)
                        <$> new) |}
    ∧ Forall (whole_file_job self) new.
Proof.
  revert s. induction profiles as [|p rest IH]; intros s.
  - exists []. simpl. rewrite !app_nil_r. by destruct s.
  - simpl. unfold mbind at 1, M_bind at 1, lift.
    destruct (skipped self p) as [e|[|]].
    + exists []. simpl. rewrite !app_nil_r. by destruct s.
    + unfold mbind, M_bind, mret, M_ret. apply IH.
    + destruct (create_and_dispatch_spec self p force (priority_of p) s)
        as (e & He & Hp & Hjob).
      unfold mbind, M_bind. rewrite He.
      destruct (IH {| rows := rows s ++ [e]; now := now s;
                      trace := trace s ++ [dispatched self force (priority_of p) e] |})
        as (new & Hnew & Hall).
      exists (e :: new). simpl in Hnew. rewrite Hnew. simpl.
      rewrite <- !app_assoc. simpl. rewrite Hp.
      split; [done|by constructor].
Qed.

End EncodeFacts.

(** ** Chunk planner and profile selector *)

Section EncodeClaims.
Context `{Settings} `{Helpers}.

Lemma encode_whole_branch (active_profiles : list EncodeProfile.t)
    (self : Media.t) (profiles : option (list EncodeProfile.t))
    (force chunkize : bool) (s : store) :
  Media.duration self ≤ CHUNKIZE_VIDEO_DURATION ∨ chunkize = false
  → resolutions_set (default active_profiles profiles)
  → ∃ new,
      encode active_profiles self profiles force chunkize s
      = (inr true,
         {| rows := rows s ++ new; now := now s;
            trace := trace s
                     ++ ((λ e, dispatched self force
                                 (priority_of (Encoding.profile e)) e)
                           <$> new) |})
      ∧ Encoding.profile <$> new
        = filter (λ p, selected self p = true) (default active_profiles profiles)
      ∧ Forall (whole_file_job self) new.
Proof.
  intros Hwhole Hres. unfold encode.
  assert (bool_decide (Media.duration self > CHUNKIZE_VIDEO_DURATION) && chunkize
          = false) as ->.
  { destruct Hwhole as [Hle| ->]; [|by rewrite andb_false_r].
    rewrite bool_decide_eq_false_2 by lia. done. }
  destruct (encode_whole_spec self force _ s Hres) as (new & Hnew & Hprof & Hall).
  exists new. unfold mbind, M_bind. rewrite Hnew. done.
Qed.

(** C5. When the duration does not exceed [CHUNKIZE_VIDEO_DURATION] (equality
    included), [encode] only appends rows that are not chunks, one
    [encode_media] task per row, and queues no [chunkize_media] request; when
    every profile that is not a gif has a resolution it returns [True] and
    the rows are those of the selected profiles, one each, in order. *)
Theorem encode_below_threshold (active_profiles : list EncodeProfile.t)
    (self : Media.t) (profiles : option (list EncodeProfile.t))
    (force chunkize : bool) (s : store) :
  Media.duration self ≤ CHUNKIZE_VIDEO_DURATION
  → (∃ new,
       (encode active_profiles self profiles force chunkize s).2
       = {| rows := rows s ++ new; now := now s;
            trace := trace s
                     ++ ((λ e, dispatched self force
                                 (priority_of (Encoding.profile e)) e)
                           <$> new) |}
       ∧ Forall (λ e, Encoding.chunk e = false ∧ whole_file_job self e) new
       ∧ Forall (λ ev, ∀ token ids f, ev ≠ ChunkizeMediaTask token ids f)
           ((λ e, dispatched self force (priority_of (Encoding.profile e)) e)
              <$> new))
    ∧ (resolutions_set (default active_profiles profiles)
       → ∃ new,
           encode active_profiles self profiles force chunkize s
           = (inr true,
              {| rows := rows s ++ new; now := now s;
                 trace := trace s
                          ++ ((λ e, dispatched self force
                                      (priority_of (Encoding.profile e)) e)
                                <$> new) |})
           ∧ Encoding.profile <$> new
             = filter (λ p, selected self p = true)
                 (default active_profiles profiles)).
Proof.
  intros Hle. split.
  - destruct (encode_whole_effects self force
                (default active_profiles profiles) s) as (new & Hnew & Hall).
    exists new. split; [|split].
    + unfold encode. rewrite bool_decide_eq_false_2 by lia. cbn [andb].
      unfold mbind, M_bind.
      destruct (encode_whole self force (default active_profiles profiles) s)
        as [[e|[]] s'] eqn:Hrun; exact Hnew.
    + eapply Forall_impl; [exact Hall|]. intros e He. split; [apply He|done].
    + apply Forall_fmap, Forall_forall. intros e _ token ids f. done.
  - intros Hres.
    destruct (encode_whole_branch active_profiles self profiles force chunkize s)
      as (new & Hnew & Hprof & Hall); [by left|done|].
    exists new. done.
Qed.

(** C7. In the whole-file branch of [encode] the rows created are those of
    the selected profiles. A gif profile is always selected. A profile that
    is not a gif and has resolution [r] is left out exactly when the video
    height is not zero, is below [r], and [r] is not in
    [MINIMUM_RESOLUTIONS_TO_ENCODE]. The task of a row is queued with priority
    9 when the resolution of its profile is in that list and with priority 0
    otherwise. *)
Theorem encode_selects_profiles (active_profiles : list EncodeProfile.t)
    (self : Media.t) (profiles : option (list EncodeProfile.t))
    (force chunkize : bool) (s : store) :
  Media.duration self ≤ CHUNKIZE_VIDEO_DURATION ∨ chunkize = false
  → resolutions_set (default active_profiles profiles)
  → ∃ new,
      encode active_profiles self profiles force chunkize s
      = (inr true,
         {| rows := rows s ++ new; now := now s;
            trace := trace s
                     ++ ((λ e, dispatched self force
                                 (priority_of (Encoding.profile e)) e)
                           <$> new) |})
      ∧ Encoding.profile <$> new
        = filter (λ p, selected self p = true) (default active_profiles profiles)
      ∧ (∀ p, EncodeProfile.extension p = "gif" → selected self p = true)
      ∧ (∀ p r, EncodeProfile.extension p ≠ "gif"
                → EncodeProfile.resolution p = Some r
                → (selected self p = false
                   ↔ Media.video_height self ≠ 0
                     ∧ Media.video_height self < r
                     ∧ r ∉ MINIMUM_RESOLUTIONS_TO_ENCODE))
      ∧ (∀ p, (priority_of p = 9
               ∧ ∃ r, EncodeProfile.resolution p = Some r
                      ∧ r ∈ MINIMUM_RESOLUTIONS_TO_ENCODE)
              ∨ (priority_of p = 0
                 ∧ ∀ r, EncodeProfile.resolution p = Some r
                        → r ∉ MINIMUM_RESOLUTIONS_TO_ENCODE)).
Proof.
  intros Hwhole Hres.
  destruct (encode_whole_branch active_profiles self profiles force chunkize s)
    as (new & Hnew & Hprof & Hall); [done|done|].
  exists new. split; [done|]. split; [done|]. split; [|split].
  - apply selected_gif.
  - intros p r Hgif Hr. rewrite (selected_spec self p r Hr). naive_solver.
  - intros p. unfold priority_of, Py.contains.
    destruct (EncodeProfile.resolution p) as [r|]; [|right; done].
    case_bool_decide; [left|right]; naive_solver.
Qed.

(** C6. When the duration exceeds [CHUNKIZE_VIDEO_DURATION] and [encode] is
    called with [chunkize] set, every gif profile gets a row that is not a
    chunk and an [encode_media] task of priority 0, and the profiles that
    are not gifs are passed, together and in order, to a single
    [chunkize_media] request; no row is created for them. *)
Theorem encode_above_threshold (active_profiles : list EncodeProfile.t)
    (self : Media.t) (profiles : option (list EncodeProfile.t))
    (force : bool) (s : store) :
  Media.duration self > CHUNKIZE_VIDEO_DURATION
  → same_key_same_extension (default active_profiles profiles)
  → ∃ new,
      encode active_profiles self profiles force true s
      = (inr true,
         {| rows := rows s ++ new; now := now s;
            trace := (trace s ++ (dispatched self force 0 <$> new))
                     ++ [ChunkizeMediaTask (Media.friendly_token self)
                           (EncodeProfile.id
                              <$> filter (λ p, EncodeProfile.extension p ≠ "gif")
                                    (default active_profiles profiles))
                           force] |})
      ∧ Encoding.profile <$> new
        = filter (λ p, EncodeProfile.extension p = "gif")
            (default active_profiles profiles)
      ∧ Forall (λ e, Encoding.chunk e = false ∧ whole_file_job self e) new.
Proof.
  intros Hgt Hkey. unfold encode.
  rewrite bool_decide_eq_true_2 by done. simpl.
  destruct (encode_gifs_spec self force (default active_profiles profiles) [] s)
    as (new & Hnew & Hprof & Hall); [done|set_solver|].
  simpl in Hnew. exists new.
  unfold mbind, M_bind. rewrite Hnew. unfold emit. simpl.
  split; [done|]. split; [done|].
  eapply Forall_impl; [exact Hall|]. intros e He. split; [apply He|done].
Qed.

End EncodeClaims.

Section EncodeExamples.
#[local] Existing Instance Demo.settings.
#[local] Existing Instance Demo.helpers.

(** A video of exactly 240 s and height 480 with the three profiles: no
    row for 720p, rows for 240p and the preview, no chunking request. *)
Lemma encode_below_threshold_witness :
  ∃ new,
    encode [] (Demo.video 240 480)
      (Some [Demo.mp4_720; Demo.mp4_240; Demo.preview]) true true
      (Demo.table_of [])
    = (inr true,
       {| rows := new; now := 900000000;
          trace := (λ e, dispatched (Demo.video 240 480) true
                           (priority_of (Encoding.profile e)) e) <$> new |})
    ∧ Encoding.profile <$> new = [Demo.mp4_240; Demo.preview].
Proof.
  assert (Media.duration (Demo.video 240 480) ≤ CHUNKIZE_VIDEO_DURATION) as Hle.
  { vm_compute. intros Hc. discriminate Hc. }
  assert (resolutions_set
            (default [] (Some [Demo.mp4_720; Demo.mp4_240; Demo.preview])))
    as Hres.
  { intros p Hp Hgif. apply list_elem_of_In in Hp. simpl in Hp.
    destruct Hp as [<-|[<-|[<-|[]]]];
      [eexists; reflexivity | eexists; reflexivity | by destruct Hgif]. }
  destruct (encode_below_threshold [] (Demo.video 240 480)
              (Some [Demo.mp4_720; Demo.mp4_240; Demo.preview]) true true
              (Demo.table_of []) Hle)
    as [_ Hsel].
  destruct (Hsel Hres) as (new & Hnew & Hprof).
  exists new. split; [exact Hnew|exact Hprof].
Defined.

Lemma encode_selects_profiles_witness :
  ∃ new,
    encode [] (Demo.video 100 480)
      (Some [Demo.mp4_720; Demo.mp4_240; Demo.preview]) true false
      (Demo.table_of [])
    = (inr true,
       {| rows := new; now := 900000000;
          trace := (λ e, dispatched (Demo.video 100 480) true
                           (priority_of (Encoding.profile e)) e) <$> new |})
    ∧ Encoding.profile <$> new = [Demo.mp4_240; Demo.preview]
    ∧ priority_of Demo.mp4_240 = 9 ∧ priority_of Demo.preview = 0.
Proof.
  assert (resolutions_set
            (default [] (Some [Demo.mp4_720; Demo.mp4_240; Demo.preview])))
    as Hres.
  { intros p Hp Hgif. apply list_elem_of_In in Hp. simpl in Hp.
    destruct Hp as [<-|[<-|[<-|[]]]];
      [eexists; reflexivity | eexists; reflexivity | by destruct Hgif]. }
  destruct (encode_selects_profiles [] (Demo.video 100 480)
              (Some [Demo.mp4_720; Demo.mp4_240; Demo.preview]) true false
              (Demo.table_of []) (or_intror eq_refl) Hres)
    as (new & Hnew & Hprof & _).
  exists new. split; [exact Hnew|]. split; [exact Hprof|].
  split; reflexivity.
Defined.

(** The height test is guarded by [self.video_height and ...]: with a height
    of 0 the 720p profile, which is not a gif, exceeds the height and is not
    in the minimum resolutions, still gets its row and its task. *)
Lemma encode_height_zero_counterexample :
  EncodeProfile.extension Demo.mp4_720 ≠ "gif"
  ∧ EncodeProfile.resolution Demo.mp4_720 = Some 720
  ∧ Media.video_height (Demo.video 100 0) < 720
  ∧ (720 ∉ MINIMUM_RESOLUTIONS_TO_ENCODE)
  ∧ ∃ e tr,
      encode [] (Demo.video 100 0) (Some [Demo.mp4_720]) true true
        (Demo.table_of [])
      = (inr true, {| rows := [e]; now := 900000000; trace := tr |})
      ∧ Encoding.profile e = Demo.mp4_720.
Proof.
  split; [done|]. split; [done|]. split; [done|]. split.
  - vm_compute. intros Hin. apply list_elem_of_In in Hin. simpl in Hin.
    destruct Hin as [?|[?|[]]]; discriminate.
  - eexists _, _. vm_compute. split; reflexivity.
Qed.

(** A video of 500 s with the three profiles: one row and one task for the
    preview, and one chunking request for the two mp4 profiles. *)
Lemma encode_above_threshold_witness :
  ∃ e,
    encode [] (Demo.video 500 720)
      (Some [Demo.mp4_720; Demo.preview; Demo.mp4_240]) true true
      (Demo.table_of [])
    = (inr true,
       {| rows := [e]; now := 900000000;
          trace := [dispatched (Demo.video 500 720) true 0 e;
                    ChunkizeMediaTask "tok" [1; 2] true] |})
    ∧ Encoding.profile e = Demo.preview ∧ Encoding.chunk e = false.
Proof.
  assert (Media.duration (Demo.video 500 720) > CHUNKIZE_VIDEO_DURATION) as Hgt.
  { reflexivity. }
  assert (same_key_same_extension
            (default [] (Some [Demo.mp4_720; Demo.preview; Demo.mp4_240])))
    as Hkey.
  { intros p q Hp Hq. apply list_elem_of_In in Hp, Hq. simpl in Hp, Hq.
    destruct Hp as [<-|[<-|[<-|[]]]]; destruct Hq as [<-|[<-|[<-|[]]]];
      vm_compute; congruence. }
  destruct (encode_above_threshold [] (Demo.video 500 720)
              (Some [Demo.mp4_720; Demo.preview; Demo.mp4_240]) true
              (Demo.table_of []) Hgt Hkey)
    as (new & Hnew & Hprof & Hall).
  destruct new as [|e [|e' new]]; try discriminate Hprof.
  exists e. split; [exact Hnew|].
  injection Hprof as Hp. split; [exact Hp|].
  apply Forall_cons in Hall as [[Hc _] _]. exact Hc.
Defined.

(** With [chunkize=False] a video longer than the threshold is not chunked:
    every profile, the mp4 one included, gets its own row and task and no
    chunking request is made. *)
Lemma encode_chunkize_off_counterexample :
  Media.duration (Demo.video 500 720) > CHUNKIZE_VIDEO_DURATION
  ∧ (encode [] (Demo.video 500 720) (Some [Demo.mp4_720; Demo.preview])
       true false (Demo.table_of [])).1 = inr true
  ∧ Encoding.profile
      <$> rows (encode [] (Demo.video 500 720)
                  (Some [Demo.mp4_720; Demo.preview]) true false
                  (Demo.table_of [])).2
    = [Demo.mp4_720; Demo.preview]
  ∧ trace (encode [] (Demo.video 500 720)
             (Some [Demo.mp4_720; Demo.preview]) true false
             (Demo.table_of [])).2
    = [EncodeMediaTask "tok" 1 1 "https://cinemata.org/api/v1/encodings/" true 0;
       EncodeMediaTask "tok" 3 2 "https://cinemata.org/api/v1/encodings/" true 0].
Proof.
  split; [reflexivity|]. vm_compute. split; [reflexivity|]. split; reflexivity.
Qed.

End EncodeExamples.

(** ** Tables *)

Lemma fresh_id_above (l : list Encoding.t) (r : Encoding.t) :
  r ∈ l → Encoding.id r < fresh_id l.
Proof.
  unfold fresh_id. intros Hin.
  assert (Encoding.id r ≤ foldr Z.max 0 (Encoding.id <$> l)); [|lia].
  induction l as [|x l IH]; [by apply elem_of_nil in Hin|].
  rewrite fmap_cons. cbn [foldr].
  apply elem_of_cons in Hin as [->|Hin]; [lia|].
  specialize (IH Hin). lia.
Qed.


Lemma insert_by_add_date_perm (e : Encoding.t) (l : list Encoding.t) :
  insert_by_add_date e l ≡ₚ e :: l.
Proof.
  induction l as [|x l IH]; simpl; [done|].
  case_bool_decide; [done|]. rewrite IH. apply Permutation_swap.
Qed.

Lemma order_by_add_date_perm (l : list Encoding.t) : order_by_add_date l ≡ₚ l.
Proof.
  unfold order_by_add_date. induction l as [|x l IH]; simpl; [done|].
  by rewrite insert_by_add_date_perm, IH.
Qed.

Lemma elem_of_order_by_add_date (l : list Encoding.t) (e : Encoding.t) :
  e ∈ order_by_add_date l ↔ e ∈ l.
Proof. by rewrite order_by_add_date_perm. Qed.

Lemma comprehension_total {A B : Type} (f : A → Py.exn + B) (g : A → B)
    (l : list A) :
  (∀ x, x ∈ l → f x = inr (g x)) → comprehension f l = inr (g <$> l).
Proof.
  induction l as [|x l IH]; intros Hf; simpl; [done|].
  rewrite (Hf x) by (by left). rewrite IH; [done|].
  intros y Hy. apply Hf. by right.
Qed.

Lemma comprehension_raises {A B : Type} (f : A → Py.exn + B) (e : Py.exn)
    (l : list A) (x : A) :
  x ∈ l → f x = inl e → (∀ y e', f y = inl e' → e' = e)
  → comprehension f l = inl e.
Proof.
  intros Hin Hx Hall. induction l as [|y l IH]; [by apply elem_of_nil in Hin|].
  simpl. destruct (f y) as [e'|b] eqn:Hy.
  - by rewrite (Hall y e' Hy).
  - apply elem_of_cons in Hin as [->|Hin]; [congruence|].
    by rewrite (IH Hin).
Qed.

Lemma string_app_empty (a b : string) : (a ++ b)%string = "" → b = "".
Proof. destruct a; simpl; [done|discriminate]. Qed.


Section CoordinatorFacts.
Context `{Settings} `{Helpers}.

Lemma has_artifact_spec (c : Encoding.t) :
  has_artifact c = true ↔ Encoding.media_file c ≠ "".
Proof.
  unfold has_artifact. case_bool_decide as Hf; [naive_solver|].
  rewrite bool_decide_eq_true. split; [done|]. intros _ Hp.
  by apply string_app_empty in Hp.
Qed.

Lemma media_file_path_artifact (c : Encoding.t) :
  has_artifact c = true
  → media_file_path c = inr (MEDIA_ROOT ++ Encoding.media_file c)%string.
Proof.
  intros Hc. apply has_artifact_spec in Hc. unfold media_file_path.
  by rewrite bool_decide_eq_false_2.
Qed.

Lemma media_file_path_missing (c : Encoding.t) :
  Encoding.media_file c = "" → media_file_path c = inl Py.ValueError.
Proof. intros Hc. unfold media_file_path. by rewrite bool_decide_eq_true_2. Qed.

Lemma media_file_path_exn (c : Encoding.t) (e : Py.exn) :
  media_file_path c = inl e → e = Py.ValueError.
Proof. unfold media_file_path. case_bool_decide; congruence. Qed.

(** The completeness check in terms of the rows it is given. *)
Lemma complete_spec (orig_chunks : list string) (chunks : list Encoding.t) :
  complete orig_chunks chunks = true
  ↔ (∀ k, k ∈ orig_chunks
          → ∃ c, c ∈ chunks ∧ Encoding.chunk_file_path c = k)
    ∧ (∀ c, c ∈ chunks → Encoding.media_file c ≠ "").
Proof.
  unfold complete. rewrite andb_true_iff, !forallb_forall.
  split; intros [Hkeys Hfiles]; split.
  - intros k Hk. apply list_elem_of_In in Hk.
    specialize (Hkeys k Hk). apply bool_decide_eq_true in Hkeys.
    destruct (filter _ chunks) as [|c l] eqn:Hf; [done|].
    assert (c ∈ filter (λ c, Encoding.chunk_file_path c = k) chunks) as Hc.
    { rewrite Hf. by left. }
    apply list_elem_of_filter in Hc. naive_solver.
  - intros c Hc. apply has_artifact_spec, Hfiles. by apply list_elem_of_In.
  - intros k Hk. apply list_elem_of_In in Hk.
    destruct (Hkeys k Hk) as (c & Hc & Hck).
    apply bool_decide_eq_true. intros Hnil.
    assert (c ∈ filter (λ c, Encoding.chunk_file_path c = k) chunks) as Hin.
    { by apply list_elem_of_filter. }
    rewrite Hnil in Hin. by apply elem_of_nil in Hin.
  - intros c Hc. apply has_artifact_spec, Hfiles. by apply list_elem_of_In.
Qed.

End CoordinatorFacts.

(** ** The receivers *)

Section ReceiverFacts.
Context `{Settings} `{Helpers}.

Lemma encoding_file_delete_spec (r : Encoding.t) (s : store) :
  encoding_file_delete r s
  = (inr (), {| rows := rows s; now := now s;
                trace := trace s ++ deletion_trace r |}).
Proof.
  unfold encoding_file_delete, deletion_trace.
  case_bool_decide.
  - unfold mret, M_ret. rewrite app_nil_r. by destruct s.
  - unfold mbind, M_bind, emit, mret, M_ret. simpl.
    destruct (Encoding.chunk r); simpl; [done|].
    rewrite post_encode_actions_spec. cbn [rows now trace].
    rewrite (bool_decide_eq_true_2 ("delete" = "delete")) by done.
    cbn [negb]. rewrite andb_false_r. cbn [andb].
    by rewrite <- app_assoc.
Qed.

Lemma for_each_delete_spec (l : list Encoding.t) (s : store) :
  for_each encoding_file_delete l s
  = (inr (), {| rows := rows s; now := now s;
                trace := trace s ++ concat (deletion_trace <$> l) |}).
Proof.
  revert s. induction l as [|r l IH]; intros s; simpl.
  - unfold mret, M_ret. rewrite app_nil_r. by destruct s.
  - unfold mbind, M_bind. rewrite encoding_file_delete_spec, IH. simpl.
    by rewrite <- app_assoc.
Qed.

Lemma delete_spec (instance : Encoding.t) (s : store) :
  delete instance s
  = (inr (), {| rows := filter (λ r, Encoding.id r ≠ Encoding.id instance) (rows s);
                now := now s;
                trace := trace s ++ deletion_trace instance |}).
Proof.
  unfold delete, mbind, M_bind, get_rows, put_rows.
  by rewrite encoding_file_delete_spec.
Qed.

Lemma queryset_delete_spec (P : Encoding.t → Prop) `{∀ r, Decision (P r)}
    (s : store) :
  queryset_delete P s
  = (inr (), {| rows := filter (λ r, ¬ P r) (rows s); now := now s;
                trace := trace s
                         ++ concat (deletion_trace
                                      <$> reverse_pk_order (filter P (rows s))) |}).
Proof.
  unfold queryset_delete, mbind, M_bind, get_rows, put_rows.
  by rewrite for_each_delete_spec.
Qed.

(** C10. A chunk saved as success, with a file, whose [chunks_info] does not
    parse is deleted by the receiver, which then returns [False]: the row
    leaves the table, its file is removed, and nothing else happens (no
    concat command, no new row, no recomputation). *)
Theorem encoding_file_save_bad_manifest (instance : Encoding.t) (s : store) :
  Encoding.chunk instance = true
  → Encoding.status instance = "success"
  → Encoding.media_file instance ≠ ""
  → json_keys (Encoding.chunks_info instance) = None
  → encoding_file_save instance s
    = (inr (Some false),
       {| rows := filter (λ r, Encoding.id r ≠ Encoding.id instance) (rows s);
          now := now s;
          trace := trace s
                   ++ [RmFile (MEDIA_ROOT ++ Encoding.media_file instance)] |}).
Proof.
  intros Hchunk Hstatus Hfile Hjson. unfold encoding_file_save.
  rewrite Hchunk, Hjson. rewrite (bool_decide_eq_true_2 _ Hstatus). simpl.
  rewrite (bool_decide_eq_false_2 _ Hfile).
  unfold mbind, M_bind. rewrite delete_spec. unfold deletion_trace.
  rewrite (bool_decide_eq_false_2 _ Hfile), Hchunk. done.
Qed.

Lemma encoding_file_save_incomplete (instance : Encoding.t)
    (orig_chunks : list string) (s : store) :
  Encoding.chunk instance = true
  → Encoding.status instance = "success"
  → Encoding.media_file instance ≠ ""
  → json_keys (Encoding.chunks_info instance) = Some orig_chunks
  → complete orig_chunks
      (order_by_add_date (filter (sibling instance) (rows s))) = false
  → encoding_file_save instance s = (inr None, s).
Proof.
  intros Hchunk Hstatus Hfile Hjson Hinc. unfold encoding_file_save.
  rewrite Hchunk, Hjson. rewrite (bool_decide_eq_true_2 _ Hstatus). simpl.
  rewrite (bool_decide_eq_false_2 _ Hfile).
  unfold mbind, M_bind, get_rows. by rewrite Hinc.
Qed.

(** C2. The completeness check of the receiver holds exactly when every key
    of the manifest is the [chunk_file_path] of at least one sibling row and
    every sibling row has a file, however many siblings there are; when it
    fails the receiver returns without touching anything. *)
Theorem complete_iff (instance : Encoding.t) (orig_chunks : list string)
    (s : store) :
  (complete orig_chunks
     (order_by_add_date (filter (sibling instance) (rows s))) = true
   ↔ (∀ k, k ∈ orig_chunks
           → ∃ c, c ∈ rows s ∧ sibling instance c
                  ∧ Encoding.chunk_file_path c = k)
     ∧ (∀ c, c ∈ rows s → sibling instance c → Encoding.media_file c ≠ ""))
  ∧ (Encoding.chunk instance = true
     → Encoding.status instance = "success"
     → Encoding.media_file instance ≠ ""
     → json_keys (Encoding.chunks_info instance) = Some orig_chunks
     → complete orig_chunks
         (order_by_add_date (filter (sibling instance) (rows s))) = false
     → encoding_file_save instance s = (inr None, s)).
Proof.
  split; [|apply encoding_file_save_incomplete].
  rewrite complete_spec.
  setoid_rewrite elem_of_order_by_add_date.
  setoid_rewrite list_elem_of_filter. naive_solver.
Qed.

End ReceiverFacts.

Section ReceiverExamples.
#[local] Existing Instance Demo.settings.
#[local] Existing Instance Demo.helpers.

Lemma encoding_file_save_bad_manifest_witness :
  encoding_file_save Demo.garbled
    (Demo.table_of [Demo.old_success; Demo.garbled])
  = (inr (Some false),
     {| rows := [Demo.old_success]; now := 900000000;
        trace := [RmFile "/media/encoded/c7.mp4"] |}).
Proof.
  rewrite (encoding_file_save_bad_manifest Demo.garbled
             (Demo.table_of [Demo.old_success; Demo.garbled])
             eq_refl eq_refl ltac:(discriminate) eq_refl).
  reflexivity.
Defined.

(** One manifest key, one sibling without a file: the check fails and the
    receiver does nothing. *)
Lemma complete_iff_witness :
  encoding_file_save Demo.done0
    (Demo.table_of
       [Demo.done0;
        Demo.row 6 Demo.mp4_720 "running" "" true "/tmp/c1.mkv" Demo.manifest1])
  = (inr None,
     Demo.table_of
       [Demo.done0;
        Demo.row 6 Demo.mp4_720 "running" "" true "/tmp/c1.mkv" Demo.manifest1]).
Proof.
  apply (proj2 (complete_iff Demo.done0 ["/tmp/c0.mkv"] _)).
  - reflexivity.
  - reflexivity.
  - discriminate.
  - reflexivity.
  - reflexivity.
Defined.

(** The check asks for at least one row per key, not exactly one: with two
    sibling rows for the only key of the manifest, both with a file, the set
    counts as complete. *)
Lemma complete_twice_counterexample :
  json_keys (Encoding.chunks_info Demo.done0) = Some ["/tmp/c0.mkv"]
  ∧ filter (λ c, Encoding.chunk_file_path c = "/tmp/c0.mkv")
      (order_by_add_date
         (filter (sibling Demo.done0) [Demo.done0; Demo.done0_again]))
    = [Demo.done0; Demo.done0_again]
  ∧ complete ["/tmp/c0.mkv"]
      (order_by_add_date
         (filter (sibling Demo.done0) [Demo.done0; Demo.done0_again]))
    = true.
Proof. split; [reflexivity|]. split; reflexivity. Qed.

End ReceiverExamples.

(** ** Synthesizing the final job *)

Section SynthesisFacts.
Context `{Settings} `{Helpers}.

Lemma aggregate_spec (chunks : list Encoding.t) (head : list string)
    (encoding : Encoding.t) (s : store) :
  chunks ≠ []
  → ∃ start_date end_date,
      Py.min (Encoding.add_date <$> chunks) = inr start_date
      ∧ Py.max (Encoding.update_date <$> chunks) = inr end_date
      ∧ aggregate chunks head encoding s
        = (inr (Encoding.with_report
                  (Py.join_lines (head ++ [Py.join_lines (Encoding.logs <$> chunks)]))
                  (dumps_workers
                     (elements (list_to_set (Encoding.worker <$> chunks)
                                : gset string)))
                  (Py.timedelta_seconds end_date start_date) encoding), s).
Proof.
  intros Hne. destruct chunks as [|c chunks]; [done|].
  eexists _, _. split; [reflexivity|]. split; [reflexivity|].
  reflexivity.
Qed.

Lemma aggregate_empty (head : list string) (encoding : Encoding.t) (s : store) :
  aggregate [] head encoding s = (inl Py.ValueError, s).
Proof. reflexivity. Qed.


End SynthesisFacts.

(** ** The success path *)

Section SuccessPath.
Context `{Settings} `{Helpers}.
Local Open Scope list_scope.

Lemma filter_ext_elem_of {A : Type} (P Q : A → Prop)
    `{∀ x, Decision (P x)} `{∀ x, Decision (Q x)} (l : list A) :
  (∀ x, x ∈ l → P x ↔ Q x) → filter P l = filter Q l.
Proof.
  induction l as [|x l IH]; intros Hext; [done|].
  rewrite !filter_cons.
  rewrite IH by (intros y Hy; apply Hext; by right).
  destruct (decide (P x)) as [Hp|Hp], (decide (Q x)) as [Hq|Hq]; try done.
  - apply Hext in Hp; [done|by left].
  - apply Hext in Hq; [done|by left].
Qed.

Lemma filter_all {A : Type} (P : A → Prop) `{∀ x, Decision (P x)} (l : list A) :
  (∀ x, x ∈ l → P x) → filter P l = l.
Proof.
  induction l as [|x l IH]; intros Hall; [done|].
  rewrite filter_cons_True by (apply Hall; by left).
  f_equal. apply IH. intros y Hy. apply Hall. by right.
Qed.

Lemma filter_who_last (table : list Encoding.t) (instance encoding : Encoding.t) :
  Encoding.id encoding = fresh_id table → same_pair instance encoding
  → filter (λ r, ¬ who encoding r) (table ++ [encoding])
    = (filter (λ r, ¬ same_pair instance r) table ++ [encoding])%list.
Proof.
  intros Hid [Hm Hp]. rewrite filter_app. f_equal.
  - apply filter_ext_elem_of. intros r Hr.
    apply fresh_id_above in Hr. unfold who, same_pair.
    rewrite Hm, Hp. split; [|naive_solver].
    intros Hw Hpair. apply Hw. split; [done|lia].
  - rewrite filter_cons_True; [done|]. unfold who. naive_solver.
Qed.







End SuccessPath.

(** ** Recount and failure path *)

Section CoordinatorClaims.
Context `{Settings} `{Helpers}.
Local Open Scope list_scope.

Lemma filter_excluded {A : Type} (P Q : A → Prop) `{∀ x, Decision (P x)}
    `{∀ x, Decision (Q x)} (l : list A) :
  (∀ x, Q x → P x) → filter Q (filter (λ x, ¬ P x) l) = [].
Proof.
  intros Hqp. induction l as [|x l IH]; [done|].
  rewrite (filter_cons (λ x, ¬ P x)).
  destruct (decide (¬ P x)); [|done].
  rewrite filter_cons_False; [done|]. naive_solver.
Qed.



(** C3. On the failure path the receiver reads [media_file.path] of every
    chunk row of the media with the same manifest before it builds anything:
    when one of these rows has no file, which is the case of the failed chunk
    itself when the worker stored none, the receiver raises [ValueError] and
    leaves the table and the effects as they were. *)
Theorem encoding_file_save_fail_raises (instance : Encoding.t) (s : store) :
  Encoding.chunk instance = true
  → Encoding.status instance = "fail"
  → (∃ c, c ∈ rows s ∧ fail_sibling instance c ∧ Encoding.media_file c = "")
  → encoding_file_save instance s = (inl Py.ValueError, s).
Proof.
  intros Hchunk Hstatus (c & Hc & Hsib & Hfile).
  unfold encoding_file_save. rewrite Hchunk. cbn [andb].
  rewrite bool_decide_eq_false_2 by (rewrite Hstatus; discriminate).
  rewrite (bool_decide_eq_true_2 _ Hstatus).
  unfold mbind, M_bind, get_rows, lift.
  rewrite (comprehension_raises media_file_path Py.ValueError _ c); [done| | |].
  - by apply elem_of_order_by_add_date, list_elem_of_filter.
  - by apply media_file_path_missing.
  - apply media_file_path_exn.
Qed.

(** The failure path when every row it reads has a file: the synthesized
    fail job replaces every other row of the media and profile. *)
Lemma encoding_file_save_fail_supersedes (instance : Encoding.t) (s : store) :
  Encoding.chunk instance = true
  → Encoding.status instance = "fail"
  → instance ∈ rows s
  → (∀ c, c ∈ rows s → fail_sibling instance c → Encoding.media_file c ≠ "")
  → media_type_of (Encoding.media instance) ≠ "video"
    ∨ EncodeProfile.extension (Encoding.profile instance) ≠ "gif"
  → ∃ encoding start_date end_date tr,
      Encoding.chunk encoding = false
      ∧ Encoding.status encoding = "fail"
      ∧ Encoding.id encoding = fresh_id (rows s)
      ∧ Encoding.media_file encoding = ""
      ∧ Encoding.progress encoding = Py.VInt 100
      ∧ same_pair instance encoding
      ∧ Py.min (Encoding.add_date
                  <$> order_by_add_date (filter (fail_sibling instance) (rows s)))
        = inr start_date
      ∧ Py.max (Encoding.update_date
                  <$> order_by_add_date (filter (fail_sibling instance) (rows s)))
        = inr end_date
      ∧ Encoding.total_run_time encoding
        = Py.timedelta_seconds end_date start_date
      ∧ encoding_file_save instance s
        = (inr None,
           {| rows := filter (λ r, ¬ same_pair instance r) (rows s) ++ [encoding];
              now := now s; trace := trace s ++ tr |})
      ∧ filter (λ r, same_pair instance r ∧ Encoding.status r = "success")
          (filter (λ r, ¬ same_pair instance r) (rows s) ++ [encoding]) = [].
Proof.
  intros Hchunk Hstatus Hin Hfiles Hquiet.
  unfold encoding_file_save. rewrite Hchunk. cbn [andb].
  rewrite bool_decide_eq_false_2 by (rewrite Hstatus; discriminate).
  rewrite (bool_decide_eq_true_2 _ Hstatus).
  unfold mbind at 1, M_bind at 1, get_rows at 1.
  set (chunks := order_by_add_date (filter (fail_sibling instance) (rows s))).
  assert (chunks ≠ []) as Hne.
  { intros Hnil. assert (instance ∈ chunks) as Hi.
    { apply elem_of_order_by_add_date, list_elem_of_filter. done. }
    rewrite Hnil in Hi. by apply elem_of_nil in Hi. }
  unfold mbind at 1, M_bind at 1, lift.
  rewrite (comprehension_total media_file_path
             (λ c, MEDIA_ROOT ++ Encoding.media_file c)%string); last first.
  { intros c Hc. apply elem_of_order_by_add_date, list_elem_of_filter in Hc as [Hs Hc].
    apply media_file_path_artifact, has_artifact_spec. by apply Hfiles. }
  set (chunks_paths := (λ c, MEDIA_ROOT ++ Encoding.media_file c)%string <$> chunks).
  destruct (aggregate_spec chunks [repr_paths chunks_paths]
              (Encoding.new (Encoding.media instance) (Encoding.profile instance)
                 "fail" 100) s Hne)
    as (start_date & end_date & Hmin & Hmax & Hagg).
  bind_step. rewrite Hagg.
  set (enc1 := Encoding.with_report _ _ _ _).
  bind_step.
  rewrite (save_new enc1 s) by done.
  cbn zeta. rewrite bool_decide_eq_true_2 by (simpl; set_solver).
  assert (bool_decide (media_type_of (Encoding.media enc1) = "video")
          && bool_decide (EncodeProfile.extension (Encoding.profile enc1) = "gif")
          = false) as Hq.
  { apply andb_false_iff.
    destruct Hquiet; [left|right]; by apply bool_decide_eq_false_2. }
  cbn [andb]. rewrite Hq. clear Hq.
  set (enc2 := Encoding.with_id _ _).
  unfold mbind, M_bind. rewrite queryset_delete_spec. cbn [rows now trace].
  assert (same_pair instance enc2) as Hpair by done.
  rewrite (filter_who_last _ instance) by done.
  unfold mret, M_ret.
  exists enc2, start_date, end_date. eexists.
  repeat (split; [done|]). split.
  - rewrite <- app_assoc. reflexivity.
  - rewrite filter_app, filter_cons_False by (simpl; naive_solver).
    rewrite filter_nil, app_nil_r. apply filter_excluded. naive_solver.
Qed.

End CoordinatorClaims.

Section CoordinatorExamples.
#[local] Existing Instance Demo.settings.
#[local] Existing Instance Demo.helpers.



(** A chunk fails and the worker stored no file for it: the receiver
    raises, no fail job is written and the older success of the same media
    and profile is still in the table. *)
Lemma encoding_file_save_fail_raises_witness :
  encoding_file_save Demo.failed0 (Demo.table_of [Demo.old_success; Demo.failed0])
  = (inl Py.ValueError, Demo.table_of [Demo.old_success; Demo.failed0])
  ∧ Encoding.status Demo.old_success = "success"
  ∧ same_pair Demo.failed0 Demo.old_success.
Proof.
  split; [|split; [reflexivity|split; reflexivity]].
  apply (encoding_file_save_fail_raises Demo.failed0
           (Demo.table_of [Demo.old_success; Demo.failed0]) eq_refl eq_refl).
  exists Demo.failed0. split; [simpl; set_solver|]. split; [|reflexivity].
  split; [reflexivity|]. split; reflexivity.
Defined.

(** Two chunks, saved one after the other: the first save finds the set
    incomplete and does nothing, the second one leaves the final job alone
    in the table and removes the segment files. *)
Example two_chunks_then_final :
  encoding_file_save Demo.part0 (Demo.table_of [Demo.part0])
  = (inr None, Demo.table_of [Demo.part0])
  ∧ Encoding.id
      <$> rows (encoding_file_save Demo.part1
                  (Demo.table_of [Demo.part0; Demo.part1])).2 = [10]
  ∧ trace (encoding_file_save Demo.part1
             (Demo.table_of [Demo.part0; Demo.part1])).2
    = [RunConcat ["/media/encoded/p0.mp4"; "/media/encoded/p1.mp4"];
       PostEncodeActions 1 10 "add"; PostEncodeActions 1 10 "add";
       RmFile "/media/encoded/p1.mp4"; RmFile "/media/encoded/p0.mp4";
       RmFile "/tmp/c0.mkv"; RmFile "/tmp/c1.mkv";
       PostEncodeActions 1 9 "add"].
Proof. split; [reflexivity|]. split; reflexivity. Qed.

(** The only chunk of a gif profile of a video completes: the receiver
    raises, and the job it has just inserted stays in the table, without a
    file, next to the chunk. *)
Example preview_chunk_raises :
  (encoding_file_save
     (Demo.row 5 Demo.preview "success" "encoded/c0.gif" true "/tmp/c0.mkv"
        Demo.manifest1)
     (Demo.table_of
        [Demo.row 5 Demo.preview "success" "encoded/c0.gif" true "/tmp/c0.mkv"
           Demo.manifest1])).1
  = inl Py.ValueError
  ∧ (λ r, (Encoding.status r, Encoding.chunk r, Encoding.media_file r))
      <$> rows (encoding_file_save
                  (Demo.row 5 Demo.preview "success" "encoded/c0.gif" true
                     "/tmp/c0.mkv" Demo.manifest1)
                  (Demo.table_of
                     [Demo.row 5 Demo.preview "success" "encoded/c0.gif" true
                        "/tmp/c0.mkv" Demo.manifest1])).2
    = [("success", true, "encoded/c0.gif"); ("success", false, "")].
Proof. split; reflexivity. Qed.

(** Two rows for the only chunk of a set: the set is complete, the count
    is 2 against 1 key, and the job just built is deleted again. *)
Example duplicate_rows_discard_result :
  rows (encoding_file_save Demo.done0
          (Demo.table_of [Demo.done0; Demo.done0_again])).2
  = [Demo.done0; Demo.done0_again].
Proof. reflexivity. Qed.

End CoordinatorExamples.

(** * Further properties of the modelled code *)

(** ** The receiver outside the two chunk branches *)

Section ReceiverQuiet.
Context `{Settings} `{Helpers}.
Local Open Scope list_scope.

(** X1. A row that is not a chunk, and a chunk that is neither success nor
    fail, take the last branch of the receiver: the Encoding table is left
    as it is, and [post_encode_actions] is called, with action add, exactly
    when the status is fail or success. A chunk saved as success without a
    file is ignored altogether. *)
Theorem encoding_file_save_table_untouched (instance : Encoding.t) (s : store) :
  (Encoding.chunk instance = false
   ∨ Encoding.status instance ∉ ["success"; "fail"]
   ∨ (Encoding.status instance = "success" ∧ Encoding.media_file instance = ""))
  → rows (encoding_file_save instance s).2 = rows s
    ∧ now (encoding_file_save instance s).2 = now s
    ∧ trace (encoding_file_save instance s).2
      = trace s
        ++ (if bool_decide (Encoding.chunk instance = false
                            ∧ Encoding.status instance ∈ ["fail"; "success"])
            then [PostEncodeActions (Encoding.media instance)
                    (Encoding.id instance) "add"]
            else []).
Proof.
  intros Hcase. unfold encoding_file_save.
  destruct (Encoding.chunk instance) eqn:Hchunk; cbn [andb].
  - rewrite (bool_decide_eq_false_2 (true = false ∧ _)) by naive_solver.
    destruct Hcase as [?|[Hst|[Hst Hfile]]]; [done| |].
    + rewrite !bool_decide_eq_false_2 by set_solver.
      unfold encoding_file_save_other, mbind, M_bind, mret, M_ret.
      rewrite bool_decide_eq_false_2 by set_solver.
      cbn. by rewrite app_nil_r.
    + rewrite (bool_decide_eq_true_2 _ Hst), (bool_decide_eq_true_2 _ Hfile).
      unfold mret, M_ret. cbn. by rewrite app_nil_r.
  - unfold encoding_file_save_other, mbind, M_bind, mret, M_ret.
    case_bool_decide as Hst.
    + rewrite bool_decide_eq_true_2 by done.
      rewrite post_encode_actions_spec. by destruct (_ && _).
    + rewrite bool_decide_eq_false_2 by naive_solver. cbn. by rewrite app_nil_r.
Qed.

End ReceiverQuiet.

Section ReceiverQuietExamples.
#[local] Existing Instance Demo.settings.
#[local] Existing Instance Demo.helpers.

Lemma encoding_file_save_table_untouched_witness :
  rows (encoding_file_save Demo.old_fail
          (Demo.table_of [Demo.old_success; Demo.old_fail])).2
  = [Demo.old_success; Demo.old_fail]
  ∧ trace (encoding_file_save Demo.old_fail
             (Demo.table_of [Demo.old_success; Demo.old_fail])).2
    = [PostEncodeActions 1 3 "add"].
Proof.
  destruct (encoding_file_save_table_untouched Demo.old_fail
              (Demo.table_of [Demo.old_success; Demo.old_fail])
              (or_introl eq_refl)) as (Hrows & _ & Htrace).
  split; [exact Hrows|exact Htrace].
Defined.

End ReceiverQuietExamples.

(** ** Aggregation and recount *)

Lemma Py_min_spec (l : list Z) (m : Z) :
  Py.min l = inr m → m ∈ l ∧ ∀ x, x ∈ l → m ≤ x.
Proof.
  destruct l as [|x l]; [done|]. simpl. intros [= <-].
  induction l as [|y l IH]; simpl.
  - split; [by left|]. intros z Hz. apply list_elem_of_singleton in Hz. lia.
  - destruct IH as [Hin Hle]. split.
    + destruct (Z.min_spec y (foldr Z.min x l)) as [[_ ->]|[_ ->]].
      * right. by left.
      * apply elem_of_cons in Hin as [->|Hin]; [by left|]. right. by right.
    + intros z Hz. apply elem_of_cons in Hz as [->|Hz].
      * specialize (Hle x). specialize (Hle ltac:(by left)). lia.
      * apply elem_of_cons in Hz as [->|Hz]; [lia|].
        specialize (Hle z). specialize (Hle ltac:(by right)). lia.
Qed.

Lemma Py_max_spec (l : list Z) (m : Z) :
  Py.max l = inr m → m ∈ l ∧ ∀ x, x ∈ l → x ≤ m.
Proof.
  destruct l as [|x l]; [done|]. simpl. intros [= <-].
  induction l as [|y l IH]; simpl.
  - split; [by left|]. intros z Hz. apply list_elem_of_singleton in Hz. lia.
  - destruct IH as [Hin Hle]. split.
    + destruct (Z.max_spec y (foldr Z.max x l)) as [[_ ->]|[_ ->]].
      * apply elem_of_cons in Hin as [->|Hin]; [by left|]. right. by right.
      * right. by left.
    + intros z Hz. apply elem_of_cons in Hz as [->|Hz].
      * specialize (Hle x). specialize (Hle ltac:(by left)). lia.
      * apply elem_of_cons in Hz as [->|Hz]; [lia|].
        specialize (Hle z). specialize (Hle ltac:(by right)). lia.
Qed.

Section AggregateFacts.
Context `{Settings} `{Helpers}.
Local Open Scope list_scope.

(** X2. The run time written on a synthesized job is taken between the
    earliest [add_date] and the latest [update_date] of the chunk rows, as
    the seconds component of that span: it always lies between 0 and 86399,
    and it is the span in whole seconds only while the span is under one day.
    Over no rows at all the aggregation raises [ValueError]. *)
Theorem aggregate_run_time (chunks : list Encoding.t) (head : list string)
    (encoding : Encoding.t) (s : store) :
  (chunks = [] → aggregate chunks head encoding s = (inl Py.ValueError, s))
  ∧ (chunks ≠ []
     → ∃ job start_date end_date,
         aggregate chunks head encoding s = (inr job, s)
         ∧ (∃ c, c ∈ chunks ∧ Encoding.add_date c = start_date)
         ∧ (∀ c, c ∈ chunks → start_date ≤ Encoding.add_date c)
         ∧ (∃ c, c ∈ chunks ∧ Encoding.update_date c = end_date)
         ∧ (∀ c, c ∈ chunks → Encoding.update_date c ≤ end_date)
         ∧ 0 ≤ Encoding.total_run_time job < 86400
         ∧ (Encoding.total_run_time job
            = ((end_date - start_date) `div` 1000000) `mod` 86400)
         ∧ (0 ≤ end_date - start_date < 86400 * 1000000
            → Encoding.total_run_time job
              = (end_date - start_date) `div` 1000000)).
Proof.
  split; [by intros ->|]. intros Hne.
  destruct (aggregate_spec chunks head encoding s Hne)
    as (start_date & end_date & Hmin & Hmax & Hrun).
  apply Py_min_spec in Hmin as [Hmin_in Hmin_le].
  apply Py_max_spec in Hmax as [Hmax_in Hmax_le].
  apply list_elem_of_fmap in Hmin_in as (c1 & -> & Hc1).
  apply list_elem_of_fmap in Hmax_in as (c2 & -> & Hc2).
  eexists _, (Encoding.add_date c1), (Encoding.update_date c2).
  split; [exact Hrun|]. cbn [Encoding.total_run_time Encoding.with_report].
  unfold Py.timedelta_seconds.
  split; [by eauto|]. split.
  { intros c Hc. apply Hmin_le, list_elem_of_fmap. eauto. }
  split; [by eauto|]. split.
  { intros c Hc. apply Hmax_le, list_elem_of_fmap. eauto. }
  split; [apply Z.mod_pos_bound; lia|]. split; [done|].
  intros Hspan. apply Z.mod_small. split.
  - apply Z.div_pos; lia.
  - apply Z.div_lt_upper_bound; lia.
Qed.



End AggregateFacts.

Section AggregateExamples.
#[local] Existing Instance Demo.settings.
#[local] Existing Instance Demo.helpers.

(** Rows 8 and 9 were created at seconds 8 and 9 and last updated at
    seconds 68 and 69: 61 seconds. *)
Lemma aggregate_run_time_witness :
  ∃ job, aggregate [Demo.part0; Demo.part1] [] Demo.old_fail (Demo.table_of [])
         = (inr job, Demo.table_of [])
         ∧ Encoding.total_run_time job = 61.
Proof.
  destruct (proj2 (aggregate_run_time [Demo.part0; Demo.part1] []
                     Demo.old_fail (Demo.table_of [])) ltac:(discriminate))
    as (job & start_date & end_date & Hrun & _).
  exists job. split; [exact Hrun|].
  vm_compute in Hrun. injection Hrun as <-. reflexivity.
Defined.


End AggregateExamples.

(** ** The failure path when every row has a file *)

Section FailurePath.
Context `{Settings} `{Helpers}.
Local Open Scope list_scope.

(** X4. When a chunk of a profile that is not a gif is saved as fail and every
    chunk row of the media with the same manifest has a file, the receiver
    returns normally: it appends one fail job that is not a chunk, with
    progress 100, no file and a key above every key of the table, deletes
    every other row of the media and profile, and so leaves no success for
    them. *)
Theorem encoding_file_save_fail_with_files (instance : Encoding.t) (s : store) :
  Encoding.chunk instance = true
  → Encoding.status instance = "fail"
  → EncodeProfile.extension (Encoding.profile instance) ≠ "gif"
  → instance ∈ rows s
  → (∀ c, c ∈ rows s → fail_sibling instance c → Encoding.media_file c ≠ "")
  → ∃ job,
      (encoding_file_save instance s).1 = inr None
      ∧ rows (encoding_file_save instance s).2
        = filter (λ r, ¬ same_pair instance r) (rows s) ++ [job]
      ∧ (∀ r, r ∈ rows s → Encoding.id r < Encoding.id job)
      ∧ Encoding.chunk job = false
      ∧ Encoding.status job = "fail"
      ∧ Encoding.progress job = Py.VInt 100
      ∧ Encoding.media_file job = ""
      ∧ same_pair instance job
      ∧ 0 ≤ Encoding.total_run_time job < 86400
      ∧ (∀ r, r ∈ rows (encoding_file_save instance s).2
              → same_pair instance r → r = job).
Proof.
  intros Hchunk Hstatus Hgif Hin Hfiles.
  destruct (encoding_file_save_fail_supersedes instance s Hchunk Hstatus Hin
              Hfiles (or_intror Hgif))
    as (job & start_date & end_date & tr & Hc & Hs & Hid & Hfile & Hprog
        & Hpair & _ & _ & Hrt & Hrun & _).
  exists job. rewrite Hrun. cbn [fst snd rows].
  split; [done|]. split; [done|].
  split. { intros r Hr. rewrite Hid. by apply fresh_id_above. }
  repeat (split; [done|]). split.
  - rewrite Hrt. unfold Py.timedelta_seconds. apply Z.mod_pos_bound. lia.
  - intros r Hr Hp. apply elem_of_app in Hr as [Hr|Hr].
    + apply list_elem_of_filter in Hr as [Hnp _]. done.
    + by apply list_elem_of_singleton in Hr.
Qed.

End FailurePath.

Section FailurePathExamples.
#[local] Existing Instance Demo.settings.
#[local] Existing Instance Demo.helpers.

(** A failed chunk that left a partial file, next to an older success of
    the same profile: only the fail job is left. *)
Lemma encoding_file_save_fail_with_files_witness :
  ∃ job,
    rows (encoding_file_save
            (Demo.row 5 Demo.mp4_720 "fail" "encoded/c0.part" true
               "/tmp/c0.mkv" Demo.manifest1)
            (Demo.table_of
               [Demo.old_success;
                Demo.row 5 Demo.mp4_720 "fail" "encoded/c0.part" true
                  "/tmp/c0.mkv" Demo.manifest1])).2
    = [job]
    ∧ Encoding.status job = "fail" ∧ Encoding.progress job = Py.VInt 100.
Proof.
  destruct (encoding_file_save_fail_with_files
              (Demo.row 5 Demo.mp4_720 "fail" "encoded/c0.part" true
                 "/tmp/c0.mkv" Demo.manifest1)
              (Demo.table_of
                 [Demo.old_success;
                  Demo.row 5 Demo.mp4_720 "fail" "encoded/c0.part" true
                    "/tmp/c0.mkv" Demo.manifest1])
              eq_refl eq_refl ltac:(discriminate) ltac:(simpl; set_solver))
    as (job & _ & Hrows & _ & _ & Hs & Hprog & _).
  - intros c Hc [_ [_ Hchunk]]. apply list_elem_of_In in Hc. simpl in Hc.
    destruct Hc as [<-|[<-|[]]]; [discriminate Hchunk|discriminate].
  - exists job. split; [exact Hrows|]. split; [exact Hs|exact Hprog].
Defined.

End FailurePathExamples.

(** ** More on the aggregate status *)

Lemma mp4_jobs_cons (e : Encoding.t) (table : list Encoding.t) (self : Media.t) :
  mp4_jobs (e :: table) self
  = if decide (Encoding.media e = Media.id self
               ∧ EncodeProfile.extension (Encoding.profile e) = "mp4"
               ∧ Encoding.chunk e = false)
    then e :: mp4_jobs table self else mp4_jobs table self.
Proof. unfold mp4_jobs. by rewrite filter_cons. Qed.

(** X5. The aggregate status does not depend on the order of the rows, and a
    row of another media, of a profile that is not mp4, or that is a chunk
    does not change it. *)
Theorem set_encoding_status_ignores (table : list Encoding.t) (self : Media.t) :
  (∀ table', table ≡ₚ table'
             → set_encoding_status table' self = set_encoding_status table self)
  ∧ (∀ e, Encoding.media e ≠ Media.id self
          ∨ EncodeProfile.extension (Encoding.profile e) ≠ "mp4"
          ∨ Encoding.chunk e = true
          → set_encoding_status (e :: table) self
            = set_encoding_status table self).
Proof.
  split.
  - intros table' Hperm. unfold set_encoding_status. f_equal. f_equal.
    apply set_eq. intros st. rewrite !elem_of_mp4_statuses.
    unfold mp4_jobs. by setoid_rewrite <- Hperm.
  - intros e He. unfold set_encoding_status, mp4_statuses.
    rewrite mp4_jobs_cons. rewrite decide_False; [done|].
    intros (Hm & Hx & Hc). destruct He as [?|[?|Ht]]; [done|done|].
    rewrite Hc in Ht. discriminate.
Qed.

(** X6. The aggregate status is always one of the four status words, whatever
    the rows hold; it is pending exactly when the table has no row of the
    media that is not a chunk and whose profile has the extension mp4; and
    once it is success, more rows never change it. *)
Theorem set_encoding_status_range (table : list Encoding.t) (self : Media.t) :
  Media.encoding_status (set_encoding_status table self)
    ∈ ["pending"; "success"; "running"; "fail"]
  ∧ (Media.encoding_status (set_encoding_status table self) = "pending"
     ↔ ¬ (∃ e, e ∈ table ∧ Encoding.media e = Media.id self
               ∧ EncodeProfile.extension (Encoding.profile e) = "mp4"
               ∧ Encoding.chunk e = false))
  ∧ (Media.encoding_status (set_encoding_status table self) = "success"
     → ∀ more,
         Media.encoding_status (set_encoding_status (table ++ more)%list self)
         = "success").
Proof.
  unfold set_encoding_status, resolve_status. simpl.
  split; [|split].
  - repeat case_bool_decide; set_solver.
  - rewrite <- mp4_jobs_nil, <- mp4_statuses_empty.
    repeat case_bool_decide; naive_solver.
  - intros Hsucc more.
    assert ("success" ∈ mp4_statuses table self) as Hin.
    { revert Hsucc. repeat case_bool_decide; naive_solver. }
    assert ("success" ∈ mp4_statuses (table ++ more)%list self) as Hin'.
    { apply elem_of_mp4_statuses in Hin as (e & He & Hs).
      apply elem_of_mp4_statuses. exists e. split; [|done].
      unfold mp4_jobs in *. rewrite filter_app. apply elem_of_app. by left. }
    rewrite bool_decide_eq_false_2 by set_solver.
    by rewrite bool_decide_eq_true_2.
Qed.

(** A chunk that is running next to a finished mp4 job changes nothing. *)
Lemma set_encoding_status_ignores_witness :
  set_encoding_status
    [Demo.row 4 Demo.mp4_720 "running" "" true "/tmp/c0.mkv" Demo.manifest1;
     Demo.old_success] (Demo.video 100 720)
  = set_encoding_status [Demo.old_success] (Demo.video 100 720).
Proof.
  apply (proj2 (set_encoding_status_ignores [Demo.old_success]
                  (Demo.video 100 720))).
  right. right. reflexivity.
Defined.

(** A table that holds only a chunk and a webm job, both success: the
    status is pending. *)
Lemma set_encoding_status_range_witness :
  Media.encoding_status
    (set_encoding_status
       [Demo.done0;
        Demo.row 1 Demo.webm_720 "success" "encoded/a.webm" false "" ""]
       (Demo.video 100 720)) = "pending".
Proof.
  apply (proj1 (proj2 (set_encoding_status_range _ _))).
  intros (e & Hin & Hm & Hx & Hc). apply list_elem_of_In in Hin.
  destruct Hin as [<-|[<-|[]]]; [discriminate Hc|discriminate Hx].
Defined.

(** ** Encoding.set_progress, twice *)

Section SetProgressTwice.
Context `{Settings} `{Helpers}.

Lemma set_progress_uncommitted (self : Encoding.t) (p : Py.value) (s : store) :
  ∃ b : bool,
    set_progress self p false s
    = (inr (b, if b then Encoding.with_progress p self else self), s)
       ∧ (b = true ↔ ∃ z, Py.as_int p = Some z ∧ 0 ≤ z ≤ 100).
Proof.
  unfold set_progress.
  destruct (Py.isinstance_int p && _) eqn:Hacc.
  - exists true. split; [done|]. by rewrite <- accepted_spec.
  - exists false. split; [done|]. rewrite <- accepted_spec. by rewrite Hacc.
Qed.

Lemma write_progress_ids (key : Z) (v : Py.value) (table : list Encoding.t) :
  Encoding.id
    <$> ((λ r : Encoding.t, if bool_decide (Encoding.id r = key)
                            then Encoding.with_progress v r else r) <$> table)
  = Encoding.id <$> table.
Proof.
  rewrite <- list_fmap_compose. apply list_fmap_ext.
  intros i r _. simpl. by case_bool_decide.
Qed.

Lemma set_progress_committed (self : Encoding.t) (p : Py.value) (s : store) :
  (∃ z, Py.as_int p = Some z ∧ 0 ≤ z ≤ 100)
  → Encoding.id self ≠ 0
  → Encoding.id self ∈ Encoding.id <$> rows s
  → Encoding.status self ∉ ["success"; "fail"]
  → set_progress self p true s
    = (inr (true, refreshed (Encoding.with_progress p self)),
       {| rows := (λ r, if bool_decide (Encoding.id r = Encoding.id self)
                        then Encoding.with_progress (stored_progress p) r
                        else r) <$> rows s;
          now := now s; trace := trace s |}).
Proof.
  intros Hacc Hid Hin Hstatus. apply accepted_spec in Hacc.
  unfold set_progress. rewrite Hacc. unfold mbind, M_bind.
  by rewrite save_progress_quiet.
Qed.

(** X7. Of two calls of [set_progress] in a row the later accepted value is
    the one kept, and a refused value leaves the earlier one in place.
    Without [commit] no other field of the object changes and nothing else
    happens. With [commit], on a row of the table that is neither success
    nor fail, both calls return [True] and the row ends with the later
    value; no row is added or removed, no other row changes and no effect
    is issued. *)
Theorem set_progress_last_write_wins (self : Encoding.t) (p1 p2 : Py.value)
    (s : store) :
  (∃ (b1 : bool) o1 (b2 : bool) o2,
     set_progress self p1 false s = (inr (b1, o1), s)
     ∧ set_progress o1 p2 false s = (inr (b2, o2), s)
     ∧ (b1 = true ↔ ∃ z, Py.as_int p1 = Some z ∧ 0 ≤ z ≤ 100)
     ∧ (b2 = true ↔ ∃ z, Py.as_int p2 = Some z ∧ 0 ≤ z ≤ 100)
     ∧ Encoding.with_progress (Encoding.progress self) o2 = self
     ∧ Encoding.progress o2
       = (if b2 then p2 else if b1 then p1 else Encoding.progress self))
  ∧ ((∃ z, Py.as_int p1 = Some z ∧ 0 ≤ z ≤ 100)
     → (∃ z, Py.as_int p2 = Some z ∧ 0 ≤ z ≤ 100)
     → Encoding.id self ≠ 0
     → Encoding.id self ∈ Encoding.id <$> rows s
     → Encoding.status self ∉ ["success"; "fail"]
     → ∃ o1 s1 o2 s2,
         set_progress self p1 true s = (inr (true, o1), s1)
         ∧ set_progress o1 p2 true s1 = (inr (true, o2), s2)
         ∧ Encoding.progress o2 = p2
         ∧ trace s2 = trace s
         ∧ Encoding.id <$> rows s2 = Encoding.id <$> rows s
         ∧ (∀ r, r ∈ rows s2 → Encoding.id r = Encoding.id self
                 → Encoding.progress r = stored_progress p2)
         ∧ (∀ r, r ∈ rows s2 → Encoding.id r ≠ Encoding.id self
                 → r ∈ rows s)).
Proof.
  split.
  - destruct (set_progress_uncommitted self p1 s) as (b1 & Hrun1 & Hb1).
    destruct (set_progress_uncommitted
                (if b1 then Encoding.with_progress p1 self else self) p2 s)
      as (b2 & Hrun2 & Hb2).
    eexists b1, _, b2, _. split; [exact Hrun1|]. split; [exact Hrun2|].
    split; [done|]. split; [done|].
    destruct b1, b2; simpl; split; try done; by destruct self.
  - intros Hacc1 Hacc2 Hid Hin Hstatus.
    destruct (refreshed_fields (Encoding.with_progress p1 self))
      as (Hi1 & Hs1 & _).
    destruct (refreshed_fields
                (Encoding.with_progress p2
                   (refreshed (Encoding.with_progress p1 self))))
      as (Hi2 & _ & _ & Hp2 & _).
    eexists _, _, _, _.
    split; [by apply set_progress_committed|].
    split.
    { apply set_progress_committed; [done| | |].
      - by rewrite Hi1.
      - cbn [rows]. rewrite write_progress_ids. by rewrite Hi1.
      - by rewrite Hs1. }
    cbn [rows trace]. rewrite Hi1. cbn [Encoding.id Encoding.with_progress].
    split; [exact Hp2|]. split; [done|].
    split; [by rewrite !write_progress_ids|].
    split.
    + intros r Hr Hkey.
      apply list_elem_of_fmap in Hr as (r1 & -> & Hr1).
      apply list_elem_of_fmap in Hr1 as (r0 & -> & Hr0).
      revert Hkey. repeat (case_bool_decide; simpl); done.
    + intros r Hr Hkey.
      apply list_elem_of_fmap in Hr as (r1 & -> & Hr1).
      apply list_elem_of_fmap in Hr1 as (r0 & -> & Hr0).
      revert Hkey. repeat (case_bool_decide; simpl); done.
Qed.

End SetProgressTwice.

Section SetProgressTwiceExamples.
#[local] Existing Instance Demo.settings.
#[local] Existing Instance Demo.helpers.

(** A running job reports 40, then 60: the row holds 60. *)
Lemma set_progress_last_write_wins_witness :
  ∃ o1 s1 o2 s2,
    set_progress (Demo.row 4 Demo.mp4_720 "running" "" false "" "")
      (Py.VInt 40) true
      (Demo.table_of [Demo.row 4 Demo.mp4_720 "running" "" false "" ""])
    = (inr (true, o1), s1)
    ∧ set_progress o1 (Py.VInt 60) true s1 = (inr (true, o2), s2)
    ∧ Encoding.progress <$> rows s2 = [Py.VInt 60].
Proof.
  destruct (proj2 (set_progress_last_write_wins
                     (Demo.row 4 Demo.mp4_720 "running" "" false "" "")
                     (Py.VInt 40) (Py.VInt 60)
                     (Demo.table_of
                        [Demo.row 4 Demo.mp4_720 "running" "" false "" ""])))
    as (o1 & s1 & o2 & s2 & Hrun1 & Hrun2 & _ & _ & Hids & Hrow & _).
  - exists 40. split; [reflexivity|lia].
  - exists 60. split; [reflexivity|lia].
  - discriminate.
  - apply list_elem_of_In. left. reflexivity.
  - intros Hst. apply list_elem_of_In in Hst.
    destruct Hst as [Hst|[Hst|[]]]; discriminate Hst.
  - exists o1, s1, o2, s2. split; [exact Hrun1|]. split; [exact Hrun2|].
    destruct (rows s2) as [|r [|r' l]]; [discriminate Hids| |discriminate Hids].
    cbn [fmap list_fmap]. f_equal. apply Hrow; [left|].
    by injection Hids.
Defined.

End SetProgressTwiceExamples.

(** ** More on Media.encode *)

Section EncodeMore.
Context `{Settings} `{Helpers}.
Local Open Scope list_scope.

Lemma encode_gifs_effects (self : Media.t) (force : bool)
    (copy profiles : list EncodeProfile.t) (s : store) :
  ∃ new,
    (encode_gifs self force copy profiles s).2
    = {| rows := rows s ++ new; now := now s;
         trace := trace s ++ (dispatched self force 0 <$> new) |}
    ∧ Forall (whole_file_job self) new
    ∧ Forall (λ e, Encoding.profile e ∈ copy) new.
Proof.
  revert profiles s. induction copy as [|p rest IH]; intros profiles s.
  - exists []. simpl. rewrite !app_nil_r. unfold mret, M_ret. by destruct s.
  - simpl. case_bool_decide as Hgif.
    + bind_step. unfold lift.
      destruct (list_remove p profiles) as [e|profiles'].
      { exists []. simpl. rewrite !app_nil_r. by destruct s. }
      destruct (create_and_dispatch_spec self p force 0 s) as (e & He & Hp & Hjob).
      unfold mbind, M_bind. rewrite He.
      destruct (IH profiles'
                  {| rows := rows s ++ [e]; now := now s;
                     trace := trace s ++ [dispatched self force 0 e] |})
        as (new & Hnew & Hall & Hprof).
      exists (e :: new). simpl in Hnew. rewrite Hnew. simpl.
      rewrite <- !app_assoc. simpl. split; [done|]. split.
      * by constructor.
      * constructor; [rewrite Hp; by left|].
        eapply Forall_impl; [exact Hprof|]. intros x Hx. by right.
    + destruct (IH profiles s) as (new & Hnew & Hall & Hprof).
      exists new. split; [done|]. split; [done|].
      eapply Forall_impl; [exact Hprof|]. intros x Hx. by right.
Qed.

Lemma encode_whole_profiles (self : Media.t) (force : bool)
    (profiles : list EncodeProfile.t) (s : store) :
  ∃ new,
    rows (encode_whole self force profiles s).2 = rows s ++ new
    ∧ Forall (λ e, Encoding.profile e ∈ profiles) new.
Proof.
  revert s. induction profiles as [|p rest IH]; intros s.
  - exists []. simpl. by rewrite app_nil_r.
  - simpl. bind_step. unfold lift.
    destruct (skipped self p) as [e|[|]].
    + exists []. simpl. by rewrite app_nil_r.
    + unfold mbind, M_bind, mret, M_ret.
      destruct (IH s) as (new & Hnew & Hprof). exists new. split; [done|].
      eapply Forall_impl; [exact Hprof|]. intros x Hx. by right.
    + destruct (create_and_dispatch_spec self p force (priority_of p) s)
        as (e & He & Hp & Hjob).
      unfold mbind, M_bind. rewrite He.
      destruct (IH {| rows := rows s ++ [e]; now := now s;
                      trace := trace s ++ [dispatched self force (priority_of p) e] |})
        as (new & Hnew & Hprof).
      exists (e :: new). rewrite Hnew. simpl. rewrite <- app_assoc.
      split; [done|]. constructor; [rewrite Hp; by left|].
      eapply Forall_impl; [exact Hprof|]. intros x Hx. by right.
Qed.

(** X8. Whatever its arguments, and whether it returns or raises, [encode]
    only appends to the Encoding table: the rows that were there stay as they
    are and in place, and every new row is a pending row of this media that
    is not a chunk, has no file, and belongs to one of the given profiles. *)
Theorem encode_only_appends (active_profiles : list EncodeProfile.t)
    (self : Media.t) (profiles : option (list EncodeProfile.t))
    (force chunkize : bool) (s : store) :
  ∃ new,
    rows (encode active_profiles self profiles force chunkize s).2
    = rows s ++ new
    ∧ Forall (whole_file_job self) new
    ∧ Forall (λ e, Encoding.profile e ∈ default active_profiles profiles) new.
Proof.
  unfold encode.
  destruct (bool_decide (Media.duration self > CHUNKIZE_VIDEO_DURATION) && chunkize).
  - destruct (encode_gifs_effects self force (default active_profiles profiles)
                (default active_profiles profiles) s)
      as (new & Hnew & Hall & Hprof).
    exists new. split; [|done].
    unfold mbind, M_bind, emit, mret, M_ret.
    destruct (encode_gifs self force _ _ s) as [[e|remaining] s'];
      simpl in *; by subst.
  - destruct (encode_whole_effects self force (default active_profiles profiles) s)
      as (new & Hnew & Hall).
    destruct (encode_whole_profiles self force (default active_profiles profiles) s)
      as (new' & Hnew' & Hprof).
    assert (new' = new) as ->.
    { rewrite Hnew in Hnew'. simpl in Hnew'. by apply app_inv_head in Hnew'. }
    exists new. split; [|done].
    unfold mbind, M_bind, mret, M_ret.
    destruct (encode_whole self force _ s) as [[e|[]] s']; simpl in *; by subst.
Qed.

(** X9. In the chunked branch the chunking request is made even when nothing is
    left to chunk: for a list of gif profiles only (the empty list
    included) [encode] appends one row per profile, in order, queues the
    [encode_media] task of each row with priority 0, and then calls
    [chunkize_media] with no profile ids. *)
Theorem encode_chunking_request_without_profiles
    (active_profiles : list EncodeProfile.t) (self : Media.t)
    (profiles : option (list EncodeProfile.t)) (force : bool) (s : store) :
  Media.duration self > CHUNKIZE_VIDEO_DURATION
  → Forall (λ p, EncodeProfile.extension p = "gif")
      (default active_profiles profiles)
  → ∃ new,
      encode active_profiles self profiles force true s
      = (inr true,
         {| rows := rows s ++ new; now := now s;
            trace := trace s
                     ++ (dispatched self force 0 <$> new)
                     ++ [ChunkizeMediaTask (Media.friendly_token self) []
                           force] |})
      ∧ Encoding.profile <$> new = default active_profiles profiles
      ∧ Forall (whole_file_job self) new.
Proof.
  intros Hgt Hgif. unfold encode.
  rewrite bool_decide_eq_true_2 by done. cbn [andb].
  destruct (encode_gifs_spec self force (default active_profiles profiles) [] s)
    as (new & Hnew & Hprof & Hall).
  { intros p q Hp Hq _. rewrite Forall_forall in Hgif.
    rewrite (Hgif p), (Hgif q); done. }
  { set_solver. }
  simpl in Hnew. unfold mbind, M_bind. rewrite Hnew. unfold emit. cbn.
  assert (filter (λ p, EncodeProfile.extension p ≠ "gif")
            (default active_profiles profiles) = []) as ->.
  { clear -Hgif. induction Hgif as [|p l Hp _ IH]; [done|].
    by rewrite filter_cons_False by naive_solver. }
  assert (filter (λ p, EncodeProfile.extension p = "gif")
            (default active_profiles profiles)
          = default active_profiles profiles) as Hall_gif.
  { apply filter_all. by apply Forall_forall. }
  exists new. split; [by rewrite <- app_assoc|].
  split; [by rewrite Hprof, Hall_gif|done].
Qed.

(** X10. A higher source never loses a profile: a profile selected for a known
    (non-zero) height is selected for every greater height; and a profile
    whose resolution is in [MINIMUM_RESOLUTIONS_TO_ENCODE] is selected
    whatever the height. *)
Theorem selected_monotone (self : Media.t) (p : EncodeProfile.t) (h h' : Z) :
  (h ≠ 0 → h ≤ h'
   → selected (Media.with_video_height h self) p = true
   → selected (Media.with_video_height h' self) p = true)
  ∧ (∀ r, EncodeProfile.resolution p = Some r
          → r ∈ MINIMUM_RESOLUTIONS_TO_ENCODE
          → selected (Media.with_video_height h self) p = true).
Proof.
  unfold selected, skipped, Py.lt, Py.contains. simpl. split.
  - intros Hh Hle.
    destruct (EncodeProfile.resolution p) as [r|];
      repeat case_bool_decide; simpl; try done; lia.
  - intros r -> Hr.
    repeat case_bool_decide; simpl; done.
Qed.

End EncodeMore.

Section EncodeMoreExamples.
#[local] Existing Instance Demo.settings.
#[local] Existing Instance Demo.helpers.

Lemma encode_chunking_request_without_profiles_witness :
  ∃ new : list Encoding.t,
    trace (encode [] (Demo.video 500 720) (Some [Demo.preview]) true true
             (Demo.table_of [])).2
    = ((dispatched (Demo.video 500 720) true 0 <$> new)
       ++ [ChunkizeMediaTask "tok" [] true])%list
    ∧ Encoding.profile <$> new = [Demo.preview].
Proof.
  assert (Media.duration (Demo.video 500 720) > CHUNKIZE_VIDEO_DURATION) as Hgt.
  { reflexivity. }
  assert (Forall (λ p, EncodeProfile.extension p = "gif")
            (default [] (Some [Demo.preview]))) as Hgif.
  { repeat constructor. }
  destruct (encode_chunking_request_without_profiles [] (Demo.video 500 720)
              (Some [Demo.preview]) true (Demo.table_of []) Hgt Hgif)
    as (new & Hrun & Hprof & _).
  exists new. rewrite Hrun. split; [reflexivity|exact Hprof].
Defined.

Lemma selected_monotone_witness :
  selected (Media.with_video_height 1080 (Demo.video 100 720)) Demo.mp4_720
  = true.
Proof.
  apply (proj1 (selected_monotone (Demo.video 100 720) Demo.mp4_720 720 1080)).
  - discriminate.
  - vm_compute. discriminate.
  - reflexivity.
Defined.

End EncodeMoreExamples.

(** ** More on the probe *)

Section ProbeMore.
Context `{Settings} `{Helpers}.
Local Open Scope list_scope.

Lemma guessed_type_media_file (self : Media.t) :
  ∃ self1,
    Media.media_type self1 = guessed_type self
    ∧ Media.media_file self1 = Media.media_file self
    ∧ Media.encoding_status self1 = Media.encoding_status self
    ∧ Media.duration self1 = Media.duration self
    ∧ Media.video_height self1 = Media.video_height self
    ∧ Media.state self1 = Media.state self
    ∧ Media.id self1 = Media.id self
    ∧ set_media_type self
      = (if bool_decide (Media.media_type self1 ∈ ["image"; "pdf"]) then
           inr (Media.with_encoding_status "success" self1)
         else
           let ret := media_file_info (Media.media_file self1) in
           let failed m :=
             Media.with_encoding_status "fail" (Media.with_media_type "" m) in
           let self2 :=
             if FileInfo.fail ret then failed self1
             else if FileInfo.is_video ret || FileInfo.is_audio ret then
               Media.with_info (FileInfo.dumps ret) (FileInfo.file_size ret)
                 (FileInfo.md5sum ret) self1
             else failed self1 in
           if FileInfo.is_video ret then
             match FileInfo.video_height ret with
             | Some h =>
                 inr (Media.with_video_height h
                        (Media.with_duration
                           (Py.round (default 0%Q (FileInfo.video_duration ret)))
                           (Media.with_media_type "video" self2)))
             | None => inl Py.TypeError
             end
           else if FileInfo.is_audio ret then
             inr (Media.with_encoding_status "success"
                    (Media.with_duration
                       (Py.int (default 0%Q (FileInfo.audio_duration ret)))
                       (Media.with_media_type "audio" self2)))
           else inr self2).
Proof.
  unfold set_media_type, guessed_type.
  destruct (get_file_type (Media.media_file self)) as [k|];
    [|by exists self].
  exists (if bool_decide (k = "image") then Media.with_media_type "image" self
          else if bool_decide (k = "pdf") then Media.with_media_type "pdf" self
          else if bool_decide (k = "audio")
               then Media.with_media_type "audio" self
               else Media.with_media_type "video" self).
  repeat split; try reflexivity; repeat case_bool_decide; done.
Qed.

(** X11. What the probe decides once the file is neither an image nor a pdf.
    If ffprobe calls it a video, the media is a video with the reported
    height, and the call raises [TypeError] when no height is reported; its
    status is fail when the fail marker is set and is not touched otherwise.
    If ffprobe calls it audio only, the media is audio with status success,
    fail marker or not. In every other case the media type is emptied, the
    status is fail, and duration and height stay as they were. *)
Theorem set_media_type_classifies (self : Media.t) :
  guessed_type self ∉ ["image"; "pdf"]
  → (FileInfo.is_video (media_file_info (Media.media_file self)) = true
     → (FileInfo.video_height (media_file_info (Media.media_file self)) = None
        → set_media_type self = inl Py.TypeError)
       ∧ (∀ h, FileInfo.video_height (media_file_info (Media.media_file self))
               = Some h
               → ∃ m, set_media_type self = inr m
                      ∧ Media.media_type m = "video"
                      ∧ Media.video_height m = h
                      ∧ Media.encoding_status m
                        = (if FileInfo.fail
                                (media_file_info (Media.media_file self))
                           then "fail" else Media.encoding_status self)))
    ∧ (FileInfo.is_video (media_file_info (Media.media_file self)) = false
       → FileInfo.is_audio (media_file_info (Media.media_file self)) = true
       → ∃ m, set_media_type self = inr m
              ∧ Media.media_type m = "audio"
              ∧ Media.encoding_status m = "success"
              ∧ Media.video_height m = Media.video_height self)
    ∧ (FileInfo.is_video (media_file_info (Media.media_file self)) = false
       → FileInfo.is_audio (media_file_info (Media.media_file self)) = false
       → ∃ m, set_media_type self = inr m
              ∧ Media.media_type m = ""
              ∧ Media.encoding_status m = "fail"
              ∧ Media.duration m = Media.duration self
              ∧ Media.video_height m = Media.video_height self).
Proof.
  intros Hguess.
  destruct (guessed_type_media_file self)
    as (self1 & Hty & Hf & Hst & Hd & Hh & _ & _ & ->).
  rewrite Hty, Hf. rewrite bool_decide_eq_false_2 by done. cbn zeta.
  set (ret := media_file_info (Media.media_file self)).
  split; [|split].
  - intros ->. split.
    + by intros ->.
    + intros h ->. eexists. split; [reflexivity|]. simpl.
      destruct (FileInfo.fail ret); simpl; by rewrite ?Hst.
  - intros -> ->. eexists. split; [reflexivity|]. simpl.
    destruct (FileInfo.fail ret); simpl; by rewrite ?Hh.
  - intros -> ->. eexists. split; [reflexivity|]. simpl.
    destruct (FileInfo.fail ret); simpl; by rewrite ?Hd, ?Hh.
Qed.

(** X12. [media_init] after a probe that returns a media [m]. When the type is
    not allowed the file is removed, a public media becomes unlisted (other
    states are kept) and [False] is returned. When it is allowed and is not a
    video, [True] is returned and the only effect is the thumbnail of an
    image. In both cases no row is written and no task is queued. When the
    probe raises, [media_init] raises the same exception and does nothing. *)
Theorem media_init_without_encoding (active_profiles : list EncodeProfile.t)
    (self : Media.t) (s : store) :
  (∀ e, set_media_type self = inl e
        → media_init active_profiles self s = (inl e, s))
  ∧ (∀ m, set_media_type self = inr m
          → (is_media_allowed_type m = false
             → media_init active_profiles self s
               = (inr (false,
                       if bool_decide (Media.state m = "public")
                       then Media.with_state "unlisted" m else m),
                  {| rows := rows s; now := now s;
                     trace := trace s ++ [RmFile (Media.media_file m)] |}))
            ∧ (is_media_allowed_type m = true
               → Media.media_type m ≠ "video"
               → media_init active_profiles self s
                 = (inr (true, m),
                    {| rows := rows s; now := now s;
                       trace := trace s
                                ++ (if bool_decide (Media.media_type m = "image")
                                    then [SetThumbnail (Media.id m)]
                                    else []) |}))).
Proof.
  split.
  - intros e He. unfold media_init, mbind, M_bind, lift. by rewrite He.
  - intros m Hm. unfold media_init, mbind, M_bind, lift. rewrite Hm. split.
    + intros ->. simpl. reflexivity.
    + intros -> Hv. simpl. rewrite bool_decide_eq_false_2 by done.
      case_bool_decide; unfold emit, mret, M_ret; simpl; [done|].
      rewrite app_nil_r. by destruct s.
Qed.

End ProbeMore.

Section ProbeMoreExamples.
#[local] Existing Instance Demo.settings.
#[local] Existing Instance Demo.helpers.

Lemma set_media_type_classifies_witness :
  ∃ m, set_media_type Demo.audio = inr m
       ∧ Media.media_type m = "audio"
       ∧ Media.encoding_status m = "success".
Proof.
  destruct (set_media_type_classifies Demo.audio) as (_ & Haudio & _).
  - vm_compute. intros Hin. apply list_elem_of_In in Hin. simpl in Hin.
    destruct Hin as [Hin|[Hin|[]]]; discriminate Hin.
  - destruct (Haudio eq_refl eq_refl) as (m & Hm & Hty & Hst & _).
    exists m. split; [exact Hm|]. split; [exact Hty|exact Hst].
Defined.

(** The demo probe allows every type: an audio file is initialised without
    any effect. *)
Lemma media_init_without_encoding_witness :
  ∃ m, media_init [Demo.mp4_720] Demo.audio (Demo.table_of [])
       = (inr (true, m), Demo.table_of []).
Proof.
  assert (∃ m, set_media_type Demo.audio = inr m
               ∧ Media.media_type m = "audio") as (m & Hm & Hty).
  { eexists. split; [vm_compute; reflexivity|reflexivity]. }
  exists m.
  destruct (media_init_without_encoding [Demo.mp4_720] Demo.audio
              (Demo.table_of [])) as [_ Hret].
  destruct (Hret m Hm) as [_ Hallowed].
  rewrite Hallowed.
  - rewrite Hty. reflexivity.
  - reflexivity.
  - rewrite Hty. discriminate.
Defined.

End ProbeMoreExamples.

(** ** The language migration *)

Module AddApacLanguagesFacts.
Import AddApacLanguages.
Local Open Scope list_scope.

Lemma count_app (c : string) (t1 t2 : list Language.t) :
  count c (t1 ++ t2) = (count c t1 + count c t2)%nat.
Proof. unfold count. by rewrite filter_app, length_app. Qed.

Lemma get_or_create_spec (c ti : string) (table : list Language.t) :
  match get_or_create c ti table with
  | inl _ => (2 ≤ count c table)%nat
  | inr table' =>
      (count c table ≤ 1)%nat
      ∧ count c table' = 1%nat
      ∧ (∀ c', c' ≠ c → count c' table' = count c' table)
      ∧ ∃ new, table' = table ++ new
               ∧ Forall (λ r, Language.code r = c ∧ Language.title r = ti) new
               ∧ (count c table = 1%nat → new = [])
  end.
Proof.
  unfold get_or_create, count.
  destruct (filter (λ r, Language.code r = c) table) as [|x [|y l]] eqn:Hf.
  - split; [simpl; lia|]. split; [|split].
    + rewrite filter_app, Hf. by rewrite filter_cons_True.
    + intros c' Hc'. rewrite filter_app, filter_cons_False by naive_solver.
      by rewrite filter_nil, app_nil_r.
    + eexists. split; [done|]. split; [by repeat constructor|]. done.
  - split; [simpl; lia|]. split; [by rewrite Hf|]. split; [done|].
    exists []. by rewrite app_nil_r.
  - simpl. lia.
Qed.

Lemma for_languages_spec (langs : list (string * string))
    (table : list Language.t) :
  match for_languages langs table with
  | inl _ => ∃ c, c ∈ langs.*1 ∧ (2 ≤ count c table)%nat
  | inr table' =>
      (∀ c, c ∈ langs.*1 → (count c table ≤ 1)%nat ∧ count c table' = 1%nat)
      ∧ (∀ c, c ∉ langs.*1 → count c table' = count c table)
      ∧ ∃ new, table' = table ++ new
               ∧ Forall (λ r, (Language.code r, Language.title r) ∈ langs) new
               ∧ ((∀ c, c ∈ langs.*1 → count c table = 1%nat) → new = [])
  end.
Proof.
  revert table. induction langs as [|[c ti] rest IH]; intros table.
  - simpl. split; [set_solver|]. split; [done|].
    exists []. by rewrite app_nil_r.
  - simpl. pose proof (get_or_create_spec c ti table) as Hstep.
    destruct (get_or_create c ti table) as [e|table1].
    { exists c. split; [by left|done]. }
    destruct Hstep as (Hle & Hone & Hother & new1 & -> & Hnew1 & Hnil1).
    specialize (IH (table ++ new1)).
    destruct (for_languages rest (table ++ new1)) as [e|table2].
    + destruct IH as (c' & Hc' & Hcount). exists c'. split; [by right|].
      destruct (decide (c' = c)) as [->|Hne]; [lia|].
      by rewrite <- (Hother c' Hne).
    + destruct IH as (Hin & Hout & new2 & -> & Hnew2 & Hnil2).
      split; [|split].
      * intros c' Hc'. destruct (decide (c' = c)) as [->|Hne].
        -- split; [done|].
           destruct (decide (c ∈ rest.*1)) as [Hr|Hr]; [by apply Hin|].
           by rewrite (Hout c Hr).
        -- apply elem_of_cons in Hc' as [?|Hc']; [done|].
           destruct (Hin c' Hc') as [Hle' Hone']. split; [|done].
           by rewrite <- (Hother c' Hne).
      * intros c' Hc'. apply not_elem_of_cons in Hc' as [Hne Hc'].
        rewrite (Hout c' Hc'). by apply Hother.
      * exists (new1 ++ new2). split; [by rewrite app_assoc|]. split.
        -- apply Forall_app. split.
           ++ eapply Forall_impl; [exact Hnew1|]. intros r [<- <-]. by left.
           ++ eapply Forall_impl; [exact Hnew2|]. intros r Hr. by right.
        -- intros Hall. rewrite Hnil1 by (apply Hall; by left).
           rewrite Hnil1 in Hnil2 by (apply Hall; by left).
           rewrite app_nil_r in Hnil2. rewrite Hnil2; [done|].
           intros c' Hc'. apply Hall. by right.
Qed.

Lemma codes_of_languages : codes = languages.*1.
Proof. reflexivity. Qed.

(** X13. The forward migration succeeds exactly when no listed code is carried by
    two rows already. It then keeps every row that was there, in place and
    unchanged (an existing title is not overwritten), appends rows whose code
    and title are entries of the list, and ends with exactly one row for each
    listed code. *)
Theorem load_apac_languages_result (table : list Language.t) :
  ((∃ table', load_apac_languages table = inr table')
   ↔ ∀ c, c ∈ codes → (count c table ≤ 1)%nat)
  ∧ (∀ table', load_apac_languages table = inr table'
       → (∃ new, table' = table ++ new
                 ∧ Forall (λ r, (Language.code r, Language.title r) ∈ languages)
                     new)
         ∧ (∀ c, c ∈ codes → count c table' = 1%nat)
         ∧ (∀ c, c ∉ codes → count c table' = count c table)).
Proof.
  unfold load_apac_languages. rewrite codes_of_languages.
  pose proof (for_languages_spec languages table) as Hspec.
  destruct (for_languages languages table) as [e|table1].
  - destruct Hspec as (c & Hc & Hcount). split.
    + split; [by intros [? ?]|]. intros Hall. specialize (Hall c Hc). lia.
    + by intros table' ?.
  - destruct Hspec as (Hin & Hout & new & -> & Hnew & _). split.
    + split; [|by eauto]. intros _ c Hc. by apply Hin.
    + intros table' [= <-]. split; [by eauto|]. split; [|done].
      intros c Hc. by apply Hin.
Qed.

(** X14. Running the forward migration a second time changes nothing. *)
Theorem load_apac_languages_idempotent (table table' : list Language.t) :
  load_apac_languages table = inr table'
  → load_apac_languages table' = inr table'.
Proof.
  unfold load_apac_languages. intros Hload.
  pose proof (for_languages_spec languages table) as Hspec.
  rewrite Hload in Hspec. destruct Hspec as (Hin & _).
  pose proof (for_languages_spec languages table') as Hspec'.
  destruct (for_languages languages table') as [e|table2].
  - destruct Hspec' as (c & Hc & Hcount). destruct (Hin c Hc) as [_ Hone]. lia.
  - destruct Hspec' as (_ & _ & new & -> & _ & Hnil).
    rewrite Hnil; [by rewrite app_nil_r|].
    intros c Hc. by apply Hin.
Qed.

(** X15. The backward migration deletes every row with a listed code, whether the
    forward migration created it or found it: after forward and backward the
    table holds the rows it had before with an unlisted code, and it is the
    table it was exactly when none of its rows had a listed code. Forward
    after backward always succeeds. *)
Theorem reverse_load_apac_languages_round_trip (table : list Language.t) :
  (∀ table', load_apac_languages table = inr table'
     → reverse_load_apac_languages table' = reverse_load_apac_languages table)
  ∧ (reverse_load_apac_languages table = table
     ↔ ∀ r, r ∈ table → Language.code r ∉ codes)
  ∧ (∃ table', load_apac_languages (reverse_load_apac_languages table)
               = inr table').
Proof.
  split; [|split].
  - intros table' Hload. unfold load_apac_languages in Hload.
    pose proof (for_languages_spec languages table) as Hspec.
    rewrite Hload in Hspec. destruct Hspec as (_ & _ & new & -> & Hnew & _).
    unfold reverse_load_apac_languages. rewrite filter_app.
    assert (filter (λ r, Language.code r ∉ codes) new = []) as ->;
      [|by rewrite app_nil_r].
    clear -Hnew. induction Hnew as [|r l Hr _ IH]; [done|].
    rewrite filter_cons_False; [done|]. intros Hnot. apply Hnot.
    rewrite codes_of_languages. apply list_elem_of_fmap.
    by exists (Language.code r, Language.title r).
  - unfold reverse_load_apac_languages. split.
    + intros Heq r Hr. rewrite <- Heq in Hr.
      by apply list_elem_of_filter in Hr as [? _].
    + intros Hall. clear -Hall. induction table as [|r l IH]; [done|].
      rewrite filter_cons_True by (apply Hall; by left).
      f_equal. apply IH. intros x Hx. apply Hall. by right.
  - unfold load_apac_languages.
    pose proof (for_languages_spec languages
                  (reverse_load_apac_languages table)) as Hspec.
    destruct (for_languages languages (reverse_load_apac_languages table))
      as [e|table']; [|by eauto].
    exfalso. destruct Hspec as (c & Hc & Hcount).
    rewrite <- codes_of_languages in Hc.
    revert Hcount. unfold count, reverse_load_apac_languages.
    assert (filter (λ r, Language.code r = c)
              (filter (λ r, Language.code r ∉ codes) table) = []) as ->;
      [|simpl; lia].
    clear -Hc. induction table as [|r l IH]; [done|].
    rewrite (filter_cons (λ r, Language.code r ∉ codes)).
    case_decide; [|done].
    rewrite filter_cons_False; [done|]. by intros <-.
Qed.

(** A table that already has English under another title and one unlisted
    language: forward keeps both rows and adds the 26 others; backward then
    removes English too. *)
Lemma load_apac_languages_result_witness :
  ∃ table',
    load_apac_languages
      [Language.mk 1 "en" "Inggris"; Language.mk 2 "el" "Greek"] = inr table'
    ∧ count "en" table' = 1%nat ∧ count "el" table' = 1%nat.
Proof.
  destruct (load_apac_languages_result
              [Language.mk 1 "en" "Inggris"; Language.mk 2 "el" "Greek"])
    as [Hok Hres].
  destruct (proj2 Hok) as [table' Hload].
  { intros c Hc. apply list_elem_of_In in Hc.
    repeat (destruct Hc as [<-|Hc]; [vm_compute; lia|]). destruct Hc. }
  exists table'. split; [exact Hload|].
  destruct (Hres table' Hload) as (_ & Hin & Hout). split.
  - apply Hin. by left.
  - rewrite Hout; [reflexivity|].
    intros Hc. apply list_elem_of_In in Hc.
    repeat (destruct Hc as [Hc|Hc]; [discriminate Hc|]). destruct Hc.
Defined.

Lemma load_apac_languages_idempotent_witness :
  ∃ table', load_apac_languages [] = inr table'
            ∧ load_apac_languages table' = inr table'.
Proof.
  destruct (load_apac_languages []) as [e|table'] eqn:Hload.
  - vm_compute in Hload. discriminate Hload.
  - exists table'. split; [reflexivity|].
    exact (load_apac_languages_idempotent [] table' Hload).
Defined.

Lemma reverse_load_apac_languages_round_trip_witness :
  ∃ table',
    load_apac_languages
      [Language.mk 1 "en" "Inggris"; Language.mk 2 "el" "Greek"] = inr table'
    ∧ reverse_load_apac_languages table' = [Language.mk 2 "el" "Greek"].
Proof.
  destruct (load_apac_languages
              [Language.mk 1 "en" "Inggris"; Language.mk 2 "el" "Greek"])
    as [e|table'] eqn:Hload.
  - vm_compute in Hload. discriminate Hload.
  - exists table'. split; [reflexivity|].
    rewrite (proj1 (reverse_load_apac_languages_round_trip
                      [Language.mk 1 "en" "Inggris"; Language.mk 2 "el" "Greek"])
               table' Hload).
    vm_compute. reflexivity.
Defined.
End AddApacLanguagesFacts.

(** ** Playlist ordering *)

Module PlaylistFacts.
Local Open Scope list_scope.

Lemma first_spec (l : list PlaylistMedia.t) :
  match PlaylistMedia.first l with
  | None => l = []
  | Some pm => pm ∈ l ∧ ∀ r, r ∈ l → ¬ PlaylistMedia.before r pm
  end.
Proof.
  induction l as [|x l IH]; simpl; [done|].
  destruct (PlaylistMedia.first l) as [y|].
  - destruct IH as [Hy Hmin]. case_decide as Hb.
    + split; [by right|]. intros r Hr.
      apply elem_of_cons in Hr as [->|Hr]; [|by apply Hmin].
      unfold PlaylistMedia.before in *. lia.
    + split; [by left|]. intros r Hr.
      apply elem_of_cons in Hr as [->|Hr].
      * unfold PlaylistMedia.before. lia.
      * specialize (Hmin r Hr). unfold PlaylistMedia.before in *. lia.
  - subst l. split; [by left|]. intros r Hr.
    apply list_elem_of_singleton in Hr as ->.
    unfold PlaylistMedia.before. lia.
Qed.

(** X16. [set_ordering] returns [True] exactly when the media is in the playlist
    and the ordering is an [int] above 0. It then rewrites the row of that
    media that comes first in the playlist's order (every row with that key),
    giving it the new ordering and the current time; when it returns [False]
    the table is untouched. Either way no row is added, removed or moved, and
    no row changes its media or its playlist. *)
Theorem set_ordering_spec (self media : Z) (ordering : Py.value) (now : Z)
    (table : list PlaylistMedia.t) :
  ((Playlist.set_ordering self media ordering now table).1 = true
   ↔ (∃ pm, pm ∈ table ∧ Playlist.links self media pm)
     ∧ ∃ z, Py.as_int ordering = Some z ∧ 0 < z)
  ∧ ((Playlist.set_ordering self media ordering now table).1 = false
     → (Playlist.set_ordering self media ordering now table).2 = table)
  ∧ ((Playlist.set_ordering self media ordering now table).1 = true
     → ∃ pm z,
         pm ∈ table ∧ Playlist.links self media pm
         ∧ (∀ r, r ∈ table → Playlist.links self media r
                 → ¬ PlaylistMedia.before r pm)
         ∧ Py.as_int ordering = Some z
         ∧ (Playlist.set_ordering self media ordering now table).2
           = (λ r, if bool_decide (PlaylistMedia.id r = PlaylistMedia.id pm)
                   then PlaylistMedia.reordered z now r else r) <$> table)
  ∧ (λ r, (PlaylistMedia.id r, PlaylistMedia.playlist r, PlaylistMedia.media r))
      <$> (Playlist.set_ordering self media ordering now table).2
    = (λ r, (PlaylistMedia.id r, PlaylistMedia.playlist r, PlaylistMedia.media r))
        <$> table.
Proof.
  unfold Playlist.set_ordering.
  pose proof (first_spec (filter (Playlist.links self media) table)) as Hfirst.
  case_bool_decide as Hnil.
  { simpl. split; [|split; [done|split; [done|done]]].
    split; [done|]. intros [(pm & Hpm & Hl) _].
    assert (pm ∈ filter (Playlist.links self media) table) as Hin
      by by apply list_elem_of_filter.
    rewrite Hnil in Hin. by apply elem_of_nil in Hin. }
  destruct (PlaylistMedia.first (filter (Playlist.links self media) table))
    as [pm|]; [|done].
  destruct Hfirst as [Hpm Hmin].
  apply list_elem_of_filter in Hpm as [Hlinks Hpm].
  unfold Py.isinstance_int.
  destruct (Py.as_int ordering) as [z|] eqn:Hint; simpl.
  - case_bool_decide as Hpos; simpl.
    + split; [|split; [done|split]].
      * split; [|done]. intros _. split; [by eauto|]. exists z. split; [done|lia].
      * intros _. exists pm, z. split; [done|]. split; [done|].
        split; [|done]. intros r Hr Hl. apply Hmin. by apply list_elem_of_filter.
      * rewrite <- list_fmap_compose. apply list_fmap_ext.
        intros i r _. simpl. by case_bool_decide.
    + split; [|done]. split; [done|].
      intros [_ (z' & [= <-] & ?)]. lia.
  - split; [|done]. split; [done|]. by intros [_ (z' & ? & _)].
Qed.

(** Media 7 is twice in playlist 1; the row with the lower ordering is the
    one that moves. *)
Lemma set_ordering_spec_witness :
  Playlist.set_ordering 1 7 (Py.VInt 5) 1000
    [PlaylistMedia.mk 1 7 1 3 10; PlaylistMedia.mk 2 8 1 1 10;
     PlaylistMedia.mk 3 7 1 2 10]
  = (true,
     [PlaylistMedia.mk 1 7 1 3 10; PlaylistMedia.mk 2 8 1 1 10;
      PlaylistMedia.mk 3 7 1 5 1000]).
Proof.
  pose proof (set_ordering_spec 1 7 (Py.VInt 5) 1000
                [PlaylistMedia.mk 1 7 1 3 10; PlaylistMedia.mk 2 8 1 1 10;
                 PlaylistMedia.mk 3 7 1 2 10]) as (Htrue & _ & _).
  destruct (Playlist.set_ordering 1 7 (Py.VInt 5) 1000 _) as [b table'] eqn:Hrun.
  assert (b = true) as ->.
  { apply (proj2 Htrue). split.
    - exists (PlaylistMedia.mk 1 7 1 3 10). split; [by left|]. split; reflexivity.
    - exists 5. split; [reflexivity|lia]. }
  vm_compute in Hrun. injection Hrun as <-. reflexivity.
Defined.

End PlaylistFacts.

(** ** Whisper requests *)

(** X17. A whisper task is queued exactly when its flag is set and no request of
    its kind exists for the media; each kind is queued at most once, plain
    transcription first. *)
Theorem transcribe_function_spec (self : Media.t)
    (allow_whisper_transcribe allow_whisper_transcribe_and_translate : bool)
    (requests : list TranscriptionRequest.t) :
  (∀ token translate,
     WhisperTranscribe token translate
       ∈ transcribe_function self allow_whisper_transcribe
           allow_whisper_transcribe_and_translate requests
     ↔ token = Media.friendly_token self
       ∧ (if translate then allow_whisper_transcribe_and_translate
          else allow_whisper_transcribe) = true
       ∧ ¬ ∃ r, r ∈ requests
                ∧ TranscriptionRequest.media r = Media.id self
                ∧ TranscriptionRequest.translate_to_english r = translate)
  ∧ NoDup (transcribe_function self allow_whisper_transcribe
             allow_whisper_transcribe_and_translate requests)
  ∧ transcribe_function self allow_whisper_transcribe
      allow_whisper_transcribe_and_translate requests
    `sublist_of` [WhisperTranscribe (Media.friendly_token self) false;
                  WhisperTranscribe (Media.friendly_token self) true].
Proof.
  assert (∀ b, requested self b requests = true
               ↔ ∃ r, r ∈ requests
                      ∧ TranscriptionRequest.media r = Media.id self
                      ∧ TranscriptionRequest.translate_to_english r = b) as Hreq.
  { intros b. unfold requested. rewrite bool_decide_eq_true. split.
    - intros Hne.
      destruct (filter _ requests) as [|r l] eqn:Hf; [done|].
      assert (r ∈ filter (λ r, TranscriptionRequest.media r = Media.id self
                ∧ TranscriptionRequest.translate_to_english r = b) requests)
        as Hr by (rewrite Hf; by left).
      apply list_elem_of_filter in Hr. naive_solver.
    - intros (r & Hr & Hm & Ht) Hnil.
      assert (r ∈ filter (λ r, TranscriptionRequest.media r = Media.id self
                ∧ TranscriptionRequest.translate_to_english r = b) requests)
        as Hin by by apply list_elem_of_filter.
      rewrite Hnil in Hin. by apply elem_of_nil in Hin. }
  unfold transcribe_function.
  pose proof (Hreq true) as Ht. pose proof (Hreq false) as Hf.
  destruct (requested self true requests), (requested self false requests),
    allow_whisper_transcribe, allow_whisper_transcribe_and_translate; simpl;
    (split; [|split]);
    try (intros token [|]; rewrite ?elem_of_cons, ?elem_of_nil; naive_solver);
    try (repeat constructor; set_solver);
    try (by repeat constructor).
Qed.

(** ** Comments *)

Lemma slice_to_length (k : Z) (s : unicode) :
  0 ≤ k → Z.of_nat (length (slice_to k s)) ≤ k.
Proof.
  intros Hk. unfold slice_to. rewrite bool_decide_eq_false_2 by lia.
  rewrite length_take. lia.
Qed.

Lemma slice_to_prefix (k : Z) (s : unicode) :
  ∃ rest, s = (slice_to k s ++ rest)%list.
Proof.
  unfold slice_to. eexists. symmetry. apply take_drop.
Qed.

Section CommentFacts.
Context `{CommentSettings}.
Local Open Scope list_scope.

Lemma Comment_id_le_max (r : Comment.t) (table : list Comment.t) :
  r ∈ table → Comment.id r ≤ foldr Z.max 0 (Comment.id <$> table).
Proof.
  induction table as [|x l IH]; intros Hr; [by apply elem_of_nil in Hr|].
  rewrite fmap_cons. cbn [foldr].
  apply elem_of_cons in Hr as [->|Hr]; [lia|]. specialize (IH Hr). lia.
Qed.

Lemma Comment_filter_fresh (i : Z) (table : list Comment.t) :
  (∀ r, r ∈ table → Comment.id r < i)
  → filter (λ r, Comment.id r ≠ i) table = table.
Proof.
  induction table as [|x l IH]; intros Hfresh; [done|].
  rewrite filter_cons_True.
  - f_equal. apply IH. intros r Hr. apply Hfresh. by right.
  - assert (x ∈ x :: l) as Hx by left. specialize (Hfresh x Hx). lia.
Qed.

Lemma Comment_save_fields (self : Comment.t) (media_state : string)
    (table : list Comment.t) :
  Comment.text (Comment_save self media_state table).1.1
  = saved_text (Comment.text self)
  ∧ Comment.uid (Comment_save self media_state table).1.1 = Comment.uid self
  ∧ Comment.media (Comment_save self media_state table).1.1
    = Comment.media self.
Proof. unfold Comment_save. cbn. by case_bool_decide. Qed.

Lemma Comment_save_new (self : Comment.t) (media_state : string)
    (table : list Comment.t) :
  Comment.id self = 0
  → (Comment_save self media_state table).1.2
    = table ++ [(Comment_save self media_state table).1.1]
    ∧ ∀ r, r ∈ table
           → Comment.id r < Comment.id (Comment_save self media_state table).1.1.
Proof.
  intros Hid.
  assert (∀ r, r ∈ table
               → Comment.id r
                 < Comment.id (Comment_save self media_state table).1.1) as Hlt.
  { intros r Hr. unfold Comment_save. cbn.
    rewrite (bool_decide_eq_true_2 _ Hid). cbn.
    pose proof (Comment_id_le_max r table Hr). lia. }
  split; [|done].
  unfold Comment_save in *. cbn in *.
  rewrite (bool_decide_eq_true_2 _ Hid) in *. cbn in *.
  rewrite bool_decide_eq_false_2; [done|].
  intros Hin. apply list_elem_of_fmap in Hin as (r & Heq & Hr).
  specialize (Hlt r Hr). lia.
Qed.

(** X18. The text [Comment.save] stores is a beginning of the text with its tags
    stripped, of at most [MAX_CHARS_FOR_COMMENT] code points when that
    setting is not negative; an empty text is stored as it is. The comment
    keeps its [uid] and its media, and a comment without key is appended to
    the table under a key above all the keys in it. *)
Theorem Comment_save_text (self : Comment.t) (media_state : string)
    (table : list Comment.t) :
  (Comment.text self = []
   → Comment.text (Comment_save self media_state table).1.1 = [])
  ∧ (Comment.text self ≠ []
     → ∃ rest,
         strip_tags (Comment.text self)
         = Comment.text (Comment_save self media_state table).1.1 ++ rest)
  ∧ (0 ≤ MAX_CHARS_FOR_COMMENT
     → Z.of_nat (length
                   (Comment.text (Comment_save self media_state table).1.1))
       ≤ MAX_CHARS_FOR_COMMENT)
  ∧ Comment.uid (Comment_save self media_state table).1.1 = Comment.uid self
  ∧ Comment.media (Comment_save self media_state table).1.1 = Comment.media self
  ∧ (Comment.id self = 0
     → (Comment_save self media_state table).1.2
       = table ++ [(Comment_save self media_state table).1.1]
       ∧ ∀ r, r ∈ table
              → Comment.id r < Comment.id (Comment_save self media_state table).1.1).
Proof.
  destruct (Comment_save_fields self media_state table)
    as (Htext & Huid & Hmedia).
  rewrite Htext. unfold saved_text.
  split; [|split; [|split; [|split; [|split]]]].
  - intros ->. by rewrite !bool_decide_eq_true_2.
  - intros Hne. rewrite (bool_decide_eq_false_2 _ Hne).
    case_bool_decide as Hs.
    + exists []. by rewrite Hs.
    + apply slice_to_prefix.
  - intros Hmax. destruct (decide (Comment.text self = [])) as [He|Hne].
    + rewrite !(bool_decide_eq_true_2 _ He), He. simpl. lia.
    + rewrite (bool_decide_eq_false_2 _ Hne). case_bool_decide as Hs.
      * rewrite Hs. simpl. lia.
      * by apply slice_to_length.
  - done.
  - done.
  - apply Comment_save_new.
Qed.

(** X19. With both workflow settings on, the first comment on a media makes it
    public when it was unlisted, and the deletion of that comment makes the
    media unlisted: also a media that was public before the comment. A media
    in any other state keeps its state through both. *)
Theorem comment_add_then_delete (self : Comment.t) (media_state : string)
    (table : list Comment.t) :
  (UNLISTED_WORKFLOW_MAKE_PUBLIC_UPON_COMMENTARY_ADD = true
   → UNLISTED_WORKFLOW_MAKE_PRIVATE_UPON_COMMENTARY_DELETE = true
   → media_state = "unlisted" ∨ media_state = "public"
   → Comment.id self = 0
   → (∀ r, r ∈ table → Comment.media r ≠ Comment.media self)
   → (Comment_save self media_state table).2 = "public"
     ∧ filter (λ r, Comment.id r
                    ≠ Comment.id (Comment_save self media_state table).1.1)
         (Comment_save self media_state table).1.2
       = table
     ∧ comment_delete (Comment_save self media_state table).1.1
         (Comment_save self media_state table).2 table
       = "unlisted")
  ∧ (media_state ≠ "unlisted" → media_state ≠ "public"
     → (Comment_save self media_state table).2 = media_state
       ∧ ∀ instance table',
           comment_delete instance media_state table' = media_state).
Proof.
  split.
  - intros Hadd Hdel Hstate Hid Hnone.
    destruct (Comment_save_fields self media_state table)
      as (_ & Huid & Hmedia).
    destruct (Comment_save_new self media_state table Hid) as [Htable Hfresh].
    assert ((Comment_save self media_state table).2 = "public") as Hpub.
    { unfold Comment_save. cbn [snd]. rewrite Hadd.
      destruct Hstate as [-> | ->]; reflexivity. }
    split; [done|]. split.
    + rewrite Htable, filter_app, filter_cons_False, filter_nil, app_nil_r
        by naive_solver.
      by apply Comment_filter_fresh.
    + rewrite Hpub. unfold comment_delete.
      rewrite Hdel. rewrite bool_decide_eq_true_2 by done.
      rewrite bool_decide_eq_true_2; [done|].
      rewrite Hmedia, Huid.
      assert (filter (λ r, Comment.media r = Comment.media self
                           ∧ Comment.uid r ≠ Comment.uid self)
                table = []) as ->; [|done].
      clear -Hnone. induction table as [|x l IH]; [done|].
      rewrite filter_cons_False.
      * apply IH. intros r Hr. apply Hnone. by right.
      * intros [Hm _]. by apply (Hnone x); [left|].
  - intros Hu Hp. split.
    + unfold Comment_save. cbn [snd].
      rewrite (bool_decide_eq_false_2 _ Hu). by rewrite andb_false_r.
    + intros instance table'. unfold comment_delete.
      by rewrite (bool_decide_eq_false_2 _ Hp).
Qed.

End CommentFacts.

Section CommentExamples.
#[local] Existing Instance DemoComments.settings.

(** Eleven times U+00E9, which UTF-8 writes in two bytes each, against a
    limit of ten: ten code points are kept. *)
Lemma Comment_save_text_witness :
  Z.of_nat (length
              (Comment.text
                 (Comment_save (Comment.mk 0 41 (replicate 11 233%N) 7)
                    "unlisted" []).1.1)) ≤ 10
  ∧ Comment.text
      (Comment_save (Comment.mk 0 41 (replicate 11 233%N) 7)
         "unlisted" []).1.1
    = replicate 10 233%N.
Proof.
  split; [|reflexivity].
  refine (proj1 (proj2 (proj2 (Comment_save_text
                                 (Comment.mk 0 41 (replicate 11 233%N) 7)
                                 "unlisted" []))) _).
  vm_compute. discriminate.
Defined.

Lemma comment_add_then_delete_witness :
  comment_delete
    (Comment_save (Comment.mk 0 41 [102; 105; 114; 115; 116]%N 7) "public"
       [Comment.mk 1 40 [111; 107]%N 8]).1.1
    (Comment_save (Comment.mk 0 41 [102; 105; 114; 115; 116]%N 7) "public"
       [Comment.mk 1 40 [111; 107]%N 8]).2
    [Comment.mk 1 40 [111; 107]%N 8]
  = "unlisted".
Proof.
  apply (proj1 (comment_add_then_delete (Comment.mk 0 41 [102; 105; 114; 115; 116]%N 7) "public"
                  [Comment.mk 1 40 [111; 107]%N 8])).
  - reflexivity.
  - reflexivity.
  - right. reflexivity.
  - reflexivity.
  - intros r Hr. apply list_elem_of_singleton in Hr. rewrite Hr. discriminate.
Defined.

End CommentExamples.

(** ** Media.encodings_info *)

Lemma list_to_map_const_lookup {V : Type} (v : V) (l : list Z) (r : Z) :
  (list_to_map ((λ key, (key, v)) <$> l) : gmap Z V) !! r
  = if bool_decide (r ∈ l) then Some v else None.
Proof.
  induction l as [|k l IH].
  - rewrite fmap_nil, list_to_map_nil, lookup_empty.
    rewrite bool_decide_eq_false_2; [done|]. apply not_elem_of_nil.
  - rewrite fmap_cons, list_to_map_cons.
    destruct (decide (k = r)) as [->|Hne].
    + rewrite lookup_insert_eq. rewrite bool_decide_eq_true_2; [done|left].
    + rewrite lookup_insert_ne by done. rewrite IH.
      apply (f_equal (λ b : bool, if b then Some v else None)).
      apply bool_decide_ext. rewrite elem_of_cons. naive_solver.
Qed.

Lemma entry_insert (ret : gmap Z (gmap (option string) EncodingInfo.t))
    (r0 : Z) (c0 : option string) (i0 : EncodingInfo.t)
    (d0 : gmap (option string) EncodingInfo.t) (r : Z) (c : option string)
    (i : EncodingInfo.t) :
  ret !! r0 = Some d0
  → entry (<[r0 := <[c0 := i0]> d0]> ret) r c i
    ↔ (r = r0 ∧ c = c0 ∧ i = i0) ∨ ((r ≠ r0 ∨ c ≠ c0) ∧ entry ret r c i).
Proof.
  intros Hd0. unfold entry. split.
  - intros (d & Hd & Hi). destruct (decide (r = r0)) as [->|Hr].
    + rewrite lookup_insert_eq in Hd. injection Hd as <-.
      destruct (decide (c = c0)) as [->|Hc].
      * rewrite lookup_insert_eq in Hi. injection Hi as <-. by left.
      * rewrite lookup_insert_ne in Hi by done. right. eauto.
    + rewrite lookup_insert_ne in Hd by done. right. eauto.
  - intros [(-> & -> & ->) | (Hne & d & Hd & Hi)].
    + exists (<[c0 := i0]> d0). by rewrite !lookup_insert_eq.
    + destruct (decide (r = r0)) as [->|Hr].
      * destruct Hne as [?|Hc]; [done|].
        exists (<[c0 := i0]> d0). rewrite lookup_insert_eq. split; [done|].
        rewrite lookup_insert_ne by done. congruence.
      * exists d. by rewrite lookup_insert_ne.
Qed.

Section EncodingsInfoFacts.
Context `{Settings}.
Variable url_from_path : string → string.
Local Open Scope list_scope.

Lemma encodings_info_loop_ok (l : list Encoding.t) :
  ∀ ret,
    (∀ e, e ∈ l → EncodeProfile.extension (Encoding.profile e) ≠ "gif"
          → ∃ r, EncodeProfile.resolution (Encoding.profile e) = Some r
                 ∧ is_Some (ret !! r))
    → ∃ ret',
        encodings_info_loop url_from_path ret l = inr ret'
        ∧ (∀ r, is_Some (ret' !! r) ↔ is_Some (ret !! r))
        ∧ (∀ r c i,
             entry ret' r c i
             → entry ret r c i
               ∨ ∃ e, e ∈ l
                      ∧ EncodeProfile.extension (Encoding.profile e) ≠ "gif"
                      ∧ EncodeProfile.resolution (Encoding.profile e) = Some r
                      ∧ EncodeProfile.codec (Encoding.profile e) = c
                      ∧ i = get_encoding_info url_from_path e)
        ∧ (∀ r c,
             (∃ i, entry ret r c i)
             ∨ (∃ e, e ∈ l
                     ∧ EncodeProfile.extension (Encoding.profile e) ≠ "gif"
                     ∧ EncodeProfile.resolution (Encoding.profile e) = Some r
                     ∧ EncodeProfile.codec (Encoding.profile e) = c)
             → ∃ i, entry ret' r c i).
Proof.
  induction l as [|e l IH]; intros ret Hkeys.
  { exists ret. split; [done|]. split; [done|]. split; [by left|].
    intros r c [?|(e & He & _)]; [done|]. by apply elem_of_nil in He. }
  cbn [encodings_info_loop]. unfold encodings_info_step.
  case_bool_decide as Hgif.
  { destruct (IH ret) as (ret' & Hloop & Hdom & Hfrom & Hto).
    { intros e' He'. apply Hkeys. by right. }
    exists ret'. split; [done|]. split; [done|]. split.
    - intros r c i Hentry.
      destruct (Hfrom r c i Hentry) as [?|(e' & He' & ?)]; [by left|].
      right. exists e'. split; [by right|done].
    - intros r c [Hold|(e' & He' & Hng & Hres & Hc)]; apply Hto; [by left|].
      apply elem_of_cons in He' as [->|He']; [done|]. right. eauto. }
  destruct (Hkeys e) as (r0 & Hr0 & [d0 Hd0]); [left|done|].
  rewrite Hr0, Hd0.
  set (c0 := EncodeProfile.codec (Encoding.profile e)).
  set (i0 := get_encoding_info url_from_path e).
  destruct (IH (<[r0 := <[c0 := i0]> d0]> ret))
    as (ret' & Hloop & Hdom & Hfrom & Hto).
  { intros e' He' Hng.
    destruct (Hkeys e') as (r & Hr & Hsome); [by right|done|].
    exists r. split; [done|]. rewrite lookup_insert_is_Some.
    destruct (decide (r0 = r)); eauto. }
  exists ret'. split; [done|]. split; [|split].
  - intros r. rewrite Hdom, lookup_insert_is_Some. split.
    + intros [<-|[_ ?]]; [by eexists|done].
    + intros ?. destruct (decide (r0 = r)); eauto.
  - intros r c i Hentry.
    destruct (Hfrom r c i Hentry) as [Hold|(e' & He' & ?)].
    + apply (entry_insert ret r0 c0 i0 d0 r c i Hd0) in Hold
        as [(-> & -> & ->)|[_ Hold]].
      * right. exists e. split; [left|done].
      * by left.
    + right. exists e'. split; [by right|done].
  - intros r c Hsrc. apply Hto.
    destruct (decide (r = r0 ∧ c = c0)) as [[-> ->]|Hne].
    { left. exists i0. apply (entry_insert ret r0 c0 i0 d0 r0 c0 i0 Hd0).
      by left. }
    destruct Hsrc as [[i Hold]|(e' & He' & Hng & Hres & Hc)].
    + left. exists i. apply (entry_insert ret r0 c0 i0 d0 r c i Hd0).
      right. split; [|done].
      destruct (decide (r = r0)); [right|left]; naive_solver.
    + apply elem_of_cons in He' as [->|He'].
      * exfalso. apply Hne. split; [congruence|done].
      * right. eauto.
Qed.

Lemma encodings_info_loop_key_error (l : list Encoding.t) :
  ∀ ret,
    (∀ r, is_Some (ret !! r) ↔ r ∈ ENCODE_RESOLUTIONS_KEYS)
    → (∃ e, e ∈ l
            ∧ EncodeProfile.extension (Encoding.profile e) ≠ "gif"
            ∧ EncodeProfile.resolution (Encoding.profile e)
              ∉ Some <$> ENCODE_RESOLUTIONS_KEYS)
    → ∃ k, encodings_info_loop url_from_path ret l = inl (KeyError k)
           ∧ k ∉ Some <$> ENCODE_RESOLUTIONS_KEYS.
Proof.
  induction l as [|e l IH]; intros ret Hdom (bad & Hbad & Hng & Hres).
  { by apply elem_of_nil in Hbad. }
  cbn [encodings_info_loop]. unfold encodings_info_step.
  case_bool_decide as Hgif.
  { apply IH; [done|]. exists bad.
    apply elem_of_cons in Hbad as [->|Hbad]; done. }
  destruct (EncodeProfile.resolution (Encoding.profile e)) as [r0|] eqn:Hr0.
  2:{ exists None. split; [done|].
      intros Hin. apply list_elem_of_fmap in Hin as (? & ? & _). done. }
  destruct (ret !! r0) as [d0|] eqn:Hd0.
  2:{ exists (Some r0). split; [done|].
      intros Hin. apply list_elem_of_fmap in Hin as (r & [= <-] & Hin).
      apply Hdom in Hin. rewrite Hd0 in Hin. by destruct Hin. }
  apply IH.
  - intros r. rewrite lookup_insert_is_Some, <- Hdom. split.
    + intros [<-|[_ ?]]; [by eexists|done].
    + intros ?. destruct (decide (r0 = r)); eauto.
  - exists bad. apply elem_of_cons in Hbad as [->|Hbad]; [|done].
    exfalso. apply Hres. rewrite Hr0. apply list_elem_of_fmap.
    exists r0. split; [done|]. apply Hdom. by eexists.
Qed.

Lemma reported_filter (self : Media.t) (table : list Encoding.t)
    (e : Encoding.t) :
  reported self table e
  ↔ e ∈ filter (λ e, Encoding.media e = Media.id self
                     ∧ Encoding.chunk e = false) table
    ∧ EncodeProfile.extension (Encoding.profile e) ≠ "gif".
Proof. unfold reported. rewrite list_elem_of_filter. naive_solver. Qed.

(** X20. [Media.encodings_info] of a media that is no video is the empty
    dictionary. For a video whose reported encodings (those that are no
    chunks and produce no gif) all have one of the seven resolutions, it is
    a dictionary with exactly the seven resolutions as keys: each entry
    [ret[resolution][codec]] is the information of a reported encoding with
    that resolution and codec, and every reported encoding has such an
    entry. Chunks and gif previews never appear. *)
Theorem encodings_info_reports (self : Media.t) (table : list Encoding.t) :
  (Media.media_type self ≠ "video"
   → encodings_info url_from_path self table = inr ∅)
  ∧ (Media.media_type self = "video"
     → (∀ e, reported self table e
             → ∃ r, EncodeProfile.resolution (Encoding.profile e) = Some r
                    ∧ r ∈ ENCODE_RESOLUTIONS_KEYS)
     → ∃ ret,
         encodings_info url_from_path self table = inr ret
         ∧ (∀ r, is_Some (ret !! r) ↔ r ∈ ENCODE_RESOLUTIONS_KEYS)
         ∧ (∀ r c i,
              entry ret r c i
              → ∃ e, reported self table e
                     ∧ EncodeProfile.resolution (Encoding.profile e) = Some r
                     ∧ EncodeProfile.codec (Encoding.profile e) = c
                     ∧ i = get_encoding_info url_from_path e)
         ∧ (∀ e r, reported self table e
                   → EncodeProfile.resolution (Encoding.profile e) = Some r
                   → ∃ i, entry ret r
                            (EncodeProfile.codec (Encoding.profile e)) i)).
Proof.
  split.
  { intros Hty. unfold encodings_info. by rewrite bool_decide_eq_true_2. }
  intros Hty Hres. unfold encodings_info.
  rewrite bool_decide_eq_false_2 by (by intros []).
  set (init := list_to_map ((λ key, (key, ∅)) <$> ENCODE_RESOLUTIONS_KEYS)
               : gmap Z (gmap (option string) EncodingInfo.t)).
  assert (∀ r, is_Some (init !! r) ↔ r ∈ ENCODE_RESOLUTIONS_KEYS) as Hinit.
  { intros r. unfold init. rewrite list_to_map_const_lookup.
    case_bool_decide; split; first [done | by intros []]. }
  assert (∀ r c i, ¬ entry init r c i) as Hempty.
  { intros r c i (d & Hd & Hi). unfold init in Hd.
    rewrite list_to_map_const_lookup in Hd. case_bool_decide; [|done].
    injection Hd as <-. by rewrite lookup_empty in Hi. }
  destruct (encodings_info_loop_ok
              (filter (λ e, Encoding.media e = Media.id self
                            ∧ Encoding.chunk e = false) table) init)
    as (ret & Hloop & Hdom & Hfrom & Hto).
  { intros e He Hng.
    destruct (Hres e) as (r & Hr & Hin); [by apply reported_filter|].
    exists r. split; [done|]. by apply Hinit. }
  exists ret. split; [done|]. split; [|split].
  - intros r. by rewrite Hdom.
  - intros r c i Hentry.
    destruct (Hfrom r c i Hentry) as [Hold|(e & He & Hng & ?)].
    + by apply Hempty in Hold.
    + exists e. split; [by apply reported_filter|done].
  - intros e r He Hr. apply Hto. right. exists e.
    apply reported_filter in He as [He Hng]. done.
Qed.

(** X21. For a video, [Media.encodings_info] raises [KeyError] when a reported
    encoding has a profile whose resolution is none of the seven, among
    them a profile without resolution: the key of the error is such a
    resolution. *)
Theorem encodings_info_key_error (self : Media.t) (table : list Encoding.t) :
  Media.media_type self = "video"
  → (∃ e, reported self table e
          ∧ EncodeProfile.resolution (Encoding.profile e)
            ∉ Some <$> ENCODE_RESOLUTIONS_KEYS)
  → ∃ k, encodings_info url_from_path self table = inl (KeyError k)
         ∧ k ∉ Some <$> ENCODE_RESOLUTIONS_KEYS.
Proof.
  intros Hty (e & He & Hres). unfold encodings_info.
  rewrite bool_decide_eq_false_2 by (by intros []).
  apply encodings_info_loop_key_error.
  - intros r. rewrite list_to_map_const_lookup.
    case_bool_decide; split; first [done | by intros []].
  - exists e. apply reported_filter in He as [He Hng]. done.
Qed.

End EncodingsInfoFacts.

Section EncodingsInfoExamples.
#[local] Existing Instance Demo.settings.
Local Open Scope list_scope.

Lemma encodings_info_reports_witness :
  ∃ ret,
    encodings_info DemoEncodingsInfo.url_from_path (Demo.video 100 720)
      [Demo.row 1 Demo.mp4_720 "success" "encoded/a.mp4" false "" "";
       Demo.row 2 Demo.preview "success" "encoded/a.gif" false "" "";
       Demo.done0]
    = inr ret
    ∧ ∀ r, is_Some (ret !! r) ↔ r ∈ ENCODE_RESOLUTIONS_KEYS.
Proof.
  destruct (proj2 (encodings_info_reports DemoEncodingsInfo.url_from_path
                     (Demo.video 100 720)
                     [Demo.row 1 Demo.mp4_720 "success" "encoded/a.mp4" false "" "";
                      Demo.row 2 Demo.preview "success" "encoded/a.gif" false "" "";
                      Demo.done0]) eq_refl)
    as (ret & Heq & Hdom & _).
  - intros e (Hin & _ & Hchunk & Hng). apply list_elem_of_In in Hin.
    destruct Hin as [<-|[<-|[<-|[]]]].
    + exists 720. split; [reflexivity|].
      apply list_elem_of_In. simpl. auto 10.
    + by destruct Hng.
    + discriminate Hchunk.
  - exists ret. split; [exact Heq|exact Hdom].
Defined.

Lemma encodings_info_key_error_witness :
  ∃ k,
    encodings_info DemoEncodingsInfo.url_from_path (Demo.video 100 720)
      [Demo.row 1 DemoEncodingsInfo.audio_only "success" "encoded/a.mp3"
         false "" ""]
    = inl (KeyError k)
    ∧ k ∉ Some <$> ENCODE_RESOLUTIONS_KEYS.
Proof.
  apply (encodings_info_key_error DemoEncodingsInfo.url_from_path
           (Demo.video 100 720)
           [Demo.row 1 DemoEncodingsInfo.audio_only "success" "encoded/a.mp3"
              false "" ""]).
  - reflexivity.
  - exists (Demo.row 1 DemoEncodingsInfo.audio_only "success" "encoded/a.mp3"
              false "" "").
    split.
    + split; [left|]. split; [reflexivity|]. split; [reflexivity|].
      discriminate.
    + intros Hin. apply list_elem_of_fmap in Hin as (r & Hr & _).
      discriminate Hr.
Defined.

End EncodingsInfoExamples.
